(** * CareGaps agent: a shallow embedding of [agent.py] and of the agent cell
      of [caregaps_driver.py], with the properties of the orchestration loop,
      the input guard, the result formatter and the PHI masker.

    Conventions of the embedding.
    - A Python [str] is a Rocq [string].  The string methods below are exact
      on 7-bit ASCII text (tool names, column names, the fixed patterns and
      messages are all ASCII); a byte above 127 is read as part of a UTF-8
      encoded character and is treated as uncased and non-blank.
    - A Python value that a tool or [json.loads] can return is a [pyval]:
      [None], a bool, an int, a str, a list or a dict with string keys.  A
      dict is an association list in insertion order.  Floats are left out.
    - A function that can raise returns an [outcome].
    - The remote collaborators (the JSON codec of the standard library, the
      model endpoint behind mlflow's stream aggregator, uuid4, [str(e)] of an
      exception) are the fields of the class [Externals]. *)

From Stdlib Require Import String Ascii List ZArith Lia Bool Arith DecimalString.
From stdpp Require Import gmap strings.
Import ListNotations.
Local Open Scope string_scope.

(** ** Python's string methods *)

Module PyStr.

(** [c.isspace()] for a 7-bit character: TAB..CR, FS..US and the space. *)
Definition isspace (c : ascii) : bool :=
  let n := nat_of_ascii c in
  ((9 <=? n)%nat && (n <=? 13)%nat) || ((28 <=? n)%nat && (n <=? 32)%nat).

Definition isdigit (c : ascii) : bool :=
  let n := nat_of_ascii c in (48 <=? n)%nat && (n <=? 57)%nat.

Definition isupper (c : ascii) : bool :=
  let n := nat_of_ascii c in (65 <=? n)%nat && (n <=? 90)%nat.

Definition islower (c : ascii) : bool :=
  let n := nat_of_ascii c in (97 <=? n)%nat && (n <=? 122)%nat.

Definition iscased (c : ascii) : bool := isupper c || islower c.

Definition lower_char (c : ascii) : ascii :=
  if isupper c then ascii_of_nat (nat_of_ascii c + 32) else c.

Definition upper_char (c : ascii) : ascii :=
  if islower c then ascii_of_nat (nat_of_ascii c - 32) else c.

Fixpoint map_chars (f : ascii -> ascii) (s : string) : string :=
  match s with
  | EmptyString => EmptyString
  | String c s' => String (f c) (map_chars f s')
  end.

Fixpoint filter_chars (p : ascii -> bool) (s : string) : string :=
  match s with
  | EmptyString => EmptyString
  | String c s' => if p c then String c (filter_chars p s') else filter_chars p s'
  end.

(** [s.lower()] *)
Definition lower (s : string) : string := map_chars lower_char s.

(** [s.title()]: a character that follows a cased one is lowered, any
    other is raised. *)
Fixpoint title_go (previous_is_cased : bool) (s : string) : string :=
  match s with
  | EmptyString => EmptyString
  | String c s' =>
      String (if previous_is_cased then lower_char c else upper_char c)
             (title_go (iscased c) s')
  end.

Definition title (s : string) : string := title_go false s.

Fixpoint lstrip (s : string) : string :=
  match s with
  | EmptyString => EmptyString
  | String c s' => if isspace c then lstrip s' else s
  end.

Fixpoint rstrip (s : string) : string :=
  match s with
  | EmptyString => EmptyString
  | String c s' =>
      let r := rstrip s' in
      if isspace c && (r =? "") then EmptyString else String c r
  end.

(** [s.strip()] *)
Definition strip (s : string) : string := rstrip (lstrip s).

(** [s.split()]: the maximal runs of non-blank characters. *)
Fixpoint split_go (word : string) (s : string) : list string :=
  match s with
  | EmptyString => if word =? "" then [] else [word]
  | String c s' =>
      if isspace c
      then (if word =? "" then split_go "" s' else word :: split_go "" s')
      else split_go (word ++ String c "") s'
  end.

Definition split (s : string) : list string := split_go "" s.

(** [sub in s] *)
Fixpoint contains (sub s : string) : bool :=
  String.prefix sub s ||
  match s with
  | EmptyString => false
  | String _ s' => contains sub s'
  end.

(** [s.startswith(p)] *)
Definition startswith (p s : string) : bool := String.prefix p s.

(** [s.replace(old, new)]: every occurrence of [old], found from the left
    and without overlap, becomes [new].  [skip] counts the characters of
    an occurrence still to be dropped. *)
Fixpoint replace_go (old new : string) (skip : nat) (s : string) : string :=
  match s with
  | EmptyString => EmptyString
  | String c s' =>
      match skip with
      | S k => replace_go old new k s'
      | O =>
          if String.prefix old s
          then new ++ replace_go old new (String.length old - 1) s'
          else String c (replace_go old new 0 s')
      end
  end.

(** With an empty [old], Python puts [new] around every character. *)
Fixpoint intersperse (new s : string) : string :=
  match s with
  | EmptyString => new
  | String c s' => new ++ String c (intersperse new s')
  end.

Definition replace (old new s : string) : string :=
  if old =? "" then intersperse new s else replace_go old new 0 s.

(** [sep.join(l)] *)
Definition join (sep : string) (l : list string) : string := String.concat sep l.

(** [s[:n]], [s[n:]] and [s[-n:]] for [n > 0] *)
Definition take (n : nat) (s : string) : string := String.substring 0 n s.
Definition drop (n : nat) (s : string) : string :=
  String.substring n (String.length s - n) s.
Definition last_n (n : nat) (s : string) : string :=
  drop (String.length s - n) s.

(** [s[0]]: [None] stands for the IndexError of an empty string. *)
Definition first_char (s : string) : option ascii := String.get 0 s.

(** [s[-1]] *)
Definition last_char (s : string) : option ascii := String.get (String.length s - 1) s.

(** [s.split(c, 1)] when [c in s]: the text before and after the first [c]. *)
Fixpoint split_once (c : ascii) (s : string) : option (string * string) :=
  match s with
  | EmptyString => None
  | String a s' =>
      if Ascii.eqb a c then Some (EmptyString, s')
      else match split_once c s' with
           | Some (l, r) => Some (String a l, r)
           | None => None
           end
  end.

(** [str(n)] of an int *)
Definition of_Z (z : Z) : string := NilZero.string_of_int (Z.to_int z).

Definition of_nat (n : nat) : string := of_Z (Z.of_nat n).

Definition char (c : ascii) : string := String c EmptyString.

End PyStr.

(** ** Python values *)

Local Set Warnings "-register-all".


Inductive pyval : Type :=
| PyNone
| PyBool (b : bool)
| PyInt (z : Z)
| PyStr (s : string)
| PyList (l : list pyval)
| PyDict (d : list (string * pyval)).

(** The keyword arguments of a call, and a record of a result set. *)
Abbreviation pydict := (list (string * pyval)).

(** The exceptions the modelled code can meet.  [RecursionError] is what the
    interpreter raises when the recursion depth given to a recursive
    function is used up; [ValidationError] is pydantic's, which the stream
    aggregator raises on a chunk it cannot read. *)
Inductive exn : Type :=
| JSONDecodeError
| KeyError (key : string)
| IndexError
| TypeError
| AttributeError
| RecursionError
| ValidationError.

Inductive outcome (A : Type) : Type :=
| Ok (a : A)
| Raise (e : exn).
Arguments Ok {A} a.
Arguments Raise {A} e.

Definition bind {A B : Type} (m : outcome A) (f : A -> outcome B) : outcome B :=
  match m with
  | Ok a => f a
  | Raise e => Raise e
  end.

Notation "'let!' x := m 'in' k" := (bind m (fun x => k))
  (at level 10, x binder, m at level 200, k at level 200).

(** A list comprehension whose body can raise: the first exception wins. *)
Fixpoint traverse {A B : Type} (f : A -> outcome B) (l : list A) : outcome (list B) :=
  match l with
  | [] => Ok []
  | a :: l' => let! b := f a in let! bs := traverse f l' in Ok (b :: bs)
  end.

Module Py.

(** [bool(v)] *)
Definition truthy (v : pyval) : bool :=
  match v with
  | PyNone => false
  | PyBool b => b
  | PyInt z => negb (z =? 0)%Z
  | PyStr s => negb (s =? "")
  | PyList l => match l with [] => false | _ => true end
  | PyDict d => match d with [] => false | _ => true end
  end.

Definition hex_digit (n : nat) : ascii :=
  ascii_of_nat (if (n <? 10)%nat then 48 + n else 87 + n).

(** One character of [repr(s)] inside the quote [q]. *)
Definition repr_char (q c : ascii) : string :=
  let n := nat_of_ascii c in
  if (n =? 92)%nat then "\\"
  else if Ascii.eqb c q then String "\" (PyStr.char c)
  else if (n =? 9)%nat then "\t"
  else if (n =? 10)%nat then "\n"
  else if (n =? 13)%nat then "\r"
  else if (n <? 32)%nat || (n =? 127)%nat
       then "\x" ++ PyStr.char (hex_digit (n / 16)) ++ PyStr.char (hex_digit (n mod 16))
  else PyStr.char c.

Fixpoint repr_chars (q : ascii) (s : string) : string :=
  match s with
  | EmptyString => EmptyString
  | String c s' => repr_char q c ++ repr_chars q s'
  end.

(** [repr(s)] of a str: single quotes, unless the text has a single quote
    and no double quote. *)
Definition repr_str (s : string) : string :=
  let q := if PyStr.contains "'" s && negb (PyStr.contains (PyStr.char (ascii_of_nat 34)) s)
           then ascii_of_nat 34 else "'"%char in
  PyStr.char q ++ repr_chars q s ++ PyStr.char q.

(** [repr(v)] *)
Fixpoint repr (v : pyval) : string :=
  match v with
  | PyNone => "None"
  | PyBool true => "True"
  | PyBool false => "False"
  | PyInt z => PyStr.of_Z z
  | PyStr s => repr_str s
  | PyList l => "[" ++ PyStr.join ", " (map repr l) ++ "]"
  | PyDict d =>
      "{" ++ PyStr.join ", " (map (fun kv => repr_str (fst kv) ++ ": " ++ repr (snd kv)) d) ++ "}"
  end.

(** [str(v)]: the text itself for a str, [repr(v)] otherwise. *)
Definition str (v : pyval) : string :=
  match v with
  | PyStr s => s
  | _ => repr v
  end.

(** [d.get(k, default)] and [k in d] on a dict. *)
Fixpoint get (d : pydict) (k : string) : option pyval :=
  match d with
  | [] => None
  | (k', v) :: d' => if k' =? k then Some v else get d' k
  end.

Definition keys (d : pydict) : list string := map fst d.

(** [d[k] = v]: the value of a key already present is replaced where it
    stands, a new key goes to the end. *)
Fixpoint setitem (d : pydict) (k : string) (v : pyval) : pydict :=
  match d with
  | [] => [(k, v)]
  | (k', v') :: d' => if k' =? k then (k', v) :: d' else (k', v') :: setitem d' k v
  end.

End Py.

(** ** The collaborators outside the repository *)

Inductive item : Type :=
| ChatMessage (role content : string)
| TextOutput (text id : string)
| FunctionCall (name arguments call_id : string)
| FunctionCallOutput (call_id output : string).

(** What one model turn leaves behind: [call_llm] streamed through mlflow's
    [output_to_responses_items_stream].  [new_items] are the output items
    that the aggregator appends to the message list (each is also yielded
    as a "done" event: the text of the model, or the tool call it asks for);
    [logged] are the entries that [call_llm] writes to the error sink when
    the endpoint raises ("llm_call_error"); [failure] is the exception that
    ends the stream after these items, if any: [call_llm] answers a failure
    of the endpoint with a chunk that has only [choices], and what the
    aggregator makes of it is its own. *)
Record turn : Type := {
  new_items : list item;
  logged : list (string * string);
  failure : option exn;
}.

Class Externals : Type := {
  (** [json.loads]: [None] stands for a JSONDecodeError, the one exception
      that [mask_result] catches.  The other exceptions of the codec (a
      RecursionError on a deeply nested text) are outside the model. *)
  json_loads : string -> option pyval;
  (** [json.dumps] *)
  json_dumps : pyval -> string;
  (** [str(e)] of a caught exception. *)
  str_exn : exn -> string;
  (** One model turn on the message list sent to the model. *)
  model_turn : list item -> turn;
  (** [str(uuid4())] *)
  uuid4 : string;
}.

(** ** [caregaps_driver.py]: PHI masking *)

Module PHIMasker.

Definition PHI_MASKING_ENABLED : bool := true.

Definition REDACTED : string := "[REDACTED]".

(** Mask patient name, show only initials.  [parts[0][0]] cannot fail: a
    part of [split()] is never empty; the guard of the option is kept as
    the IndexError it would be.  An initial is the first byte of a word,
    which is its first character on 7-bit text. *)
Definition mask_name (name : string) : outcome string :=
  if (name =? "") || (PyStr.strip name =? "") then Ok REDACTED
  else
    let parts := PyStr.split (PyStr.strip name) in
    match parts with
    | [] => Ok REDACTED
    | [p] =>
        match PyStr.first_char p with
        | Some c => Ok (PyStr.char c ++ "***")
        | None => Raise IndexError
        end
    | p :: _ =>
        match PyStr.first_char p, PyStr.first_char (List.last parts "") with
        | Some c, Some d => Ok (PyStr.char c ++ "*** " ++ PyStr.char d ++ "***")
        | _, _ => Raise IndexError
        end
    end.

(** Mask MRN, show only last 4 digits. *)
Definition mask_mrn (mrn : string) : string :=
  if (mrn =? "") || (String.length mrn <? 4)%nat
  then "****" ++ (if negb (mrn =? "") then PyStr.last_n 2 mrn else "")
  else "****" ++ PyStr.last_n 4 mrn.

(** Mask phone number: keep area code, mask rest. *)
Definition mask_phone (phone : string) : string :=
  if phone =? "" then REDACTED
  else
    let digits := PyStr.filter_chars PyStr.isdigit phone in
    if (10 <=? String.length digits)%nat
    then "(" ++ PyStr.take 3 digits ++ ") ***-****"
    else "***-****".

(** Mask email address.  [local[0]] raises on an empty local part. *)
Definition mask_email (email : string) : outcome string :=
  if (email =? "") || negb (PyStr.contains "@" email) then Ok REDACTED
  else
    match PyStr.split_once "@" email with
    | None => Ok REDACTED
    | Some (local, domain) =>
        let! masked_local :=
          if (String.length local <=? 2)%nat
          then match PyStr.first_char local with
               | Some c => Ok (PyStr.char c ++ "***")
               | None => Raise IndexError
               end
          else match PyStr.first_char local, PyStr.last_char local with
               | Some c, Some d => Ok (PyStr.char c ++ "***" ++ PyStr.char d)
               | _, _ => Raise IndexError
               end in
        Ok (masked_local ++ "@" ++ domain)
    end.

(** Mask provider name (keep last name, mask first). *)
Definition mask_provider_name (name : string) : outcome string :=
  if (name =? "") || (PyStr.strip name =? "") then Ok REDACTED
  else
    let name := if PyStr.startswith "Dr. " name then PyStr.drop 4 name else name in
    let parts := PyStr.split (PyStr.strip name) in
    match parts with
    | [] => Ok REDACTED
    | [p] => Ok p
    | p :: _ =>
        match PyStr.first_char p with
        | Some c => Ok (PyStr.char c ++ "*** " ++ List.last parts "")
        | None => Raise IndexError
        end
    end.

Inductive mask_type : Type := name | mrn | phone | email | provider.

(** Determine if a column contains PHI; [None] is [(False, None)]. *)
Definition should_mask_column (column_name : string) : option mask_type :=
  let column_lower := PyStr.lower column_name in
  if PyStr.contains "patient_name" column_lower || (column_lower =? "name") then Some name
  else if PyStr.contains "mrn" column_lower || (column_lower =? "patient_mrn") then Some mrn
  else if PyStr.contains "phone" column_lower || PyStr.contains "contact" column_lower then Some phone
  else if PyStr.contains "email" column_lower then Some email
  else if PyStr.contains "provider_name" column_lower || PyStr.contains "pcp_name" column_lower
       then Some provider
  else None.

(** The body of the loop over [result.items()]: the value stored under
    [key]. *)
Definition mask_value (key : string) (value : pyval) : outcome pyval :=
  match should_mask_column key with
  | Some mt =>
      if Py.truthy value then
        match mt with
        | name => let! m := mask_name (Py.str value) in Ok (PyStr m)
        | mrn => Ok (PyStr (mask_mrn (Py.str value)))
        | phone => Ok (PyStr (mask_phone (Py.str value)))
        | email => let! m := mask_email (Py.str value) in Ok (PyStr m)
        | provider => let! m := mask_provider_name (Py.str value) in Ok (PyStr m)
        end
      else Ok value
  | None => Ok value
  end.

(** The dict branch: [masked = {}], then [masked[key] = ...] for every
    item in order. *)
Fixpoint mask_items (masked : pydict) (items : pydict) : outcome pydict :=
  match items with
  | [] => Ok masked
  | (key, value) :: rest =>
      let! v := mask_value key value in
      mask_items (Py.setitem masked key v) rest
  end.

Definition mask_dict (result : pydict) : outcome pydict := mask_items [] result.

Section WithExternals.
Context `{Externals}.

(** Mask PHI in function results.  [depth] is the recursion depth left
    to the interpreter. *)
Fixpoint mask_result (depth : nat) (result : pyval) : outcome pyval :=
  match depth with
  | O => Raise RecursionError
  | S depth' =>
      if negb PHI_MASKING_ENABLED then Ok result
      else
        match result with
        | PyStr s =>
            match json_loads s with
            | Some data =>
                let! masked_data := mask_result depth' data in
                Ok (PyStr (json_dumps masked_data))
            | None => Ok result
            end
        | PyList l =>
            let! items := traverse (mask_result depth') l in
            Ok (PyList items)
        | PyDict d =>
            let! masked := mask_dict d in
            Ok (PyDict masked)
        | _ => Ok result
        end
  end.

End WithExternals.

End PHIMasker.

(** ** Regular expressions, as far as the fixed patterns use them *)

Module Re.

Inductive regex : Type :=
| Lit (c : ascii)       (* a literal character, compared under IGNORECASE *)
| Space                 (* \s *)
| AnyChar               (* .  any character but a newline *)
| Eol                   (* $  the end, or just before a final newline *)
| Eps
| Seq (a b : regex)
| Star (a : regex).

Definition newline : ascii := ascii_of_nat 10.

(** [a*] against [s]: either stop here, or match [a] once, having moved
    on, and repeat.  [fuel] bounds the repetitions by the length of [s]. *)
Fixpoint star_go (m : string -> (string -> bool) -> bool) (fuel : nat)
    (s : string) (k : string -> bool) : bool :=
  k s ||
  match fuel with
  | O => false
  | S fuel' =>
      m s (fun s' => (String.length s' <? String.length s)%nat && star_go m fuel' s' k)
  end.

(** [matches r s k]: some match of [r] at the start of [s] leaves a rest
    that [k] accepts. *)
Fixpoint matches (r : regex) (s : string) (k : string -> bool) : bool :=
  match r with
  | Lit c =>
      match s with
      | String a s' => Ascii.eqb (PyStr.lower_char a) (PyStr.lower_char c) && k s'
      | EmptyString => false
      end
  | Space =>
      match s with
      | String a s' => PyStr.isspace a && k s'
      | EmptyString => false
      end
  | AnyChar =>
      match s with
      | String a s' => negb (Ascii.eqb a newline) && k s'
      | EmptyString => false
      end
  | Eol => ((s =? "") || (s =? PyStr.char newline)) && k s
  | Eps => k s
  | Seq a b => matches a s (fun s' => matches b s' k)
  | Star a => star_go (matches a) (String.length s) s k
  end.

(** [re.search(r, s, re.IGNORECASE) is not None] *)
Fixpoint search (r : regex) (s : string) : bool :=
  matches r s (fun _ => true) ||
  match s with
  | EmptyString => false
  | String _ s' => search r s'
  end.

Fixpoint lits (s : string) : regex :=
  match s with
  | EmptyString => Eps
  | String c s' => Seq (Lit c) (lits s')
  end.

Definition plus (r : regex) : regex := Seq r (Star r).

Fixpoint seq (l : list regex) : regex :=
  match l with
  | [] => Eps
  | r :: l' => Seq r (seq l')
  end.

End Re.

(** ** Input validation (the same text in both files) *)

Module InputValidator.
Import Re.

(** Dangerous patterns that might indicate SQL injection attempts. *)
Definition DANGEROUS_PATTERNS : list regex :=
  [ seq [lits ";"; Star Space; lits "drop"; plus Space; lits "table"];       (* ;\s*drop\s+table *)
    seq [lits ";"; Star Space; lits "delete"; plus Space; lits "from"];      (* ;\s*delete\s+from *)
    seq [lits ";"; Star Space; lits "update"; plus Space; Star AnyChar;
         plus Space; lits "set"];                                            (* ;\s*update\s+.*\s+set *)
    seq [lits "union"; plus Space; lits "select"];                           (* union\s+select *)
    seq [lits "--"; Star Space; Eol];                                        (* --\s*$ *)
    seq [lits "/*"; Star AnyChar; lits "*/"] ].                              (* /\*.*\*/ *)

(** Check if user input is safe. *)
Definition is_safe_input (user_input : string) : bool * string :=
  if user_input =? "" then (false, "Empty input")
  else if (1000 <? String.length user_input)%nat
  then (false, "Input too long (max 1000 characters)")
  else if existsb (fun pattern => search pattern user_input) DANGEROUS_PATTERNS
  then (false, "Potentially dangerous input detected")
  else (true, "Valid").

(** The characters that [re.sub(r'[\x00-\x1f\x7f-\x9f]', '', ...)] removes
    from 7-bit text. *)
Definition is_control (c : ascii) : bool :=
  let n := nat_of_ascii c in (n <? 32)%nat || (n =? 127)%nat.

(** Sanitize user input: remove any control characters, trim whitespace. *)
Definition sanitize_input (user_input : string) : string :=
  PyStr.strip (PyStr.filter_chars (fun c => negb (is_control c)) user_input).

End InputValidator.

(** ** The function-execution service

    [uc_function_client.execute_function(udf_name, kwargs)]: the result has
    an [error] (None on success) and a [value]; the call itself can raise. *)

Module UC.

Record FunctionResult : Type := {
  error : option string;
  value : pyval;
}.

End UC.

Class FunctionClient : Type := {
  execute_function : string -> pydict -> outcome UC.FunctionResult;
}.

(** ** Tools, the registry and the agent's state *)

(** The part of a tool's invocation schema that the code reads:
    [spec["function"]["name"]] and the parameters that
    [spec["function"]["parameters"]["required"]] declares. *)
Record ToolSpec : Type := {
  function_name : string;
  required : list string;
}.

(** What a call of an executor gives: a value or an exception, and the
    entries it writes to the error sink on the way. *)
Abbreviation exec_result := (outcome pyval * list (string * string))%type.

(** class ToolInfo(BaseModel): the three declared fields.  The executor is
    the function behind the remote call, on its keyword arguments. *)
Record ToolInfo : Type := {
  name : string;
  spec : ToolSpec;
  exec_fn : pydict -> exec_result;
}.

Inductive field_value : Type :=
| FieldStr (s : string)
| FieldSpec (sp : ToolSpec)
| FieldFn (f : pydict -> exec_result).

(** [getattr(tool_info, attr)]: a pydantic model answers for its declared
    fields; [None] is the AttributeError behind a false [hasattr]. *)
Definition ToolInfo_getattr (tool_info : ToolInfo) (attr : string) : option field_value :=
  if attr =? "name" then Some (FieldStr (name tool_info))
  else if attr =? "spec" then Some (FieldSpec (spec tool_info))
  else if attr =? "exec_fn" then Some (FieldFn (exec_fn tool_info))
  else None.

(** [getattr(obj, 'required', [])] on the value of a field: a str, a dict
    and a plain function carry no attribute of that name. *)
Definition getattr_required (obj : field_value) : list string :=
  match obj with
  | FieldStr _ | FieldSpec _ | FieldFn _ => []
  end.

(** [{tool.name: tool for tool in tools}]: a later tool replaces an earlier
    one of the same name. *)
Definition tools_dict (tools : list ToolInfo) : gmap string ToolInfo :=
  foldl (fun d tool => <[name tool := tool]> d) ∅ tools.

(** The message list of a request together with what the agent object and
    the error sink accumulate.  [exec_calls] and [llm_calls] record the calls
    that leave the process: every executor invocation with its keyword
    arguments, and every message list sent to the model. *)
Record AgentState : Type := {
  messages : list item;
  functions_called : list string;
  error_log : list (string * string);
  exec_calls : list (string * pydict);
  llm_calls : list (list item);
}.

Definition append_message (m : item) (st : AgentState) : AgentState :=
  {| messages := messages st ++ [m];
     functions_called := functions_called st;
     error_log := error_log st;
     exec_calls := exec_calls st;
     llm_calls := llm_calls st |}.

Definition set_messages (ms : list item) (st : AgentState) : AgentState :=
  {| messages := ms;
     functions_called := functions_called st;
     error_log := error_log st;
     exec_calls := exec_calls st;
     llm_calls := llm_calls st |}.

Definition record_function (tool_name : string) (st : AgentState) : AgentState :=
  {| messages := messages st;
     functions_called := functions_called st ++ [tool_name];
     error_log := error_log st;
     exec_calls := exec_calls st;
     llm_calls := llm_calls st |}.

Definition set_functions_called (l : list string) (st : AgentState) : AgentState :=
  {| messages := messages st;
     functions_called := l;
     error_log := error_log st;
     exec_calls := exec_calls st;
     llm_calls := llm_calls st |}.

(** AgentLogger.log_error(error_type, error_message, ...) *)
Definition log_error (error_type error_message : string) (st : AgentState) : AgentState :=
  {| messages := messages st;
     functions_called := functions_called st;
     error_log := error_log st ++ [(error_type, error_message)];
     exec_calls := exec_calls st;
     llm_calls := llm_calls st |}.

Definition record_exec (tool_name : string) (kwargs : pydict) (st : AgentState) : AgentState :=
  {| messages := messages st;
     functions_called := functions_called st;
     error_log := error_log st;
     exec_calls := exec_calls st ++ [(tool_name, kwargs)];
     llm_calls := llm_calls st |}.

Definition log_entries (entries : list (string * string)) (st : AgentState) : AgentState :=
{| messages := messages st;
   functions_called := functions_called st;
   error_log := error_log st ++ entries;
   exec_calls := exec_calls st;
   llm_calls := llm_calls st |}.

Definition record_llm (sent : list item) (st : AgentState) : AgentState :=
  {| messages := messages st;
     functions_called := functions_called st;
     error_log := error_log st;
     exec_calls := exec_calls st;
     llm_calls := llm_calls st ++ [sent] |}.

Definition initial_state (ms : list item) : AgentState :=
  {| messages := ms; functions_called := []; error_log := [];
     exec_calls := []; llm_calls := [] |}.

(** [m.get("role")] and [m.get("type")] of the four shapes of message: a
    chat message has a role and no type; the text item of
    [create_text_output_item] is an assistant message; the two function
    items have a type and no role. *)
Definition get_role (m : item) : option string :=
  match m with
  | ChatMessage role _ => Some role
  | TextOutput _ _ => Some "assistant"
  | FunctionCall _ _ _ | FunctionCallOutput _ _ => None
  end.

Definition get_type (m : item) : option string :=
  match m with
  | ChatMessage _ _ => None
  | TextOutput _ _ => Some "message"
  | FunctionCall _ _ _ => Some "function_call"
  | FunctionCallOutput _ _ => Some "function_call_output"
  end.

Definition option_eqb (o : option string) (s : string) : bool :=
  match o with
  | Some x => x =? s
  | None => false
  end.

(** What an iteration of the loop does, decided by the last message. *)
Inductive action : Type :=
| Return
| RunTool (name arguments call_id : string)
| AskModel.

(** The outcome of draining [call_and_run_tools]: the items of the "done"
    events yielded, the action of every iteration, the state left behind and
    the exception that ended the generator, if any. *)
Record run : Type := {
  yielded : list item;
  steps : list action;
  final : AgentState;
  raised : option exn;
}.

Definition APOLOGY : string :=
  "I apologize, but I'm having trouble completing this request. Please try rephrasing or breaking it into simpler questions.".

Definition messages_last (ms : list item) : option item := List.last (map Some ms) None.

(** [last_msg = messages[-1]] and the three-way test on it. *)
Definition next_action (ms : list item) : outcome action :=
  match messages_last ms with
  | None => Raise IndexError
  | Some last_msg =>
      if option_eqb (get_role last_msg) "assistant" then Ok Return
      else if option_eqb (get_type last_msg) "function_call" then
        (* the handler reads the name, the arguments and the call id *)
        match last_msg with
        | FunctionCall n a c => Ok (RunTool n a c)
        | _ => Ok AskModel
        end
      else Ok AskModel
  end.

(** ** The orchestration loop

    [call_and_run_tools] has the same loop in both files; it is written once
    here, over the handler of the file. *)

Section Orchestration.
Context `{Externals}.
Variable handle_tool_call : string -> string -> string -> AgentState -> item * AgentState.

(** The last branch of the loop: the model is called with the messages, and
    what the stream aggregates is appended to them. *)
Definition ask_model (st : AgentState) : list item * AgentState :=
  let t := model_turn (messages st) in
  (new_items t, set_messages (app (messages st) (new_items t))
                  (log_entries (logged t) (record_llm (messages st) st))).

(** The [for iteration in range(max_iter)] loop and what follows it. *)
Fixpoint loop (iterations : nat) (max_iter : nat) (st : AgentState) : run :=
  match iterations with
  | O =>
      (* Max iterations reached *)
      let st := log_error "max_iterations"
                  ("Reached max iterations (" ++ PyStr.of_nat max_iter ++ ")") st in
      {| yielded := [TextOutput APOLOGY uuid4]; steps := []; final := st; raised := None |}
  | S iterations' =>
      match next_action (messages st) with
      | Raise e => {| yielded := []; steps := []; final := st; raised := Some e |}
      | Ok Return => {| yielded := []; steps := [Return]; final := st; raised := None |}
      | Ok (RunTool n a c) =>
          let '(ev, st) := handle_tool_call n a c st in
          let r := loop iterations' max_iter st in
          {| yielded := ev :: yielded r; steps := RunTool n a c :: steps r;
             final := final r; raised := raised r |}
      | Ok AskModel =>
          let stream_end := failure (model_turn (messages st)) in
          let '(new, st) := ask_model st in
          match stream_end with
          | Some e =>
              (* the exception leaves the generator: nothing follows *)
              {| yielded := new; steps := [AskModel]; final := st; raised := Some e |}
          | None =>
              let r := loop iterations' max_iter st in
              {| yielded := app new (yielded r); steps := AskModel :: steps r;
                 final := final r; raised := raised r |}
          end
      end
  end.

End Orchestration.

(** ** [agent.py]: the primary agent *)

Module Agent.

Definition NOT_FOUND : string := "Error: Function not found. Please rephrase your query.".

Definition INSTRUCTION : string :=
  String (ascii_of_nat 10) (String (ascii_of_nat 10)
  "[INSTRUCTION: After presenting this data, you MUST add a '### Next Best Actions:' section with 3-5 specific, actionable recommendations based on this data. Be concrete and clinical in your recommendations.]").

Definition nl : string := PyStr.char (ascii_of_nat 10).

(** Known hallucination tokens. *)
Definition bad_tokens : list string :=
  [ "<|channel|>"; "<|commentary|>"; "commentary"; "channel"; "<|"; "|>" ].

(** Remove hallucinated tokens from function names. *)
Definition _sanitize_function_name (raw_name : string) : string :=
  if raw_name =? "" then raw_name
  else fold_left (fun sanitized token => PyStr.replace token "" sanitized) bad_tokens raw_name.

(** [key.replace('_', ' ').title()], on 7-bit text: the letters that
    [title] cases here are the 26 of ASCII. *)
Definition humanize (key : string) : string := PyStr.title (PyStr.replace "_" " " key).

(** Format dictionary result as readable text. *)
Definition _format_dict_result (result : pydict) : string :=
  PyStr.join nl (map (fun kv => humanize (fst kv) ++ ": " ++ Py.str (snd kv)) result).

(** One data row: [str(row.get(h, ''))[:80]] for every header.  A row that
    is not a dict has no [get]; it is asked for once per header, so not at
    all when there is no header. *)
Definition row_values (headers : list string) (row : pyval) : outcome (list string) :=
  match row with
  | PyDict d =>
      Ok (map (fun h => PyStr.take 80 (Py.str (match Py.get d h with
                                               | Some v => v
                                               | None => PyStr ""
                                               end))) headers)
  | _ =>
      match headers with
      | [] => Ok []
      | _ :: _ => Raise AttributeError
      end
  end.

Definition row_line (headers : list string) (row : pyval) : outcome string :=
  let! values := row_values headers row in
  Ok ("| " ++ PyStr.join " | " values ++ " |").

(** Format list of dicts as a markdown table: the list [lines] before it
    is joined. *)
Definition table_lines (data : list pyval) : outcome (list string) :=
  match data with
  | PyDict first :: _ =>
      let headers := Py.keys first in
      let readable_headers := map humanize headers in
      let! rows := traverse (row_line headers) data in
      Ok (("| " ++ PyStr.join " | " readable_headers ++ " |")
            :: ("|" ++ PyStr.join "|" (map (fun _ => "---") headers) ++ "|")
            :: app rows
                 [ nl ++ "**Total: " ++ PyStr.of_nat (List.length data) ++ " results**";
                   nl ++ "### Next Best Actions:";
                   "Please provide 3-5 specific action items based on this data." ])
  | _ => Raise AttributeError   (* data[0].keys() *)
  end.

Definition _format_table (data : list pyval) : outcome string :=
  match data with
  | [] => Ok "No results found."
  | _ => let! lines := table_lines data in Ok (PyStr.join nl lines)
  end.

(** Format list result as table or bullets. *)
Definition _format_list_result (result : list pyval) : outcome string :=
  match result with
  | [] => Ok "No results found."
  | PyDict _ :: _ => _format_table result
  | _ => Ok (PyStr.join nl (map (fun item => "• " ++ Py.str item) result))
  end.

Section WithExternals.
Context `{Externals}.
Variable _tools_dict : gmap string ToolInfo.

(** Executes the specified tool with the given arguments. *)
Definition execute_tool (tool_name : string) (args : pyval) (st : AgentState)
    : outcome string * AgentState :=
  let st := record_function tool_name st in
  match _tools_dict !! tool_name with
  | None => (Raise (KeyError tool_name), st)
  | Some tool_info =>
      match args with
      | PyDict kwargs =>
          let st := record_exec tool_name kwargs st in
          let '(returned, entries) := exec_fn tool_info kwargs in
          let st := log_entries entries st in
          match returned with
          | Raise e => (Raise e, st)
          | Ok result =>
              let formatted :=
                match result with
                | PyDict d => Ok (_format_dict_result d)
                | PyList l => _format_list_result l
                | _ => Ok (Py.str result)
                end in
              (let! formatted := formatted in
               Ok (match result with
                   | PyList _ | PyDict _ =>
                       if Py.truthy result then formatted ++ INSTRUCTION else formatted
                   | _ => formatted
                   end), st)
          end
      | _ => (Raise TypeError, st)   (* ** of a value that is no mapping *)
      end
  end.

(** Remove empty keys (LLM sometimes generates {"": ""}). *)
Definition drop_empty_keys (args : pyval) : pyval :=
  match args with
  | PyDict d =>
      PyDict (filter (fun kv => negb (fst kv =? "") && negb (PyStr.strip (fst kv) =? "")) d)
  | _ => args
  end.

Definition missing_params_result (required_params : list string) : string :=
  "Error: This function requires parameters. Please provide: " ++ PyStr.join ", " required_params.

(** The required parameters that make the handler stop early, when the
    arguments are empty: those found through [tool_info.parameters]. *)
Definition short_circuit (clean_name : string) (args : pyval) : option (list string) :=
  if negb (Py.truthy args) then
    match _tools_dict !! clean_name with
    | Some tool_info =>
        match ToolInfo_getattr tool_info "parameters" with
        | Some parameters =>
            let required_params := getattr_required parameters in
            match required_params with
            | [] => None
            | _ => Some required_params
            end
        | None => None
        end
    | None => None
    end
  else None.

(** The [try] block of [handle_tool_call]: the result text, or the
    exception it ends with. *)
Definition tool_call_result (raw_name arguments : string) (st : AgentState)
    : outcome string * AgentState :=
  let clean_name := _sanitize_function_name raw_name in
  match json_loads arguments with
  | None => (Raise JSONDecodeError, st)
  | Some args =>
      let args := drop_empty_keys args in
      match short_circuit clean_name args with
      | Some required_params => (Ok (missing_params_result required_params), st)
      | None =>
          match _tools_dict !! clean_name with
          | None => (Ok NOT_FOUND, st)
          | Some _ => execute_tool clean_name args st
          end
      end
  end.

(** Execute tool calls with error handling: returns the item of the
    event and appends it to the messages. *)
Definition handle_tool_call (raw_name arguments call_id : string) (st : AgentState)
    : item * AgentState :=
  let '(r, st) := tool_call_result raw_name arguments st in
  let '(result, st) :=
    match r with
    | Ok result => (result, st)
    | Raise e =>
        (("Error executing tool: " ++ str_exn e)%string,
         log_error "tool_call_error" (str_exn e) st)
    end in
  let tool_call_output := FunctionCallOutput call_id result in
  (tool_call_output, append_message tool_call_output st).

(** Limit conversation history to prevent context overflow. *)
Definition truncate_history (messages : list item) : list item :=
  if (7 <? List.length messages)%nat then
    let system_prompt :=
      match messages with
      | m :: _ => if option_eqb (get_role m) "system" then Some m else None
      | [] => None
      end in
    let recent_messages := skipn (List.length messages - 6) messages in
    match system_prompt with
    | Some p => p :: recent_messages
    | None => recent_messages
    end
  else messages.

(** Call LLM and execute tools with iteration limit. *)
Definition call_and_run_tools (messages : list item) (max_iter : nat) (st : AgentState) : run :=
  loop handle_tool_call max_iter max_iter (set_messages (truncate_history messages) st).

Definition default_max_iter : nat := 10.

Variable SYSTEM_PROMPT : string.

(** [predict_stream] on the list of input messages of the request. *)
Definition predict_stream (input : list item) (st : AgentState) : run :=
  let messages :=
    if negb (SYSTEM_PROMPT =? "") then ChatMessage "system" SYSTEM_PROMPT :: input
    else input in
  call_and_run_tools messages default_max_iter st.

(** [predict]: the items of the drained stream. *)
Definition predict (input : list item) (st : AgentState) : run :=
  predict_stream input st.

End WithExternals.

(** Configure UC Functions. *)
Definition UC_TOOL_NAMES : list string :=
  [ "dev_kiddo.silver.get_top_providers";
    "dev_kiddo.silver.get_patient_360";
    "dev_kiddo.silver.get_gap_categories";
    "dev_kiddo.silver.get_provider_gaps";
    "dev_kiddo.silver.get_long_open_gaps";
    "dev_kiddo.silver.get_outreach_needed";
    "dev_kiddo.silver.get_appointments_with_gaps";
    "dev_kiddo.silver.get_critical_gaps";
    "dev_kiddo.silver.search_patients";
    "dev_kiddo.silver.get_gaps_by_type";
    "dev_kiddo.silver.get_gap_statistics";
    "dev_kiddo.silver.get_department_summary";
    "dev_kiddo.silver.get_gaps_by_age";
    "dev_kiddo.silver.get_gaps_no_appointments";
    "dev_kiddo.silver.get_patient_gaps";
    "dev_kiddo.silver.get_campaign_statistics";
    "dev_kiddo.silver.search_campaign_opportunities";
    "dev_kiddo.silver.get_campaign_opportunities";
    "dev_kiddo.silver.get_patient_campaign_history" ].

Section ToolInfos.
Context `{Externals} `{FunctionClient}.

(** [udf_name = tool_name.replace("__", ".")] *)
Definition udf_name (tool_name : string) : string := PyStr.replace "__" "." tool_name.

(** The executor that [create_tool_info] binds: execute UC function with
    error handling.  The second component is what it writes to the error
    sink. *)
Definition default_exec_fn (udf_name : string) (kwargs : pydict) : exec_result :=
  match execute_function udf_name kwargs with
  | Ok function_result =>
      match UC.error function_result with
      | Some err =>
          (Ok (PyStr ("Error executing " ++ udf_name ++ ": " ++ err)),
           [("function_execution_error", err)])
      | None => (Ok (UC.value function_result), [])
      end
  | Raise e => (Ok (PyStr ("Error: " ++ str_exn e)), [("function_exception", str_exn e)])
  end.

Definition create_tool_info (tool_spec : ToolSpec)
    (exec_fn_param : option (pydict -> exec_result)) : ToolInfo :=
  let tool_name := function_name tool_spec in
  let udf_name := udf_name tool_name in
  {| name := tool_name;
     spec := tool_spec;
     exec_fn := match exec_fn_param with
                | Some f => f
                | None => default_exec_fn udf_name
                end |}.

End ToolInfos.

End Agent.

(** ** [caregaps_driver.py]: the earlier agent, with input validation and
       PHI masking *)

Module Driver.

Definition SHOW_PHI_WARNING : bool := true.

Definition PRIVACY_NOTICE : string :=
  String (ascii_of_nat 10) (String (ascii_of_nat 10) ("---" ++ String (ascii_of_nat 10)
  "‚ö†Ô∏è **Privacy Notice**: Sensitive patient information is partially masked. Names show as initials, MRNs show last 4 digits only, and contact info is redacted. Full details are available in the secure clinical system.")).

Definition PREDICT_ERROR : string :=
  "I apologize, but I encountered an error processing your request. Please try again or contact support.".

Section WithExternals.
Context `{Externals}.
Variable _tools_dict : gmap string ToolInfo.

(** Executes the specified tool with the given arguments. *)
Definition execute_tool (tool_name : string) (args : pyval) (st : AgentState)
    : outcome pyval * AgentState :=
  let st := record_function tool_name st in
  match _tools_dict !! tool_name with
  | None => (Raise (KeyError tool_name), st)
  | Some tool_info =>
      match args with
      | PyDict kwargs =>
          let '(returned, entries) := exec_fn tool_info kwargs in
          (returned, log_entries entries (record_exec tool_name kwargs st))
      | _ => (Raise TypeError, st)
      end
  end.

Definition tool_call_result (tool_name arguments : string) (st : AgentState)
    : outcome string * AgentState :=
  match json_loads arguments with
  | None => (Raise JSONDecodeError, st)
  | Some args =>
      let '(r, st) := execute_tool tool_name args st in
      (let! v := r in Ok (Py.str v), st)
  end.

(** Execute tool calls with error handling. *)
Definition handle_tool_call (tool_name arguments call_id : string) (st : AgentState)
    : item * AgentState :=
  let '(r, st) := tool_call_result tool_name arguments st in
  let '(result, st) :=
    match r with
    | Ok result => (result, st)
    | Raise e =>
        (("Error executing tool: " ++ str_exn e)%string,
         log_error "tool_call_error" (str_exn e) st)
    end in
  let tool_call_output := FunctionCallOutput call_id result in
  (tool_call_output, append_message tool_call_output st).

Definition default_max_iter : nat := 5.

(** Call LLM and execute tools with iteration limit. *)
Definition call_and_run_tools (messages : list item) (max_iter : nat) (st : AgentState) : run :=
  loop handle_tool_call max_iter max_iter (set_messages messages st).

Variable SYSTEM_PROMPT : string.

(** A request is its list of (role, content) messages. *)
Definition to_chat_completions_input (input : list (string * string)) : list item :=
  map (fun m => ChatMessage (fst m) (snd m)) input.

(** Stream prediction with PHI warning: the warning follows the loop
    when the loop ends without an exception. *)
Definition predict_stream (input : list (string * string)) (st : AgentState) : run :=
  let messages := to_chat_completions_input input in
  let messages :=
    if negb (SYSTEM_PROMPT =? "") then ChatMessage "system" SYSTEM_PROMPT :: messages
    else messages in
  let r := call_and_run_tools messages default_max_iter st in
  match raised r with
  | Some _ => r
  | None =>
      if SHOW_PHI_WARNING && PHIMasker.PHI_MASKING_ENABLED
      then {| yielded := app (yielded r) [TextOutput PRIVACY_NOTICE uuid4];
              steps := steps r; final := final r; raised := None |}
      else r
  end.

(** Main prediction method with validation and logging: the output
    items of the response and the state left behind. *)
Definition predict (input : list (string * string)) (st : AgentState)
    : list item * AgentState :=
  let st := set_functions_called [] st in
  let user_query :=
    match List.last (map Some input) None with
    | Some last_input => snd last_input
    | None => ""
    end in
  let '(is_valid, validation_message) := InputValidator.is_safe_input user_query in
  if negb is_valid then
    ([TextOutput ("I cannot process this request: " ++ validation_message) uuid4],
     log_error "input_validation_failed" validation_message st)
  else
    let r := predict_stream input st in
    match raised r with
    | None => (yielded r, final r)
    | Some _ => ([TextOutput PREDICT_ERROR uuid4], final r)
    end.

End WithExternals.

Section ToolInfos.
Context `{Externals} `{FunctionClient}.

(** The recursion depth that the interpreter leaves to [mask_result]. *)
Variable depth : nat.

(** The executor that [create_tool_info] binds: execute UC function with
    error handling and PHI masking.  An exception of the masking is caught
    like one of the call. *)
Definition default_exec_fn (udf_name : string) (kwargs : pydict) : exec_result :=
  match execute_function udf_name kwargs with
  | Ok function_result =>
      match UC.error function_result with
      | Some err =>
          (Ok (PyStr ("Error executing " ++ udf_name ++ ": " ++ err)),
           [("function_execution_error", err)])
      | None =>
          match PHIMasker.mask_result depth (UC.value function_result) with
          | Ok masked_result => (Ok masked_result, [])
          | Raise e => (Ok (PyStr ("Error: " ++ str_exn e)), [("function_exception", str_exn e)])
          end
      end
  | Raise e => (Ok (PyStr ("Error: " ++ str_exn e)), [("function_exception", str_exn e)])
  end.

Definition create_tool_info (tool_spec : ToolSpec)
    (exec_fn_param : option (pydict -> exec_result)) : ToolInfo :=
  let tool_name := function_name tool_spec in
  let udf_name := PyStr.replace "__" "." tool_name in
  {| name := tool_name;
     spec := tool_spec;
     exec_fn := match exec_fn_param with
                | Some f => f
                | None => default_exec_fn udf_name
                end |}.

End ToolInfos.

End Driver.

(** ** Properties of runs, as predicates *)

Definition is_tool_step (a : action) : bool :=
  match a with
  | RunTool _ _ _ => true
  | _ => false
  end.

(** No two tool steps follow each other. *)
Fixpoint no_adjacent_tool_steps (l : list action) : bool :=
  match l with
  | a :: ((b :: _) as l') => negb (is_tool_step a && is_tool_step b) && no_adjacent_tool_steps l'
  | _ => true
  end.

(** The system message that leads a message list, if there is one. *)
Definition leading_system (ms : list item) : list item :=
  match ms with
  | m :: _ => if option_eqb (get_role m) "system" then [m] else []
  | [] => []
  end.

(** Every character of a text satisfies a test. *)
Fixpoint string_forallb (p : ascii -> bool) (s : string) : bool :=
  match s with
  | EmptyString => true
  | String c s' => p c && string_forallb p s'
  end.

(** 7-bit text, on which a byte is a character. *)
Definition seven_bit (s : string) : bool :=
  string_forallb (fun c => (nat_of_ascii c <? 128)%nat) s.

(** Records whose keys and stringified values are 7-bit text. *)
Definition seven_bit_records (rs : list pydict) : bool :=
  forallb (forallb (fun kv => seven_bit (fst kv) && seven_bit (Py.str (snd kv)))) rs.

(** A humanized field name, as the specification words it: every
    underscore is a space, every word starts with a capital letter and goes
    on in small letters. *)
Definition is_letter (c : ascii) : bool :=
  let n := nat_of_ascii c in
  ((65 <=? n)%nat && (n <=? 90)%nat) || ((97 <=? n)%nat && (n <=? 122)%nat).

Definition capital (c : ascii) : ascii :=
  let n := nat_of_ascii c in
  if (97 <=? n)%nat && (n <=? 122)%nat then ascii_of_nat (n - 32) else c.

Definition small (c : ascii) : ascii :=
  let n := nat_of_ascii c in
  if (65 <=? n)%nat && (n <=? 90)%nat then ascii_of_nat (n + 32) else c.

Fixpoint capitalize_words (inside_word : bool) (s : string) : string :=
  match s with
  | EmptyString => EmptyString
  | String c s' =>
      let c := if Ascii.eqb c "_" then " "%char else c in
      String (if inside_word then small c else capital c)
             (capitalize_words (is_letter c) s')
  end.

Definition humanized (key : string) : string := capitalize_words false key.

(** The lines of the table of [_format_table], named: the stringified
    value of a record under a header, its cell, a data row, the header
    row, the separator row and the three lines after the rows. *)
Definition stringified (r : pydict) (h : string) : string :=
  Py.str (match Py.get r h with Some v => v | None => PyStr "" end).

Definition cell (r : pydict) (h : string) : string := PyStr.take 80 (stringified r h).

Definition data_row (headers : list string) (r : pydict) : string :=
  "| " ++ PyStr.join " | " (map (cell r) headers) ++ " |".

Definition header_row (headers : list string) : string :=
  "| " ++ PyStr.join " | " (map humanized headers) ++ " |".

Definition separator_row (headers : list string) : string :=
  "|" ++ PyStr.join "|" (map (fun _ => "---") headers) ++ "|".

Definition footer (n : nat) : list string :=
  [ Agent.nl ++ "**Total: " ++ PyStr.of_nat n ++ " results**";
    Agent.nl ++ "### Next Best Actions:";
    "Please provide 3-5 specific action items based on this data." ].

(** One entry of a masked record. *)
Definition mask_entry (kv : string * pyval) : outcome (string * pyval) :=
  let! v := PHIMasker.mask_value (fst kv) (snd kv) in Ok (fst kv, v).

(** A handler that appends exactly one message, the tool result that
    carries the call id. *)
Definition appends_one_output
    (h : string -> string -> string -> AgentState -> item * AgentState) : Prop :=
  forall n a c st, exists output,
    fst (h n a c st) = FunctionCallOutput c output
    /\ messages (snd (h n a c st)) = app (messages st) [FunctionCallOutput c output].

Definition is_return (a : action) : bool :=
  match a with
  | Return => true
  | _ => false
  end.

(** The entries on which the email mask raises: a truthy value under an
    email column whose text starts with "@". *)
Definition empty_local_part (kv : string * pyval) : bool :=
  match PHIMasker.should_mask_column (fst kv) with
  | Some PHIMasker.email =>
      Py.truthy (snd kv)
      && match PyStr.first_char (Py.str (snd kv)) with
         | Some c => Ascii.eqb c "@"
         | None => false
         end
  | _ => false
  end.

(** A name is clean when no hallucination token occurs in it. *)
Definition clean_name (s : string) : bool :=
  forallb (fun token => negb (PyStr.contains token s)) Agent.bad_tokens.

(** ** A concrete world for the examples

    A codec that knows the few JSON texts the examples use, [str(e)] as
    CPython words it, and model endpoints that follow a script. *)

Module Sample.

Definition dq : string := PyStr.char (ascii_of_nat 34).

Definition json_record : string :=
  "{" ++ dq ++ "patient_name" ++ dq ++ ": " ++ dq ++ "John Smith" ++ dq ++ ", "
      ++ dq ++ "gap_type" ++ dq ++ ": " ++ dq ++ "Flu" ++ dq ++ "}".

Definition record : pydict :=
  [("patient_name", PyStr "John Smith"); ("gap_type", PyStr "Flu")].

Definition json_empty_key : string :=
  "{" ++ dq ++ dq ++ ": " ++ dq ++ dq ++ "}".

Definition loads (s : string) : option pyval :=
  if s =? "{}" then Some (PyDict [])
  else if s =? json_empty_key then Some (PyDict [("", PyStr "")])
  else if s =? json_record then Some (PyDict record)
  else if s =? "[" ++ json_record ++ "]" then Some (PyList [PyDict record])
  else None.

Definition dumps_char (c : ascii) : string :=
  let n := nat_of_ascii c in
  if (n =? 34)%nat then "\" ++ dq
  else if (n =? 92)%nat then "\\"
  else if (n =? 10)%nat then "\n"
  else if (n =? 13)%nat then "\r"
  else if (n =? 9)%nat then "\t"
  else PyStr.char c.

Fixpoint dumps_str (s : string) : string :=
  match s with
  | EmptyString => EmptyString
  | String c s' => dumps_char c ++ dumps_str s'
  end.

Fixpoint dumps (v : pyval) : string :=
  match v with
  | PyNone => "null"
  | PyBool true => "true"
  | PyBool false => "false"
  | PyInt z => PyStr.of_Z z
  | PyStr s => dq ++ dumps_str s ++ dq
  | PyList l => "[" ++ PyStr.join ", " (map dumps l) ++ "]"
  | PyDict d =>
      "{" ++ PyStr.join ", "
               (map (fun kv => dq ++ dumps_str (fst kv) ++ dq ++ ": " ++ dumps (snd kv)) d)
          ++ "}"
  end.

Definition exn_text (e : exn) : string :=
  match e with
  | JSONDecodeError => "Expecting value: line 1 column 1 (char 0)"
  | KeyError key => Py.repr_str key
  | IndexError => "string index out of range"
  | TypeError => "argument after ** must be a mapping"
  | AttributeError => "object has no attribute 'get'"
  | RecursionError => "maximum recursion depth exceeded"
  | ValidationError => "1 validation error for ChatCompletionChunk"
  end.

Definition count_outputs (ms : list item) : nat :=
  List.length (filter (fun m => option_eqb (get_type m) "function_call_output") ms).

(** A model that asks for [get_gap_statistics] until it has seen [n]
    tool results, and then answers. *)
Definition tool_then_answer (n : nat) (ms : list item) : list item :=
  if (count_outputs ms <? n)%nat
  then [FunctionCall "get_gap_statistics" "{}" ("call_" ++ PyStr.of_nat (count_outputs ms))]
  else [TextOutput "There are 42 open gaps." "msg_1"].

Definition world (turn : list item -> list item) : Externals :=
  {| json_loads := loads;
     json_dumps := dumps;
     str_exn := exn_text;
     model_turn := fun ms => {| new_items := turn ms; logged := []; failure := None |};
     uuid4 := "6f1c2a34-0b7d-4e59-9c1a-2d3e4f5a6b7c" |}.

(** A world whose endpoint is down: [call_llm] logs the failure, and the
    stream of the turn ends with the aggregator's exception. *)
Definition endpoint_down : Externals :=
  {| json_loads := loads;
     json_dumps := dumps;
     str_exn := exn_text;
     model_turn := fun _ =>
       {| new_items := [];
          logged := [("llm_call_error", "Connection error.")];
          failure := Some ValidationError |};
     uuid4 := "6f1c2a34-0b7d-4e59-9c1a-2d3e4f5a6b7c" |}.


Definition service_record : FunctionClient :=
  {| execute_function := fun _ _ => Ok {| UC.error := None; UC.value := PyDict record |} |}.

(** A tool with one required parameter, whose executor answers with one
    record, and a tool without parameters. *)
Definition search_patients : ToolInfo :=
  {| name := "search_patients";
     spec := {| function_name := "search_patients"; required := ["search_term"] |};
     exec_fn := fun _ => (Ok (PyList [PyDict record]), []) |}.

Definition get_gap_statistics : ToolInfo :=
  {| name := "get_gap_statistics";
     spec := {| function_name := "get_gap_statistics"; required := [] |};
     exec_fn := fun _ => (Ok (PyDict [("total_gaps", PyInt 42)]), []) |}.

Definition registry : gmap string ToolInfo := tools_dict [search_patients; get_gap_statistics].

Definition PROMPT : string := "You are the CareGaps Assistant for Akron Children's Hospital.".

(** A conversation that has grown past the truncation threshold. *)
Definition nine_messages : list item :=
  [ ChatMessage "system" PROMPT;
    ChatMessage "user" "Show me critical gaps";
    FunctionCall "get_critical_gaps" "{}" "call_0";
    FunctionCallOutput "call_0" "No results found.";
    TextOutput "There are no critical gaps." "msg_0";
    ChatMessage "user" "How many gaps?";
    FunctionCall "get_gap_statistics" "{}" "call_1";
    FunctionCallOutput "call_1" "Total Gaps: 42";
    ChatMessage "user" "And by type?" ].

Definition injection : string := "; DROP TABLE x; --".

(** 1001 characters. *)
Definition long_input : string := String.concat "" (repeat "a" 1001).

Definition answer : item := TextOutput "There are 42 open gaps." "msg_1".

End Sample.

(** ** Vocabulary of the further properties *)

Definition is_model_step (a : action) : bool :=
  match a with
  | AskModel => true
  | _ => false
  end.

Definition model_steps (l : list action) : nat := List.length (List.filter is_model_step l).

Definition tool_steps (l : list action) : nat := List.length (List.filter is_tool_step l).

(** An endpoint and an aggregator that end no turn with an exception. *)
Definition turns_complete `{Externals} : Prop :=
  forall ms : list item, failure (model_turn ms) = None.

(** A text of blanks only, and a text without a newline. *)
Definition blank (s : string) : bool := string_forallb PyStr.isspace s.

(** A text without the characters of the token brackets. *)
Definition no_bracket (s : string) : bool :=
  string_forallb (fun c => negb (Ascii.eqb c "<") && negb (Ascii.eqb c "|")
                           && negb (Ascii.eqb c ">")) s.

(** How a masked entry relates to the entry it comes from: the key is kept;
    the value is kept when the column is no PHI or the value is falsy, and
    is a text otherwise. *)
Definition masked_entry (kv kv' : string * pyval) : Prop :=
  fst kv' = fst kv
  /\ (PHIMasker.should_mask_column (fst kv) = None \/ Py.truthy (snd kv) = false ->
      snd kv' = snd kv)
  /\ (PHIMasker.should_mask_column (fst kv) <> None /\ Py.truthy (snd kv) = true ->
      exists text, snd kv' = PyStr text).

(** A word: a non-empty text without blanks. *)
Definition is_word (s : string) : bool :=
  negb (s =? "") && string_forallb (fun c => negb (PyStr.isspace c)) s.

(** What stands between two words of a name: a text that starts and ends
    with a blank. *)
Definition separates (mid : string) : bool :=
  match PyStr.first_char mid, PyStr.last_char mid with
  | Some a, Some b => PyStr.isspace a && PyStr.isspace b
  | _, _ => false
  end.

Definition one_line (s : string) : bool :=
  string_forallb (fun c => negb (Ascii.eqb c Re.newline)) s.

(** The query that the earlier [predict] validates: the content of the last
    input message. *)
Definition last_query (input : list (string * string)) : string :=
  match List.last (map Some input) None with
  | Some last_input => snd last_input
  | None => ""
  end.

(** The last tool of a list that has a given name. *)
Definition last_named (tool_name : string) (tools : list ToolInfo) : option ToolInfo :=
  List.find (fun tool => name tool =? tool_name) (rev tools).

Definition is_dict (v : pyval) : bool :=
  match v with
  | PyDict _ => true
  | _ => false
  end.


(** A handler that calls no model and at most one executor. *)
Definition bounded_calls
    (h : string -> string -> string -> AgentState -> item * AgentState) : Prop :=
  forall n a c st,
    llm_calls (snd (h n a c st)) = llm_calls st
    /\ List.length (exec_calls (snd (h n a c st))) <= S (List.length (exec_calls st)).

(** * Properties *)

(** ** Strings *)

Lemma contains_cons (sub : string) (c : ascii) (s : string) :
  PyStr.contains sub (String c s) = String.prefix sub (String c s) || PyStr.contains sub s.
Proof. reflexivity. Qed.

Lemma contains_empty (s : string) : PyStr.contains "" s = true.
Proof. destruct s; reflexivity. Qed.

Lemma replace_go_absent (old new s : string) :
  PyStr.contains old s = false -> PyStr.replace_go old new 0 s = s.
Proof.
  induction s as [|c s IH]; intros Hc; [reflexivity|].
  rewrite contains_cons in Hc. apply orb_false_iff in Hc as [Hp Hs].
  cbn [PyStr.replace_go]. rewrite Hp. f_equal. exact (IH Hs).
Qed.

(** Replacing a text that does not occur changes nothing. *)
Lemma replace_absent (old new s : string) :
  PyStr.contains old s = false -> PyStr.replace old new s = s.
Proof.
  intros Hc. unfold PyStr.replace.
  destruct (old =? "") eqn:E.
  - apply String.eqb_eq in E. subst old. rewrite contains_empty in Hc. discriminate.
  - exact (replace_go_absent old new s Hc).
Qed.

(** ** Tool name repair *)

Lemma sanitize_of_clean (s : string) :
  clean_name s = true -> Agent._sanitize_function_name s = s.
Proof.
  intros Hs. unfold clean_name, Agent.bad_tokens in Hs. cbn [forallb] in Hs.
  rewrite !andb_true_iff, !negb_true_iff in Hs.
  destruct Hs as (H1 & H2 & H3 & H4 & H5 & H6 & _).
  unfold Agent._sanitize_function_name.
  destruct (s =? ""); [reflexivity|].
  unfold Agent.bad_tokens. cbn [fold_left].
  rewrite (replace_absent _ _ _ H1), (replace_absent _ _ _ H2), (replace_absent _ _ _ H3),
    (replace_absent _ _ _ H4), (replace_absent _ _ _ H5), (replace_absent _ _ _ H6).
  reflexivity.
Qed.

(** C4, as the code has it: repairing a name in which none of the
    hallucination tokens occurs returns it unchanged, and repairing
    "get_stats<|channel|>commentary" yields "get_stats". *)
Theorem sanitize_clean_name_unchanged :
  (forall s : string, clean_name s = true -> Agent._sanitize_function_name s = s)
  /\ Agent._sanitize_function_name "get_stats<|channel|>commentary" = "get_stats".
Proof. split; [exact sanitize_of_clean | reflexivity]. Qed.

Lemma sanitize_clean_name_unchanged_witness :
  clean_name "dev_kiddo__silver__get_patient_360" = true
  /\ Agent._sanitize_function_name "dev_kiddo__silver__get_patient_360"
     = "dev_kiddo__silver__get_patient_360".
Proof.
  split; [reflexivity|].
  apply (proj1 sanitize_clean_name_unchanged). reflexivity.
Defined.

(** C4 as stated fails: removing "<|" from "chan<|nel" leaves "channel", which
    a second repair removes. *)
Lemma sanitize_not_idempotent :
  Agent._sanitize_function_name (Agent._sanitize_function_name "chan<|nel")
  <> Agent._sanitize_function_name "chan<|nel".
Proof. vm_compute. discriminate. Qed.

(** Repair is idempotent on every name whose repair is clean. *)
Lemma sanitize_idempotent_when_clean (s : string) :
  clean_name (Agent._sanitize_function_name s) = true ->
  Agent._sanitize_function_name (Agent._sanitize_function_name s)
  = Agent._sanitize_function_name s.
Proof. apply sanitize_of_clean. Qed.

(** ** History truncation *)

Lemma length_recent (ms : list item) :
  7 < List.length ms -> List.length (skipn (List.length ms - 6) ms) = 6.
Proof. intros Hlen. rewrite List.length_skipn. lia. Qed.

Lemma truncate_history_long (ms : list item) :
  7 < List.length ms ->
  Agent.truncate_history ms = app (leading_system ms) (skipn (List.length ms - 6) ms).
Proof.
  intros Hlen. unfold Agent.truncate_history, leading_system.
  apply Nat.ltb_lt in Hlen. rewrite Hlen.
  destruct ms as [|m rest]; [reflexivity|].
  destruct (option_eqb (get_role m) "system"); reflexivity.
Qed.

Lemma length_leading_system (ms : list item) : List.length (leading_system ms) <= 1.
Proof.
  unfold leading_system. destruct ms as [|m rest]; simpl; [lia|].
  destruct (option_eqb (get_role m) "system"); simpl; lia.
Qed.

(** C5: a message list of more than 7 messages is cut, before the first
    iteration, to the leading system message (when the first message has the
    role "system") followed by exactly its last 6 messages, so at most 7
    messages are kept and the system message survives; a list of 7 messages
    or fewer is unchanged. *)
Theorem truncate_history_spec `{Externals} (tools : gmap string ToolInfo)
    (ms : list item) (max_iter : nat) (st : AgentState) :
  Agent.call_and_run_tools tools ms max_iter st
  = loop (Agent.handle_tool_call tools) max_iter max_iter
         (set_messages (Agent.truncate_history ms) st)
  /\ (List.length ms <= 7 -> Agent.truncate_history ms = ms)
  /\ (7 < List.length ms ->
      Agent.truncate_history ms = app (leading_system ms) (skipn (List.length ms - 6) ms)
      /\ List.length (skipn (List.length ms - 6) ms) = 6
      /\ (exists front, ms = app front (skipn (List.length ms - 6) ms))
      /\ List.length (Agent.truncate_history ms) <= 7
      /\ (forall m rest, ms = m :: rest -> get_role m = Some "system" ->
          exists recent, Agent.truncate_history ms = m :: recent /\ List.length recent = 6)).
Proof.
  split; [reflexivity|]. split.
  - intros Hlen. unfold Agent.truncate_history.
    destruct (7 <? List.length ms)%nat eqn:E; [|reflexivity].
    apply Nat.ltb_lt in E. lia.
  - intros Hlen. pose proof (length_recent ms Hlen) as Hrec.
    pose proof (truncate_history_long ms Hlen) as Htr.
    split; [exact Htr|]. split; [exact Hrec|]. split.
    { exists (firstn (List.length ms - 6) ms). symmetry. apply firstn_skipn. }
    split.
    { rewrite Htr, List.length_app, Hrec. pose proof (length_leading_system ms). lia. }
    intros m rest -> Hrole. exists (skipn (List.length (m :: rest) - 6) (m :: rest)).
    split; [|exact Hrec].
    rewrite Htr. unfold leading_system. rewrite Hrole. reflexivity.
Qed.

Lemma truncate_history_spec_witness :
  7 < List.length Sample.nine_messages
  /\ Agent.truncate_history Sample.nine_messages
     = app (leading_system Sample.nine_messages) (skipn (List.length Sample.nine_messages - 6) Sample.nine_messages)
  /\ List.length (Agent.truncate_history Sample.nine_messages) <= 7.
Proof.
  assert (Hlen : 7 < List.length Sample.nine_messages) by (simpl; lia).
  split; [exact Hlen|].
  pose proof (@truncate_history_spec (Sample.world (fun _ => [])) ∅ Sample.nine_messages 10
                (initial_state [])) as (_ & _ & Hlong).
  destruct (Hlong Hlen) as (Htr & _ & _ & Hle & _).
  split; [exact Htr | exact Hle].
Defined.

(** ** Result formatting *)

Lemma take_length (n : nat) (s : string) : String.length (PyStr.take n s) <= n.
Proof.
  unfold PyStr.take. revert n.
  induction s as [|c s IH]; intros [|n]; simpl; try lia.
  specialize (IH n). lia.
Qed.

Lemma traverse_row_line (headers : list string) (rs : list pydict) :
  traverse (Agent.row_line headers) (map PyDict rs) = Ok (map (data_row headers) rs).
Proof.
  induction rs as [|r rs IH]; [reflexivity|].
  cbn [map traverse]. rewrite IH. reflexivity.
Qed.

Lemma take_cut (n : nat) (s : string) :
  exists cut, s = PyStr.take n s ++ cut
              /\ String.length (PyStr.take n s) = Nat.min n (String.length s).
Proof.
  unfold PyStr.take. revert n. induction s as [|c s IH]; intros [|n].
  - exists "". split; reflexivity.
  - exists "". split; reflexivity.
  - exists (String c s). split; reflexivity.
  - destruct (IH n) as (cut & Hs & Hl). exists cut. split.
    + change (String c s = String c (String.substring 0 n s ++ cut)). f_equal. exact Hs.
    + simpl. rewrite Hl. reflexivity.
Qed.

(** [replace('_', ' ')] changes the underscores, one by one. *)
Lemma replace_underscore (s : string) :
  PyStr.replace "_" " " s
  = PyStr.map_chars (fun c => if Ascii.eqb c "_" then " "%char else c) s.
Proof.
  unfold PyStr.replace. change ("_" =? "") with false. cbv iota.
  induction s as [|c s IH]; [reflexivity|].
  cbn [PyStr.replace_go PyStr.map_chars String.prefix String.length Nat.sub].
  destruct (ascii_dec "_" c) as [<-|Hne].
  - assert (E : String.prefix "" s = true) by (destruct s; reflexivity).
    rewrite E. change (Ascii.eqb "_" "_") with true. cbv iota.
    change (String " " (PyStr.replace_go "_" " " 0 s)
            = String " " (PyStr.map_chars
                            (fun c => if Ascii.eqb c "_" then " "%char else c) s)).
    rewrite IH. reflexivity.
  - assert (E : Ascii.eqb c "_" = false).
    { apply Ascii.eqb_neq. intros ->. apply Hne. reflexivity. }
    rewrite E, IH. reflexivity.
Qed.

Lemma title_go_capitalize (inside_word : bool) (s : string) :
  PyStr.title_go inside_word
    (PyStr.map_chars (fun c => if Ascii.eqb c "_" then " "%char else c) s)
  = capitalize_words inside_word s.
Proof.
  revert inside_word. induction s as [|c s IH]; intros inside_word; [reflexivity|].
  cbn [PyStr.map_chars PyStr.title_go capitalize_words]. rewrite IH. reflexivity.
Qed.

(** The header that the code computes is the humanized field name. *)
Lemma humanize_humanized (key : string) : Agent.humanize key = humanized key.
Proof.
  unfold Agent.humanize, PyStr.title, humanized.
  rewrite replace_underscore. apply title_go_capitalize.
Qed.

Lemma table_lines_records (first : pydict) (rest : list pydict) :
  Agent.table_lines (map PyDict (first :: rest))
  = Ok (header_row (Py.keys first) :: separator_row (Py.keys first)
          :: app (map (data_row (Py.keys first)) (first :: rest))
                 (footer (List.length (first :: rest)))).
Proof.
  unfold Agent.table_lines. cbn [map].
  change (PyDict first :: map PyDict rest) with (map PyDict (first :: rest)).
  rewrite traverse_row_line, List.length_map. cbn [bind].
  rewrite (map_ext _ _ humanize_humanized). reflexivity.
Qed.

(** C7: on records of 7-bit text, a non-empty list of N records renders as
    the header row of the humanized field names (underscores as spaces,
    every word capitalized), one separator row, exactly N data rows whose
    cells are the stringified values cut to 80 characters, and the footer
    whose first line states "Total: N results"; an empty list renders as
    "No results found.". *)
Theorem format_list_result_table (first : pydict) (rest : list pydict) :
  let rs := first :: rest in
  let headers := Py.keys first in
  seven_bit_records rs = true ->
  Agent._format_list_result (map PyDict rs)
  = Ok (PyStr.join Agent.nl
          (header_row headers :: separator_row headers
             :: app (map (data_row headers) rs) (footer (List.length rs))))
  /\ List.length (map (data_row headers) rs) = List.length rs
  /\ (forall (r : pydict) (h : string),
        String.length (cell r h) <= 80
        /\ String.length (cell r h) = Nat.min 80 (String.length (stringified r h))
        /\ exists cut, stringified r h = cell r h ++ cut)
  /\ (exists more, footer (List.length rs)
        = (Agent.nl ++ "**Total: " ++ PyStr.of_nat (List.length rs) ++ " results**") :: more)
  /\ Agent._format_list_result [] = Ok "No results found.".
Proof.
  intros rs headers _. split; [|split; [|split; [|split]]].
  - subst rs headers.
    change (Agent._format_list_result (map PyDict (first :: rest)))
      with (let! lines := Agent.table_lines (map PyDict (first :: rest)) in
            Ok (PyStr.join Agent.nl lines)).
    rewrite table_lines_records. reflexivity.
  - apply List.length_map.
  - intros r h. destruct (take_cut 80 (stringified r h)) as (cut & Hcut & Hlen).
    split; [apply take_length|]. split; [exact Hlen|]. exists cut. exact Hcut.
  - eexists. reflexivity.
  - reflexivity.
Qed.

Lemma format_list_result_table_witness :
  Agent._format_list_result
    [PyDict [("patient_name", PyStr "John Smith"); ("gap_type", PyStr "Flu")];
     PyDict [("patient_name", PyStr "Ann Lee"); ("gap_type", PyStr "HPV")]]
  = Ok (PyStr.join Agent.nl
          [ "| Patient Name | Gap Type |";
            "|---|---|";
            "| John Smith | Flu |";
            "| Ann Lee | HPV |";
            Agent.nl ++ "**Total: 2 results**";
            Agent.nl ++ "### Next Best Actions:";
            "Please provide 3-5 specific action items based on this data." ]).
Proof.
  exact (proj1 (format_list_result_table
                  [("patient_name", PyStr "John Smith"); ("gap_type", PyStr "Flu")]
                  [[("patient_name", PyStr "Ann Lee"); ("gap_type", PyStr "HPV")]]
                  eq_refl)).
Defined.

(** ** PHI masking *)

Lemma substring_length (n m : nat) (s : string) :
  n + m <= String.length s -> String.length (String.substring n m s) = m.
Proof.
  revert n m. induction s as [|c s IH]; intros [|n] [|m]; simpl; intros Hle; try lia.
  - rewrite (IH 0 m); simpl; lia.
  - apply (IH n 0). lia.
  - apply (IH n (S m)). lia.
Qed.

Lemma substring_whole (s : string) : String.substring 0 (String.length s) s = s.
Proof. induction s as [|c s IH]; simpl; [reflexivity | f_equal; exact IH]. Qed.

Lemma substring_split (n : nat) (s : string) :
  n <= String.length s ->
  s = String.substring 0 n s ++ String.substring n (String.length s - n) s.
Proof.
  revert n. induction s as [|c s IH]; intros [|n] Hle.
  - reflexivity.
  - simpl in Hle. lia.
  - change (String c s = String.substring 0 (String.length (String c s)) (String c s)).
    symmetry. apply substring_whole.
  - simpl in Hle.
    transitivity (String c (String.substring 0 n s
                            ++ String.substring n (String.length s - n) s)).
    + f_equal. apply IH. lia.
    + reflexivity.
Qed.

(** The last [n] characters of a text that has at least [n]. *)
Lemma last_n_spec (n : nat) (s : string) :
  n <= String.length s ->
  exists front, s = front ++ PyStr.last_n n s /\ String.length (PyStr.last_n n s) = n.
Proof.
  intros Hle. unfold PyStr.last_n, PyStr.drop.
  exists (String.substring 0 (String.length s - n) s). split.
  - apply substring_split. lia.
  - rewrite substring_length by lia. lia.
Qed.

Lemma mask_mrn_long (mrn : string) :
  4 <= String.length mrn -> PHIMasker.mask_mrn mrn = "****" ++ PyStr.last_n 4 mrn.
Proof.
  intros Hlen. unfold PHIMasker.mask_mrn.
  destruct (mrn =? "") eqn:E.
  - apply String.eqb_eq in E. subst. simpl in Hlen. lia.
  - destruct (String.length mrn <? 4)%nat eqn:E4; [|reflexivity].
    apply Nat.ltb_lt in E4. lia.
Qed.

Lemma traverse_mask_result_dicts `{Externals} (depth : nat) (rs : list pydict) :
  traverse (PHIMasker.mask_result (S depth)) (map PyDict rs)
  = (let! ms := traverse PHIMasker.mask_dict rs in Ok (map PyDict ms)).
Proof.
  induction rs as [|r rs IH]; [reflexivity|].
  cbn [map traverse]. rewrite IH.
  cbn [PHIMasker.mask_result PHIMasker.PHI_MASKING_ENABLED negb].
  destruct (PHIMasker.mask_dict r); [|reflexivity]. cbn [bind].
  destruct (traverse PHIMasker.mask_dict rs); reflexivity.
Qed.

Lemma mask_result_dict `{Externals} (depth : nat) (d : pydict) :
  PHIMasker.mask_result (S depth) (PyDict d)
  = (let! m := PHIMasker.mask_dict d in Ok (PyDict m)).
Proof. reflexivity. Qed.

Lemma mask_result_list `{Externals} (depth : nat) (l : list pyval) :
  PHIMasker.mask_result (S depth) (PyList l)
  = (let! items := traverse (PHIMasker.mask_result depth) l in Ok (PyList items)).
Proof. reflexivity. Qed.

Lemma mask_result_records `{Externals} (depth : nat) (rs : list pydict) :
  PHIMasker.mask_result (S (S depth)) (PyList (map PyDict rs))
  = (let! ms := traverse PHIMasker.mask_dict rs in Ok (PyList (map PyDict ms))).
Proof.
  rewrite mask_result_list, traverse_mask_result_dicts.
  destruct (traverse PHIMasker.mask_dict rs); reflexivity.
Qed.

Lemma mask_result_json `{Externals} (depth : nat) (s : string) (v : pyval) :
  json_loads s = Some v ->
  PHIMasker.mask_result (S depth) (PyStr s)
  = (let! m := PHIMasker.mask_result depth v in Ok (PyStr (json_dumps m))).
Proof.
  intros Hs. cbn [PHIMasker.mask_result PHIMasker.PHI_MASKING_ENABLED negb].
  rewrite Hs. reflexivity.
Qed.

(** C6: "John Smith" masks to "J*** S***"; an identifier of 9 characters or
    more masks to "****" followed by its last 4; and [mask_result] applies
    the masking of a record in the same way to a record, to a list of
    records and to the JSON text of either, which is parsed, masked and
    serialized again, while a text that is no JSON passes unchanged. *)
Theorem phi_masking_uniform `{Externals} :
  PHIMasker.mask_name "John Smith" = Ok "J*** S***"
  /\ (forall mrn : string, 9 <= String.length mrn ->
      exists front last4,
        mrn = front ++ last4 /\ String.length last4 = 4
        /\ PHIMasker.mask_mrn mrn = "****" ++ last4)
  /\ (forall (depth : nat) (d : pydict),
      PHIMasker.mask_result (S depth) (PyDict d)
      = (let! m := PHIMasker.mask_dict d in Ok (PyDict m)))
  /\ (forall (depth : nat) (rs : list pydict),
      PHIMasker.mask_result (S (S depth)) (PyList (map PyDict rs))
      = (let! ms := traverse PHIMasker.mask_dict rs in Ok (PyList (map PyDict ms))))
  /\ (forall (depth : nat) (s : string) (d : pydict),
      json_loads s = Some (PyDict d) ->
      PHIMasker.mask_result (S (S depth)) (PyStr s)
      = (let! m := PHIMasker.mask_dict d in Ok (PyStr (json_dumps (PyDict m)))))
  /\ (forall (depth : nat) (s : string) (rs : list pydict),
      json_loads s = Some (PyList (map PyDict rs)) ->
      PHIMasker.mask_result (S (S (S depth))) (PyStr s)
      = (let! ms := traverse PHIMasker.mask_dict rs in
         Ok (PyStr (json_dumps (PyList (map PyDict ms))))))
  /\ (forall (depth : nat) (s : string),
      json_loads s = None -> PHIMasker.mask_result (S depth) (PyStr s) = Ok (PyStr s)).
Proof.
  split; [reflexivity|]. split.
  { intros mrn Hlen. destruct (last_n_spec 4 mrn) as (front & Hsplit & Hl4); [lia|].
    exists front, (PyStr.last_n 4 mrn). split; [exact Hsplit|]. split; [exact Hl4|].
    apply mask_mrn_long. lia. }
  split; [intros; apply mask_result_dict|].
  split; [intros; apply mask_result_records|].
  split.
  { intros depth s d Hs. rewrite (mask_result_json _ _ _ Hs), mask_result_dict.
    destruct (PHIMasker.mask_dict d); reflexivity. }
  split.
  { intros depth s rs Hs. rewrite (mask_result_json _ _ _ Hs), mask_result_records.
    destruct (traverse PHIMasker.mask_dict rs); reflexivity. }
  intros depth s Hs. cbn [PHIMasker.mask_result PHIMasker.PHI_MASKING_ENABLED negb].
  rewrite Hs. reflexivity.
Qed.

Lemma phi_masking_uniform_witness :
  let W := Sample.world (fun _ => []) in
  9 <= String.length "123456789"
  /\ (exists front last4,
        "123456789" = front ++ last4 /\ String.length last4 = 4
        /\ PHIMasker.mask_mrn "123456789" = "****" ++ last4)
  /\ @json_loads W Sample.json_record = Some (PyDict Sample.record)
  /\ @PHIMasker.mask_result W 2 (PyStr Sample.json_record)
     = Ok (PyStr (Sample.dumps (PyDict [("patient_name", PyStr "J*** S***");
                                         ("gap_type", PyStr "Flu")])))
  /\ @json_loads W "Error: timeout" = None
  /\ @PHIMasker.mask_result W 1 (PyStr "Error: timeout") = Ok (PyStr "Error: timeout").
Proof.
  intros W.
  destruct (@phi_masking_uniform W) as (_ & Hmrn & _ & _ & Hjson & _ & Hpass).
  assert (H9 : 9 <= String.length "123456789") by (simpl; lia).
  split; [exact H9|]. split; [exact (Hmrn "123456789" H9)|].
  split; [reflexivity|]. split.
  { rewrite (Hjson 0 Sample.json_record Sample.record eq_refl). reflexivity. }
  split; [reflexivity|].
  apply (Hpass 0 "Error: timeout"). reflexivity.
Defined.

(** *** The frame of [mask_result] on a record *)

Lemma mask_value_frame (key : string) (value : pyval) :
  PHIMasker.should_mask_column key = None \/ Py.truthy value = false ->
  PHIMasker.mask_value key value = Ok value.
Proof.
  unfold PHIMasker.mask_value. intros [Hk | Hv].
  - rewrite Hk. reflexivity.
  - rewrite Hv. destruct (PHIMasker.should_mask_column key); reflexivity.
Qed.

Lemma setitem_fresh (d : pydict) (k : string) (v : pyval) :
  k ∉ Py.keys d -> Py.setitem d k v = app d [(k, v)].
Proof.
  induction d as [|[k' v'] d IH]; intros Hk; [reflexivity|].
  unfold Py.keys in Hk. cbn [map fst] in Hk.
  apply not_elem_of_cons in Hk as [Hne Hk].
  cbn [Py.setitem]. destruct (k' =? k) eqn:E.
  - apply String.eqb_eq in E. congruence.
  - cbn [app]. f_equal. exact (IH Hk).
Qed.

(** With distinct keys, the loop over the items builds the record entry by
    entry, in order. *)
Lemma mask_items_entries (masked items : pydict) :
  NoDup (app (Py.keys masked) (Py.keys items)) ->
  PHIMasker.mask_items masked items
  = (let! entries := traverse mask_entry items in Ok (app masked entries)).
Proof.
  revert masked. induction items as [|[k v] items IH]; intros masked Hnd.
  - cbn. rewrite app_nil_r. reflexivity.
  - cbn [PHIMasker.mask_items traverse]. unfold mask_entry at 1. cbn [fst snd].
    destruct (PHIMasker.mask_value k v) as [v'|e]; [|reflexivity]. cbn [bind].
    assert (Hfresh : k ∉ Py.keys masked).
    { apply NoDup_app in Hnd as (_ & Hdisj & _). intros Hin.
      apply (Hdisj k Hin). unfold Py.keys. cbn [map fst]. apply elem_of_cons. left. reflexivity. }
    rewrite (setitem_fresh _ _ _ Hfresh), IH.
    + destruct (traverse mask_entry items); [|reflexivity]. cbn [bind].
      rewrite <- app_assoc. reflexivity.
    + unfold Py.keys in *. rewrite map_app, <- app_assoc. exact Hnd.
Qed.

Lemma traverse_Forall2 {A B : Type} (f : A -> outcome B) (l : list A) (l' : list B) :
  traverse f l = Ok l' -> Forall2 (fun a b => f a = Ok b) l l'.
Proof.
  revert l'. induction l as [|a l IH]; intros l' Ht.
  - cbn in Ht. injection Ht as <-. constructor.
  - cbn [traverse] in Ht. destruct (f a) as [b|e] eqn:Ea; [|discriminate].
    cbn [bind] in Ht. destruct (traverse f l) as [bs|e]; [|discriminate].
    cbn [bind] in Ht. injection Ht as <-. constructor; [exact Ea | apply IH; reflexivity].
Qed.

(** When [mask_result] returns on a record with distinct keys, the result is
    a record with the same keys in the same order, in which every value
    under a column that is no PHI, and every falsy value, is the original. *)
Lemma mask_result_dict_frame `{Externals} (depth : nat) (d : pydict) (r : pyval) :
  NoDup (Py.keys d) ->
  PHIMasker.mask_result (S depth) (PyDict d) = Ok r ->
  exists m, r = PyDict m /\ Py.keys m = Py.keys d
    /\ Forall2 (fun kv kv' =>
                  fst kv' = fst kv
                  /\ (PHIMasker.should_mask_column (fst kv) = None \/ Py.truthy (snd kv) = false ->
                      snd kv' = snd kv)) d m.
Proof.
  intros Hnd Hr. rewrite mask_result_dict in Hr. unfold PHIMasker.mask_dict in Hr.
  rewrite mask_items_entries in Hr by exact Hnd.
  destruct (traverse mask_entry d) as [m|e] eqn:Et; [|discriminate].
  cbn in Hr. injection Hr as <-. exists m. split; [reflexivity|].
  apply traverse_Forall2 in Et.
  assert (HF : Forall2 (fun kv kv' =>
                  fst kv' = fst kv
                  /\ (PHIMasker.should_mask_column (fst kv) = None \/ Py.truthy (snd kv) = false ->
                      snd kv' = snd kv)) d m).
  { induction Et as [|kv kv' l l' Hkv _ IH]; constructor; [|apply IH].
    - unfold mask_entry in Hkv.
      destruct (PHIMasker.mask_value (fst kv) (snd kv)) as [v'|e] eqn:Ev; [|discriminate].
      cbn in Hkv. injection Hkv as <-. split; [reflexivity|].
      intros Hframe. rewrite (mask_value_frame _ _ Hframe) in Ev. cbn. congruence.
    - apply NoDup_cons in Hnd as [_ Hnd]. exact Hnd. }
  split; [|exact HF].
  clear -HF. unfold Py.keys. induction HF as [|kv kv' l l' [Hk _] _ IH]; [reflexivity|].
  cbn [map]. rewrite Hk, IH. reflexivity.
Qed.

(** *** Where the masks return *)

Lemma split_go_nonempty (word s : string) :
  Forall (fun p => p <> "") (PyStr.split_go word s).
Proof.
  revert word. induction s as [|c s IH]; intros word; cbn [PyStr.split_go].
  - destruct (word =? "") eqn:E; [constructor|].
    apply String.eqb_neq in E. constructor; [exact E | constructor].
  - destruct (PyStr.isspace c); [|apply IH].
    destruct (word =? "") eqn:E; [apply IH|].
    apply String.eqb_neq in E. constructor; [exact E | apply IH].
Qed.

Lemma first_char_nonempty (p : string) :
  p <> "" -> exists c, PyStr.first_char p = Some c.
Proof. destruct p as [|c p]; [contradiction | intros _; exists c; reflexivity]. Qed.

Lemma last_char_nonempty (p : string) :
  p <> "" -> exists c, PyStr.last_char p = Some c.
Proof.
  unfold PyStr.last_char. induction p as [|a p IH]; [contradiction|]. intros _.
  destruct p as [|b p]; [exists a; reflexivity|].
  destruct IH as (c & Hc); [discriminate|]. exists c.
  cbn [String.length Nat.sub] in *. rewrite Nat.sub_0_r in *. exact Hc.
Qed.

Lemma list_last_Forall {A : Type} (P : A -> Prop) (l : list A) (d : A) :
  l <> [] -> Forall P l -> P (List.last l d).
Proof.
  intros Hne HF. rewrite (app_removelast_last d Hne) in HF.
  apply Forall_app in HF as [_ HF]. inversion HF; assumption.
Qed.

Lemma mask_name_returns (name : string) : exists m, PHIMasker.mask_name name = Ok m.
Proof.
  unfold PHIMasker.mask_name.
  destruct ((name =? "") || (PyStr.strip name =? "")); [eauto|].
  pose proof (split_go_nonempty "" (PyStr.strip name)) as HF. fold (PyStr.split (PyStr.strip name)) in HF.
  destruct (PyStr.split (PyStr.strip name)) as [|p [|q rest]] eqn:E; [eauto| |].
  - inversion HF as [|? ? Hp _]; subst.
    destruct (first_char_nonempty p Hp) as (c & ->). eauto.
  - assert (Hp : p <> "") by (inversion HF; assumption).
    destruct (first_char_nonempty p Hp) as (c & ->).
    destruct (first_char_nonempty (List.last (p :: q :: rest) "")) as (d & ->); [|eauto].
    apply (list_last_Forall (fun x => x <> "")); [discriminate | exact HF].
Qed.

Lemma mask_provider_name_returns (name : string) :
  exists m, PHIMasker.mask_provider_name name = Ok m.
Proof.
  unfold PHIMasker.mask_provider_name.
  destruct ((name =? "") || (PyStr.strip name =? "")); [eauto|].
  set (name' := if PyStr.startswith "Dr. " name then PyStr.drop 4 name else name).
  pose proof (split_go_nonempty "" (PyStr.strip name')) as HF.
  fold (PyStr.split (PyStr.strip name')) in HF.
  destruct (PyStr.split (PyStr.strip name')) as [|p [|q rest]] eqn:E; [eauto|eauto|].
  assert (Hp : p <> "") by (inversion HF; assumption).
  destruct (first_char_nonempty p Hp) as (c & ->). eauto.
Qed.

Lemma split_once_empty_local (c : ascii) (s rest : string) :
  PyStr.split_once c s = Some ("", rest) -> PyStr.first_char s = Some c.
Proof.
  destruct s as [|a s]; [discriminate|]. cbn [PyStr.split_once].
  destruct (Ascii.eqb a c) eqn:E.
  - apply Ascii.eqb_eq in E. subst. reflexivity.
  - destruct (PyStr.split_once c s) as [[l r]|]; discriminate.
Qed.

Lemma mask_email_returns (email : string) :
  PyStr.first_char email <> Some "@"%char -> exists m, PHIMasker.mask_email email = Ok m.
Proof.
  intros Hfirst. unfold PHIMasker.mask_email.
  destruct ((email =? "") || negb (PyStr.contains "@" email)); [eauto|].
  destruct (PyStr.split_once "@" email) as [[local domain]|] eqn:E; [|eauto].
  assert (Hl : local <> "").
  { intros ->. apply Hfirst. exact (split_once_empty_local _ _ _ E). }
  destruct (first_char_nonempty local Hl) as (c & ->).
  destruct (last_char_nonempty local Hl) as (d & ->).
  destruct (String.length local <=? 2)%nat; cbn; eauto.
Qed.

Lemma mask_value_returns (key : string) (value : pyval) :
  empty_local_part (key, value) = false ->
  exists v, PHIMasker.mask_value key value = Ok v.
Proof.
  unfold empty_local_part, PHIMasker.mask_value. cbn [fst snd].
  destruct (PHIMasker.should_mask_column key) as [[| | | |]|]; intros Hk;
    [| | | | |eauto]; (destruct (Py.truthy value); [|eauto]).
  - destruct (mask_name_returns (Py.str value)) as (m & ->). cbn. eauto.
  - eauto.
  - eauto.
  - cbn in Hk.
    destruct (mask_email_returns (Py.str value)) as (m & ->); [|cbn; eauto].
    destruct (PyStr.first_char (Py.str value)) as [c|]; [|discriminate].
    intros Heq. injection Heq as ->. discriminate.
  - destruct (mask_provider_name_returns (Py.str value)) as (m & ->). cbn. eauto.
Qed.

Lemma mask_items_returns (masked items : pydict) :
  forallb (fun kv => negb (empty_local_part kv)) items = true ->
  exists m, PHIMasker.mask_items masked items = Ok m.
Proof.
  revert masked. induction items as [|[k v] items IH]; intros masked Hok; [cbn; eauto|].
  cbn [forallb] in Hok. apply andb_true_iff in Hok as [Hkv Hok].
  apply negb_true_iff in Hkv.
  cbn [PHIMasker.mask_items]. destruct (mask_value_returns k v Hkv) as (v' & ->). cbn [bind].
  apply IH. exact Hok.
Qed.

(** On a record without such an entry, [mask_result] returns a record. *)
Lemma mask_result_dict_returns `{Externals} (depth : nat) (d : pydict) :
  forallb (fun kv => negb (empty_local_part kv)) d = true ->
  exists m, PHIMasker.mask_result (S depth) (PyDict d) = Ok (PyDict m).
Proof.
  intros Hok. rewrite mask_result_dict. unfold PHIMasker.mask_dict.
  destruct (mask_items_returns [] d Hok) as (m & ->). cbn. eauto.
Qed.

(** A value that is no str, list or dict passes through. *)
Lemma mask_result_scalar `{Externals} (depth : nat) (v : pyval) :
  match v with PyNone | PyBool _ | PyInt _ => True | _ => False end ->
  PHIMasker.mask_result (S depth) v = Ok v.
Proof. destruct v; intros Hv; try contradiction; reflexivity. Qed.

(** C10 fails on the code: on the record {"email": "@example.com"} the email
    mask indexes the empty text before the "@", and [mask_result] raises
    IndexError where a record with the key "email" should be returned. *)
Theorem mask_result_email_raises `{Externals} (depth : nat) :
  PHIMasker.should_mask_column "email" = Some PHIMasker.email
  /\ PHIMasker.mask_email "@example.com" = Raise IndexError
  /\ PHIMasker.mask_result (S depth) (PyDict [("email", PyStr "@example.com")])
     = Raise IndexError.
Proof. split; [reflexivity|]. split; reflexivity. Qed.

(** ** The tool-call handler *)

(** The early exit on missing parameters is never taken: a [ToolInfo] has no
    attribute [parameters]. *)
Lemma short_circuit_never `{Externals} (tools : gmap string ToolInfo)
    (clean : string) (args : pyval) :
  Agent.short_circuit tools clean args = None.
Proof.
  unfold Agent.short_circuit.
  destruct (negb (Py.truthy args)); [|reflexivity].
  destruct (tools !! clean); reflexivity.
Qed.

(** With empty arguments and a registered name the executor runs, without
    keyword arguments, whatever the tool requires. *)
Lemma handle_tool_call_empty_args `{Externals} (tools : gmap string ToolInfo)
    (raw arguments call_id : string) (args : pyval) (tool_info : ToolInfo) (st : AgentState) :
  json_loads arguments = Some args ->
  Agent.drop_empty_keys args = PyDict [] ->
  tools !! Agent._sanitize_function_name raw = Some tool_info ->
  exec_calls (snd (Agent.handle_tool_call tools raw arguments call_id st))
  = app (exec_calls st) [(Agent._sanitize_function_name raw, [])].
Proof.
  intros Hj Hd Ht. unfold Agent.handle_tool_call, Agent.tool_call_result.
  rewrite Hj, Hd, short_circuit_never, Ht. unfold Agent.execute_tool. rewrite Ht.
  destruct (exec_fn tool_info []) as [[result|e] entries]; [|reflexivity].
  destruct result as [| | | |l|d]; try reflexivity.
  - destruct (Agent._format_list_result l); reflexivity.
Qed.

(** C1 fails on the code: "search_patients" requires "search_term", the
    arguments "{}" parse to an empty mapping, and the handler calls the
    executor once instead of answering with the parameter-missing error. *)
Theorem required_params_not_checked :
  let W := Sample.world (fun _ => []) in
  let r := @Agent.handle_tool_call W Sample.registry "search_patients" "{}" "call_1"
             (initial_state [FunctionCall "search_patients" "{}" "call_1"]) in
  Sample.registry !! "search_patients" = Some Sample.search_patients
  /\ required (spec Sample.search_patients) = ["search_term"]
  /\ option_map Agent.drop_empty_keys (@json_loads W "{}") = Some (PyDict [])
  /\ exec_calls (snd r) = [("search_patients", [])]
  /\ fst r <> FunctionCallOutput "call_1" (Agent.missing_params_result ["search_term"]).
Proof. vm_compute. repeat split; try reflexivity. discriminate. Qed.

(** C3, as the code has it: when the repaired name is not a key of the
    registry, the handler appends one tool-result message and invokes no
    executor; the message carries the "function not found" text when the
    arguments parse as JSON, and the text of the parse error otherwise. *)
Theorem unresolved_name_not_found `{Externals} (tools : gmap string ToolInfo)
    (raw arguments call_id : string) (st : AgentState) :
  tools !! Agent._sanitize_function_name raw = None ->
  let r := Agent.handle_tool_call tools raw arguments call_id st in
  messages (snd r) = app (messages st) [fst r]
  /\ exec_calls (snd r) = exec_calls st
  /\ (forall args, json_loads arguments = Some args ->
      fst r = FunctionCallOutput call_id Agent.NOT_FOUND)
  /\ (json_loads arguments = None ->
      fst r = FunctionCallOutput call_id ("Error executing tool: " ++ str_exn JSONDecodeError)).
Proof.
  intros Ht r. subst r. unfold Agent.handle_tool_call, Agent.tool_call_result.
  destruct (json_loads arguments) as [args|].
  - rewrite short_circuit_never, Ht. cbn.
    split; [reflexivity|]. split; [reflexivity|].
    split; [intros; reflexivity | discriminate].
  - cbn. split; [reflexivity|]. split; [reflexivity|].
    split; [discriminate | intros; reflexivity].
Qed.

Lemma unresolved_name_not_found_witness :
  let W := Sample.world (fun _ => []) in
  Sample.registry !! Agent._sanitize_function_name "get_everything<|channel|>" = None
  /\ fst (@Agent.handle_tool_call W Sample.registry "get_everything<|channel|>" "{}" "call_7"
            (initial_state []))
     = FunctionCallOutput "call_7" "Error: Function not found. Please rephrase your query.".
Proof.
  intros W.
  assert (Ht : Sample.registry !! Agent._sanitize_function_name "get_everything<|channel|>"
               = None) by (vm_compute; reflexivity).
  split; [exact Ht|].
  destruct (@unresolved_name_not_found W Sample.registry "get_everything<|channel|>" "{}"
              "call_7" (initial_state []) Ht) as (_ & _ & Hfound & _).
  exact (Hfound (PyDict []) eq_refl).
Defined.

(** C3 as stated fails: the name "get_everything" is not registered, the
    argument payload is the empty text, which is no JSON, and the message
    carries the parse error. *)
Lemma unresolved_name_parse_error :
  let W := Sample.world (fun _ => []) in
  Sample.registry !! Agent._sanitize_function_name "get_everything" = None
  /\ fst (@Agent.handle_tool_call W Sample.registry "get_everything" "" "call_7"
            (initial_state []))
     = FunctionCallOutput "call_7"
         "Error executing tool: Expecting value: line 1 column 1 (char 0)"
  /\ fst (@Agent.handle_tool_call W Sample.registry "get_everything" "" "call_7"
            (initial_state []))
     <> FunctionCallOutput "call_7" Agent.NOT_FOUND.
Proof. vm_compute. split; [reflexivity|]. split; [reflexivity | discriminate]. Qed.

(** The earlier handler has no lookup of its own: an unregistered name ends
    in the KeyError of the registry, reported as an execution error, and no
    executor runs. *)
Lemma driver_unresolved_name `{Externals} (tools : gmap string ToolInfo)
    (tool_name arguments call_id : string) (st : AgentState) :
  tools !! tool_name = None ->
  let r := Driver.handle_tool_call tools tool_name arguments call_id st in
  exec_calls (snd r) = exec_calls st
  /\ (forall args, json_loads arguments = Some args ->
      fst r = FunctionCallOutput call_id
                ("Error executing tool: " ++ str_exn (KeyError tool_name))).
Proof.
  intros Ht r. subst r. unfold Driver.handle_tool_call, Driver.tool_call_result.
  destruct (json_loads arguments) as [args|]; cbn.
  - unfold Driver.execute_tool. rewrite Ht. cbn. split; [reflexivity|]. intros; reflexivity.
  - split; [reflexivity | discriminate].
Qed.

(** ** The orchestration loop *)

Lemma list_last_app {A : Type} (l1 l2 : list A) (d : A) :
  l2 <> [] -> List.last (app l1 l2) d = List.last l2 d.
Proof.
  intros Hne. induction l1 as [|a l1 IH]; [reflexivity|].
  cbn [app List.last]. destruct (app l1 l2) eqn:E; [|exact IH].
  apply app_eq_nil in E as [_ E]. contradiction.
Qed.

Lemma messages_last_snoc (ms : list item) (m : item) : messages_last (app ms [m]) = Some m.
Proof. unfold messages_last. rewrite map_app. cbn [map]. apply last_last. Qed.

Lemma next_action_after_output (ms : list item) (call_id output : string) :
  next_action (app ms [FunctionCallOutput call_id output]) = Ok AskModel.
Proof. unfold next_action. rewrite messages_last_snoc. reflexivity. Qed.

Lemma next_action_nonempty (ms : list item) :
  ms <> [] -> exists a, next_action ms = Ok a.
Proof.
  intros Hne. destruct (exists_last Hne) as (front & m & ->).
  unfold next_action. rewrite messages_last_snoc.
  destruct (option_eqb (get_role m) "assistant"); [eauto|].
  destruct (option_eqb (get_type m) "function_call"); [|eauto].
  destruct m; eauto.
Qed.

Lemma agent_tool_call_result_messages `{Externals} (tools : gmap string ToolInfo)
    (raw arguments : string) (st : AgentState) :
  messages (snd (Agent.tool_call_result tools raw arguments st)) = messages st.
Proof.
  unfold Agent.tool_call_result.
  destruct (json_loads arguments) as [args|]; [|reflexivity].
  rewrite short_circuit_never.
  destruct (tools !! Agent._sanitize_function_name raw) as [tool_info|] eqn:Et; [|reflexivity].
  unfold Agent.execute_tool. rewrite Et.
  destruct (Agent.drop_empty_keys args); try reflexivity.
  destruct (exec_fn tool_info d) as [[result|e] entries]; reflexivity.
Qed.

Lemma agent_handler_appends `{Externals} (tools : gmap string ToolInfo) :
  appends_one_output (Agent.handle_tool_call tools).
Proof.
  intros n a c st. unfold Agent.handle_tool_call.
  pose proof (agent_tool_call_result_messages tools n a st) as Hm.
  destruct (Agent.tool_call_result tools n a st) as [[result|e] st1]; cbn in Hm |- *;
    rewrite Hm; eauto.
Qed.

Lemma driver_handler_appends `{Externals} (tools : gmap string ToolInfo) :
  appends_one_output (Driver.handle_tool_call tools).
Proof.
  intros n a c st. unfold Driver.handle_tool_call, Driver.tool_call_result.
  destruct (json_loads a) as [args|]; [|cbn; eauto].
  unfold Driver.execute_tool.
  destruct (tools !! n) as [tool_info|]; [|cbn; eauto].
  destruct args; try (cbn; eauto).
  destruct (exec_fn tool_info d) as [[result|e] entries]; cbn; eauto.
Qed.

Lemma ask_model_messages `{Externals} (st : AgentState) :
  messages (snd (ask_model st)) = app (messages st) (fst (ask_model st)).
Proof. reflexivity. Qed.

Section LoopFacts.
Context `{Externals}.
Variable h : string -> string -> string -> AgentState -> item * AgentState.

(** An iteration that asks the model: the run ends with the exception of
    the turn, or goes on from the state the turn leaves. *)
Lemma loop_ask_model (k m : nat) (st : AgentState) :
  next_action (messages st) = Ok AskModel ->
  loop h (S k) m st
  = match failure (model_turn (messages st)) with
    | Some e =>
        {| yielded := fst (ask_model st); steps := [AskModel];
           final := snd (ask_model st); raised := Some e |}
    | None =>
        let r := loop h k m (snd (ask_model st)) in
        {| yielded := app (fst (ask_model st)) (yielded r); steps := AskModel :: steps r;
           final := final r; raised := raised r |}
    end.
Proof. intros Hn. cbn [loop]. rewrite Hn. reflexivity. Qed.

(** After a state that asks for the model, the first step is no tool step. *)
Lemma loop_first_step_model (k m : nat) (st : AgentState) :
  next_action (messages st) = Ok AskModel ->
  match steps (loop h k m st) with
  | a :: _ => is_tool_step a = false
  | [] => True
  end.
Proof.
  intros Hn. destruct k as [|k]; [exact I|].
  rewrite (loop_ask_model k m st Hn).
  destruct (failure (model_turn (messages st))); reflexivity.
Qed.

Lemma loop_no_adjacent_tool_steps (k m : nat) (st : AgentState) :
  appends_one_output h ->
  no_adjacent_tool_steps (steps (loop h k m st)) = true.
Proof.
  intros Hh. revert st. induction k as [|k IH]; intros st; [reflexivity|].
  destruct (next_action (messages st)) as [[|n a c|]|e] eqn:Hn.
  - cbn [loop]. rewrite Hn. reflexivity.
  - cbn [loop]. rewrite Hn.
    destruct (Hh n a c st) as (output & _ & Hms).
    destruct (h n a c st) as [ev st1]. cbn [snd] in Hms. cbn [steps].
    pose proof (loop_first_step_model k m st1) as Hfirst.
    rewrite Hms, next_action_after_output in Hfirst. specialize (Hfirst eq_refl).
    specialize (IH st1).
    destruct (steps (loop h k m st1)) as [|b l]; [reflexivity|].
    change (negb (is_tool_step (RunTool n a c) && is_tool_step b)
            && no_adjacent_tool_steps (b :: l) = true).
    rewrite Hfirst, IH. reflexivity.
  - rewrite (loop_ask_model k m st Hn).
    destruct (failure (model_turn (messages st))); [reflexivity|].
    cbv zeta. cbn [steps].
    specialize (IH (snd (ask_model st))).
    destruct (steps (loop h k m (snd (ask_model st)))) as [|b l]; [reflexivity|].
    change (negb (is_tool_step AskModel && is_tool_step b)
            && no_adjacent_tool_steps (b :: l) = true).
    rewrite IH. reflexivity.
  - cbn [loop]. rewrite Hn. reflexivity.
Qed.

Lemma ask_model_nonempty (st : AgentState) :
  messages st <> [] -> messages (snd (ask_model st)) <> [].
Proof.
  intros Hne. rewrite ask_model_messages.
  intros Hnil. apply app_eq_nil in Hnil as [Hnil _]. contradiction.
Qed.

(** From a message list that is not empty, the only exception that ends
    the loop is the one that ends a model turn: a tool never makes it
    raise. *)
Lemma loop_raised (k m : nat) (st : AgentState) (e : exn) :
  appends_one_output h ->
  messages st <> [] ->
  raised (loop h k m st) = Some e ->
  exists ms, failure (model_turn ms) = Some e.
Proof.
  intros Hh. revert st. induction k as [|k IH]; intros st Hne; [discriminate|].
  destruct (next_action_nonempty _ Hne) as (act & Hact).
  destruct act as [|n a c|].
  - cbn [loop]. rewrite Hact. discriminate.
  - cbn [loop]. rewrite Hact.
    destruct (Hh n a c st) as (output & _ & Hms).
    destruct (h n a c st) as [ev st1]. cbn [snd] in Hms. cbn [raised].
    apply IH. rewrite Hms. intros Hnil. apply app_eq_nil in Hnil as [_ Hnil]. discriminate.
  - rewrite (loop_ask_model k m st Hact).
    destruct (failure (model_turn (messages st))) as [e'|] eqn:Ef.
    + cbn [raised]. intros Heq. injection Heq as <-. eauto.
    + cbv zeta. cbn [raised]. apply IH, ask_model_nonempty, Hne.
Qed.

(** The loop raises nothing when it starts from a message list that is
    not empty and no model turn ends with an exception. *)
Lemma loop_no_exception (k m : nat) (st : AgentState) :
  appends_one_output h ->
  turns_complete ->
  messages st <> [] ->
  raised (loop h k m st) = None.
Proof.
  intros Hh Hturns Hne.
  destruct (raised (loop h k m st)) as [e|] eqn:Er; [|reflexivity].
  destruct (loop_raised k m st e Hh Hne Er) as (ms & Hms).
  rewrite Hturns in Hms. discriminate.
Qed.

(** When no iteration meets an assistant message and nothing is raised,
    the loop ends with the apology, logged as "max_iterations". *)
Lemma loop_exhausted (k m : nat) (st : AgentState) :
  appends_one_output h ->
  messages st <> [] ->
  forallb (fun a => negb (is_return a)) (steps (loop h k m st)) = true ->
  raised (loop h k m st) = None ->
  let r := loop h k m st in
  List.last (yielded r) (ChatMessage "" "") = TextOutput APOLOGY uuid4
  /\ List.last (error_log (final r)) ("", "")
     = ("max_iterations", "Reached max iterations (" ++ PyStr.of_nat m ++ ")")
  /\ List.length (steps r) = k.
Proof.
  intros Hh. revert st. induction k as [|k IH]; intros st Hne Hsteps Hraised.
  - cbn. split; [reflexivity|]. split; [apply last_last | reflexivity].
  - destruct (next_action_nonempty _ Hne) as (act & Hact).
    destruct act as [|n a c|].
    + cbn [loop] in Hsteps. rewrite Hact in Hsteps. discriminate.
    + cbn [loop] in *. rewrite Hact in *.
      destruct (Hh n a c st) as (output & _ & Hms).
      destruct (h n a c st) as [ev st1]. cbn [snd] in Hms.
      cbn [steps forallb yielded final raised] in *.
      assert (Hne1 : messages st1 <> []).
      { rewrite Hms. intros Hnil. apply app_eq_nil in Hnil as [_ Hnil]. discriminate. }
      destruct (IH st1 Hne1) as (Hy & Hl & Hk); [|exact Hraised|].
      { apply andb_true_iff in Hsteps as [_ Hs]. exact Hs. }
      split; [|split; [exact Hl | cbn; rewrite Hk; reflexivity]].
      destruct (yielded (loop h k m st1)) as [|y ys] eqn:Ey; [discriminate|].
      exact Hy.
    + rewrite (loop_ask_model k m st Hact) in *.
      destruct (failure (model_turn (messages st))); [discriminate|].
      cbv zeta in *. cbn [steps forallb yielded final raised] in *.
      destruct (IH (snd (ask_model st)) (ask_model_nonempty st Hne)) as (Hy & Hl & Hk);
        [|exact Hraised|].
      { apply andb_true_iff in Hsteps as [_ Hs]. exact Hs. }
      split; [|split; [exact Hl | exact (f_equal S Hk)]].
      destruct (yielded (loop h k m (snd (ask_model st)))) as [|y ys] eqn:Ey; [discriminate|].
      rewrite list_last_app; [exact Hy | discriminate].
Qed.

End LoopFacts.

(** C9: handling a pending tool call appends exactly one message, the tool
    result with the call id, after which the next iteration asks the model;
    so no run of the loop has two tool steps in a row. *)
Theorem tool_result_then_model_turn `{Externals} (tools : gmap string ToolInfo) :
  (forall (n a c : string) (st : AgentState),
     let r := Agent.handle_tool_call tools n a c st in
     (exists output, fst r = FunctionCallOutput c output)
     /\ messages (snd r) = app (messages st) [fst r]
     /\ next_action (messages (snd r)) = Ok AskModel)
  /\ (forall (ms : list item) (max_iter : nat) (st : AgentState),
     no_adjacent_tool_steps (steps (Agent.call_and_run_tools tools ms max_iter st)) = true).
Proof.
  split.
  - intros n a c st r. subst r.
    destruct (agent_handler_appends tools n a c st) as (output & Hev & Hms).
    split; [eauto|]. rewrite Hev, Hms. split; [reflexivity|].
    apply next_action_after_output.
  - intros ms max_iter st. unfold Agent.call_and_run_tools.
    apply loop_no_adjacent_tool_steps, agent_handler_appends.
Qed.

(** The earlier loop has the same property. *)
Lemma driver_no_adjacent_tool_steps `{Externals} (tools : gmap string ToolInfo)
    (ms : list item) (max_iter : nat) (st : AgentState) :
  no_adjacent_tool_steps (steps (Driver.call_and_run_tools tools ms max_iter st)) = true.
Proof. apply loop_no_adjacent_tool_steps, driver_handler_appends. Qed.

(** C2 fails on the code: the last message is looked at only when an
    iteration starts, so an answer that the model gives in the last allowed
    iteration is followed by the apology.  With the ceiling of 5, a request
    that needs two tool calls ends so; with the ceiling of 10, a request
    whose input ends with a pending tool call and needs four more does. *)
Theorem apology_after_final_answer :
  let earlier := @Driver.call_and_run_tools (Sample.world (Sample.tool_then_answer 2))
                   Sample.registry
                   [ChatMessage "system" Sample.PROMPT; ChatMessage "user" "How many gaps?"]
                   5 (initial_state []) in
  let primary := @Agent.call_and_run_tools (Sample.world (Sample.tool_then_answer 5))
                   Sample.registry
                   [ChatMessage "user" "How many gaps?";
                    FunctionCall "get_gap_statistics" "{}" "call_a"]
                   10 (initial_state []) in
  (messages_last (messages (final earlier)) = Some Sample.answer
   /\ get_role Sample.answer = Some "assistant"
   /\ List.length (steps earlier) = 5
   /\ List.last (yielded earlier) Sample.answer
      = TextOutput APOLOGY "6f1c2a34-0b7d-4e59-9c1a-2d3e4f5a6b7c"
   /\ error_log (final earlier) = [("max_iterations", "Reached max iterations (5)")]
   /\ raised earlier = None)
  /\ (messages_last (messages (final primary)) = Some Sample.answer
      /\ List.length (steps primary) = 10
      /\ List.last (yielded primary) Sample.answer
         = TextOutput APOLOGY "6f1c2a34-0b7d-4e59-9c1a-2d3e4f5a6b7c"
      /\ error_log (final primary) = [("max_iterations", "Reached max iterations (10)")]
      /\ raised primary = None).
Proof. vm_compute. repeat split; reflexivity. Qed.

(** ** The input guard *)

Lemma guard_rejects_long (user_input : string) :
  1000 < String.length user_input ->
  InputValidator.is_safe_input user_input = (false, "Input too long (max 1000 characters)").
Proof.
  intros Hlen. unfold InputValidator.is_safe_input.
  destruct (user_input =? "") eqn:E.
  - apply String.eqb_eq in E. subst. simpl in Hlen. lia.
  - apply Nat.ltb_lt in Hlen. rewrite Hlen. reflexivity.
Qed.

Lemma guard_rejects_dangerous (user_input : string) :
  existsb (fun pattern => Re.search pattern user_input) InputValidator.DANGEROUS_PATTERNS = true ->
  fst (InputValidator.is_safe_input user_input) = false.
Proof.
  intros Hm. unfold InputValidator.is_safe_input.
  destruct (user_input =? ""); [reflexivity|].
  destruct (1000 <? String.length user_input)%nat; [reflexivity|].
  rewrite Hm. reflexivity.
Qed.

(** The earlier [predict] asks the guard first: a rejected query is answered
    with the reason, and neither the model nor an executor is called. *)
Lemma driver_predict_rejected `{Externals} (tools : gmap string ToolInfo) (prompt : string)
    (input : list (string * string)) (role query reason : string) (st : AgentState) :
  List.last (map Some input) None = Some (role, query) ->
  InputValidator.is_safe_input query = (false, reason) ->
  let r := Driver.predict tools prompt input st in
  fst r = [TextOutput ("I cannot process this request: " ++ reason) uuid4]
  /\ llm_calls (snd r) = llm_calls st
  /\ exec_calls (snd r) = exec_calls st
  /\ messages (snd r) = messages st.
Proof.
  intros Hlast Hguard r. subst r. unfold Driver.predict.
  rewrite Hlast. cbn [snd]. rewrite Hguard. cbn. repeat split.
Qed.

(** C8 fails on the code: the guard rejects the injection and the text of
    1001 characters, with the length as the reason for the latter, but the
    primary [predict] never asks the guard, so the loop runs and the model
    is called with the rejected text. *)
Theorem primary_predict_skips_guard :
  let W := Sample.world (Sample.tool_then_answer 0) in
  let run_on text :=
    @Agent.predict W Sample.registry Sample.PROMPT [ChatMessage "user" text] (initial_state []) in
  (InputValidator.is_safe_input Sample.injection = (false, "Potentially dangerous input detected")
   /\ llm_calls (final (run_on Sample.injection))
      = [[ChatMessage "system" Sample.PROMPT; ChatMessage "user" Sample.injection]]
   /\ yielded (run_on Sample.injection) = [Sample.answer])
  /\ (String.length Sample.long_input = 1001
      /\ InputValidator.is_safe_input Sample.long_input
         = (false, "Input too long (max 1000 characters)")
      /\ llm_calls (final (run_on Sample.long_input))
         = [[ChatMessage "system" Sample.PROMPT; ChatMessage "user" Sample.long_input]]).
Proof. vm_compute. repeat split; reflexivity. Qed.

(** * Further properties of the code *)

(** ** History truncation *)

Lemma messages_last_app (front back : list item) :
  back <> [] -> messages_last (app front back) = messages_last back.
Proof.
  intros Hne. unfold messages_last. rewrite map_app. apply list_last_app.
  destruct back; [contradiction | discriminate].
Qed.

Lemma messages_last_skipn (k : nat) (ms : list item) :
  k < List.length ms -> messages_last (skipn k ms) = messages_last ms.
Proof.
  intros Hk. rewrite <- (firstn_skipn k ms) at 2. symmetry. apply messages_last_app.
  intros Hnil. apply (f_equal (@List.length item)) in Hnil.
  rewrite List.length_skipn in Hnil. simpl in Hnil. lia.
Qed.

Lemma truncate_history_short (ms : list item) :
  List.length ms <= 7 -> Agent.truncate_history ms = ms.
Proof.
  intros Hlen. unfold Agent.truncate_history.
  destruct (7 <? List.length ms)%nat eqn:E; [|reflexivity].
  apply Nat.ltb_lt in E. lia.
Qed.

Lemma truncate_history_length (ms : list item) :
  List.length (Agent.truncate_history ms) <= 7.
Proof.
  destruct (Nat.le_gt_cases (List.length ms) 7) as [Hle | Hgt].
  - rewrite truncate_history_short by exact Hle. exact Hle.
  - rewrite truncate_history_long by exact Hgt.
    rewrite List.length_app, length_recent by exact Hgt.
    pose proof (length_leading_system ms). lia.
Qed.

Lemma truncate_history_last (ms : list item) :
  messages_last (Agent.truncate_history ms) = messages_last ms.
Proof.
  destruct (Nat.le_gt_cases (List.length ms) 7) as [Hle | Hgt].
  - rewrite truncate_history_short by exact Hle. reflexivity.
  - rewrite truncate_history_long by exact Hgt.
    rewrite messages_last_app.
    + apply messages_last_skipn. lia.
    + intros Hnil. apply (f_equal (@List.length item)) in Hnil.
      rewrite length_recent in Hnil by exact Hgt. discriminate.
Qed.

(** X1: whatever the length of the conversation, the truncated history has
    at most 7 messages, is a sublist of the original (nothing is added,
    repeated or reordered), ends with the same message, so that the first
    action of the loop is the one the full history would give, and
    truncating again changes nothing. *)
Theorem truncate_history_invariants (ms : list item) :
  List.length (Agent.truncate_history ms) <= 7
  /\ sublist (Agent.truncate_history ms) ms
  /\ messages_last (Agent.truncate_history ms) = messages_last ms
  /\ next_action (Agent.truncate_history ms) = next_action ms
  /\ Agent.truncate_history (Agent.truncate_history ms) = Agent.truncate_history ms.
Proof.
  pose proof (truncate_history_last ms) as Hlast.
  split; [apply truncate_history_length|]. split; [|split; [exact Hlast|split]].
  - destruct (Nat.le_gt_cases (List.length ms) 7) as [Hle | Hgt].
    + rewrite truncate_history_short by exact Hle. reflexivity.
    + rewrite truncate_history_long by exact Hgt.
      destruct ms as [|m rest]; [simpl in Hgt; lia|].
      unfold leading_system. destruct (option_eqb (get_role m) "system").
      * cbn [List.length] in *.
        replace (S (List.length rest) - 6) with (S (List.length rest - 6)) by lia.
        cbn [app skipn]. apply sublist_skip, sublist_drop.
      * cbn [app]. apply sublist_drop.
  - unfold next_action. rewrite Hlast. reflexivity.
  - apply truncate_history_short, truncate_history_length.
Qed.

(** ** The cost of a run *)

Lemma ask_model_calls `{Externals} (st : AgentState) :
  llm_calls (snd (ask_model st)) = app (llm_calls st) [messages st]
  /\ exec_calls (snd (ask_model st)) = exec_calls st.
Proof. split; reflexivity. Qed.

Lemma loop_calls `{Externals}
    (h : string -> string -> string -> AgentState -> item * AgentState)
    (k m : nat) (st : AgentState) :
  bounded_calls h ->
  let r := loop h k m st in
  List.length (steps r) <= k
  /\ List.length (llm_calls (final r)) = List.length (llm_calls st) + model_steps (steps r)
  /\ List.length (exec_calls (final r)) <= List.length (exec_calls st) + tool_steps (steps r)
  /\ model_steps (steps r) + tool_steps (steps r) <= List.length (steps r).
Proof.
  intros Hh. revert st. induction k as [|k IH]; intros st.
  - cbn. lia.
  - cbv zeta. destruct (next_action (messages st)) as [[|n a c|]|e] eqn:Hn.
    + cbn [loop]. rewrite Hn. cbn. lia.
    + cbn [loop]. rewrite Hn.
      destruct (Hh n a c st) as [Hl He].
      destruct (h n a c st) as [ev st1]. cbn [snd] in Hl, He.
      specialize (IH st1). cbn zeta in IH. destruct IH as (H1 & H2 & H3 & H4).
      cbn [steps final]. unfold model_steps, tool_steps in *.
      cbn [List.filter is_model_step is_tool_step List.length]. rewrite <- Hl. lia.
    + rewrite (loop_ask_model h k m st Hn).
      destruct (ask_model_calls st) as [Hl He].
      destruct (failure (model_turn (messages st))).
      * cbn [steps final]. unfold model_steps, tool_steps.
        cbn [List.filter is_model_step is_tool_step List.length].
        rewrite Hl, He, List.length_app. cbn [List.length]. lia.
      * cbv zeta. specialize (IH (snd (ask_model st))). cbn zeta in IH.
        destruct IH as (H1 & H2 & H3 & H4).
        cbn [steps final]. unfold model_steps, tool_steps in *.
        cbn [List.filter is_model_step is_tool_step List.length].
        rewrite Hl, List.length_app in H2. rewrite He in H3. cbn [List.length] in H2. lia.
    + cbn [loop]. rewrite Hn. cbn. lia.
Qed.

Lemma agent_execute_tool_calls `{Externals} (tools : gmap string ToolInfo)
    (tool_name : string) (args : pyval) (st : AgentState) :
  let r := Agent.execute_tool tools tool_name args st in
  llm_calls (snd r) = llm_calls st
  /\ messages (snd r) = messages st
  /\ functions_called (snd r) = app (functions_called st) [tool_name]
  /\ exec_calls (snd r)
     = app (exec_calls st)
           (match tools !! tool_name, args with
            | Some _, PyDict kwargs => [(tool_name, kwargs)]
            | _, _ => []
            end).
Proof.
  unfold Agent.execute_tool.
  destruct (tools !! tool_name) as [tool_info|]; cbn; [|rewrite app_nil_r; auto].
  destruct args; cbn; try (rewrite app_nil_r; auto).
  destruct (exec_fn tool_info d) as [[result|e] entries]; cbn; auto.
Qed.

(** What one handled tool call does to the state besides the message. *)
Lemma agent_handler_effects `{Externals} (tools : gmap string ToolInfo)
    (raw arguments call_id : string) (st : AgentState) :
  let clean := Agent._sanitize_function_name raw in
  let r := Agent.handle_tool_call tools raw arguments call_id st in
  llm_calls (snd r) = llm_calls st
  /\ functions_called (snd r)
     = app (functions_called st)
           (match json_loads arguments, tools !! clean with
            | Some _, Some _ => [clean]
            | _, _ => []
            end)
  /\ exec_calls (snd r)
     = app (exec_calls st)
           (match json_loads arguments, tools !! clean with
            | Some args, Some _ =>
                match Agent.drop_empty_keys args with
                | PyDict kwargs => [(clean, kwargs)]
                | _ => []
                end
            | _, _ => []
            end).
Proof.
  intros clean r. subst r clean. unfold Agent.handle_tool_call, Agent.tool_call_result.
  destruct (json_loads arguments) as [args|]; [|cbn; rewrite !app_nil_r; auto].
  rewrite short_circuit_never.
  destruct (tools !! Agent._sanitize_function_name raw) as [tool_info|] eqn:Et;
    [|cbn; rewrite !app_nil_r; auto].
  pose proof (agent_execute_tool_calls tools (Agent._sanitize_function_name raw)
                (Agent.drop_empty_keys args) st) as (Hl & _ & Hf & He).
  rewrite Et in He.
  destruct (Agent.execute_tool tools (Agent._sanitize_function_name raw)
              (Agent.drop_empty_keys args) st) as [[result|e] st1];
    cbn in Hl, Hf, He |- *; rewrite Hl, Hf, He; auto.
Qed.

Lemma agent_handler_bounded `{Externals} (tools : gmap string ToolInfo) :
  bounded_calls (Agent.handle_tool_call tools).
Proof.
  intros n a c st. destruct (agent_handler_effects tools n a c st) as (Hl & _ & He).
  split; [exact Hl|]. rewrite He, List.length_app.
  destruct (json_loads a) as [args|]; [|simpl; lia].
  destruct (tools !! Agent._sanitize_function_name n); [|simpl; lia].
  destruct (Agent.drop_empty_keys args); simpl; lia.
Qed.

(** X2: a run of the primary loop makes at most [max_iter] iterations, one
    model call per model step and at most one executor call per tool step,
    so the model calls and the executor calls of a request together never
    exceed [max_iter]. *)
Theorem agent_run_cost `{Externals} (tools : gmap string ToolInfo)
    (ms : list item) (max_iter : nat) (st : AgentState) :
  let r := Agent.call_and_run_tools tools ms max_iter st in
  List.length (steps r) <= max_iter
  /\ List.length (llm_calls (final r)) = List.length (llm_calls st) + model_steps (steps r)
  /\ List.length (exec_calls (final r)) <= List.length (exec_calls st) + tool_steps (steps r)
  /\ List.length (llm_calls (final r)) + List.length (exec_calls (final r))
     <= List.length (llm_calls st) + List.length (exec_calls st) + max_iter.
Proof.
  intros r. subst r. unfold Agent.call_and_run_tools.
  pose proof (loop_calls (Agent.handle_tool_call tools) max_iter max_iter
                (set_messages (Agent.truncate_history ms) st)
                (agent_handler_bounded tools)) as (H1 & H2 & H3 & H4).
  cbn [llm_calls exec_calls set_messages] in H2, H3.
  split; [exact H1|]. split; [exact H2|]. split; [exact H3|]. lia.
Qed.

(** ** What the handler asks of the executor *)

Lemma drop_empty_keys_nonblank (args : pyval) (kwargs : pydict) :
  Agent.drop_empty_keys args = PyDict kwargs ->
  Forall (fun kv => fst kv <> "" /\ PyStr.strip (fst kv) <> "") kwargs.
Proof.
  destruct args as [| | | | |d]; try discriminate. cbn. intros Heq. injection Heq as <-.
  apply Forall_forall. intros kv Hin. apply list_elem_of_filter in Hin as [Hp _].
  apply Is_true_true in Hp. apply andb_true_iff in Hp as [H1 H2].
  apply negb_true_iff in H1, H2. apply String.eqb_neq in H1, H2. auto.
Qed.

(** X3: one handled tool call invokes an executor at most once, and when it
    does, the name is the repaired one and is registered, and the keyword
    arguments are the parsed mapping without its empty and blank keys; only
    then is the name added to the call log. *)
Theorem handler_executor_call `{Externals} (tools : gmap string ToolInfo)
    (raw arguments call_id : string) (st : AgentState) :
  let clean := Agent._sanitize_function_name raw in
  let r := Agent.handle_tool_call tools raw arguments call_id st in
  (exec_calls (snd r) = exec_calls st
   /\ (functions_called (snd r) = functions_called st
       \/ functions_called (snd r) = app (functions_called st) [clean]))
  \/ (exists args kwargs tool_info,
        json_loads arguments = Some args
        /\ Agent.drop_empty_keys args = PyDict kwargs
        /\ tools !! clean = Some tool_info
        /\ Forall (fun kv => fst kv <> "" /\ PyStr.strip (fst kv) <> "") kwargs
        /\ exec_calls (snd r) = app (exec_calls st) [(clean, kwargs)]
        /\ functions_called (snd r) = app (functions_called st) [clean]).
Proof.
  intros clean r. subst r clean.
  destruct (agent_handler_effects tools raw arguments call_id st) as (_ & Hf & He).
  destruct (json_loads arguments) as [args|];
    [|left; rewrite He, Hf, !app_nil_r; auto].
  destruct (tools !! Agent._sanitize_function_name raw) as [tool_info|] eqn:Et;
    [|left; rewrite He, Hf, !app_nil_r; auto].
  destruct (Agent.drop_empty_keys args) as [| | | | |kwargs] eqn:Ed;
    try (left; rewrite He, Hf, !app_nil_r; auto).
  right. exists args, kwargs, tool_info.
  split; [reflexivity|]. split; [exact Ed|]. split; [reflexivity|].
  split; [exact (drop_empty_keys_nonblank _ _ Ed)|]. split; assumption.
Qed.

(** ** How the handler shapes the result *)

Lemma traverse_row_line_cases (header : string) (headers : list string) (l : list pyval) :
  traverse (Agent.row_line (header :: headers)) l
  = if forallb is_dict l
    then Ok (map (fun row => match row with
                             | PyDict d => data_row (header :: headers) d
                             | _ => ""
                             end) l)
    else Raise AttributeError.
Proof.
  induction l as [|row l IH]; [reflexivity|].
  cbn [traverse forallb map]. rewrite IH.
  destruct row; try reflexivity. cbn.
  destruct (forallb is_dict l); reflexivity.
Qed.

Lemma traverse_row_line_dicts (headers : list string) (l : list pyval) :
  forallb is_dict l = true ->
  exists rows, traverse (Agent.row_line headers) l = Ok rows.
Proof.
  induction l as [|row l IH]; [eexists; reflexivity|].
  cbn [forallb]. intros Hl. apply andb_true_iff in Hl as [Hrow Hl].
  destruct (IH Hl) as (rows & Hrows). destruct row; try discriminate.
  cbn [traverse]. rewrite Hrows. eexists. reflexivity.
Qed.


(** X4: a list result that starts with a record of at least one column and
    holds, further on, something that is no record makes the formatter
    raise AttributeError; the empty list, a list that starts with something
    else than a record, and a list of records only are rendered. *)
Theorem format_list_result_raises (result : list pyval) :
  (forall kv d rest,
     result = PyDict (kv :: d) :: rest -> forallb is_dict rest = false ->
     Agent._format_list_result result = Raise AttributeError)
  /\ (match result with
      | PyDict _ :: rest => forallb is_dict rest
      | _ => true
      end = true ->
      exists text, Agent._format_list_result result = Ok text).
Proof.
  split.
  - intros kv d rest -> Hrest.
    cbn [Agent._format_list_result Agent._format_table]. unfold Agent.table_lines.
    cbn [Py.keys map]. rewrite traverse_row_line_cases. cbn [forallb is_dict].
    rewrite Hrest. reflexivity.
  - destruct result as [|row rest]; [eexists; reflexivity|].
    destruct row; try (eexists; reflexivity).
    intros Hrest.
    cbn [Agent._format_list_result Agent._format_table]. unfold Agent.table_lines.
    destruct (traverse_row_line_dicts (Py.keys d) (PyDict d :: rest)) as (rows & ->);
      [exact Hrest|].
    eexists; reflexivity.
Qed.



(** ** Exceptions and exhaustion of a run *)

Lemma truncate_history_nonempty (ms : list item) :
  ms <> [] -> Agent.truncate_history ms <> [].
Proof.
  intros Hne Hnil. pose proof (truncate_history_last ms) as Hlast.
  rewrite Hnil in Hlast. destruct (exists_last Hne) as (front & m & ->).
  rewrite messages_last_snoc in Hlast. discriminate.
Qed.

(** X6: the exceptions of [predict_stream].  On a request with at least
    one input message, the only exception that can end it is the one that
    ends a model turn, so it raises nothing when no turn does: no failure
    of a tool reaches the caller.  An exception that ends the first model
    turn does reach the caller: nothing follows what the turn yielded, no
    apology either.  On a request without input and with the empty system
    prompt it ends with IndexError, and nothing is yielded. *)
Theorem predict_stream_exceptions `{Externals} (tools : gmap string ToolInfo)
    (SYSTEM_PROMPT : string) (input : list item) (st : AgentState) :
  let r := Agent.predict_stream tools SYSTEM_PROMPT input st in
  let sent := if negb (SYSTEM_PROMPT =? "")
              then ChatMessage "system" SYSTEM_PROMPT :: input else input in
  (input <> [] -> forall e, raised r = Some e ->
   exists ms, failure (model_turn ms) = Some e)
  /\ (input <> [] -> turns_complete -> raised r = None)
  /\ (forall front role content e,
      input = app front [ChatMessage role content] -> role <> "assistant" ->
      List.length sent <= 7 ->
      failure (model_turn sent) = Some e ->
      raised r = Some e
      /\ yielded r = new_items (model_turn sent)
      /\ llm_calls (final r) = app (llm_calls st) [sent])
  /\ (input = [] -> SYSTEM_PROMPT = "" -> raised r = Some IndexError /\ yielded r = []).
Proof.
  intros r sent. subst r. unfold Agent.predict_stream, Agent.call_and_run_tools.
  fold sent.
  assert (Hsent : input <> [] ->
            messages (set_messages (Agent.truncate_history sent) st) <> []).
  { intros Hne. cbn [messages set_messages]. apply truncate_history_nonempty.
    subst sent. destruct (negb (SYSTEM_PROMPT =? "")); [discriminate | exact Hne]. }
  split; [|split; [|split]].
  - intros Hne e. apply loop_raised; [apply agent_handler_appends | exact (Hsent Hne)].
  - intros Hne Hturns.
    apply loop_no_exception; [apply agent_handler_appends | exact Hturns | exact (Hsent Hne)].
  - intros front role content e Hin Hrole Hlen Hfail.
    rewrite (truncate_history_short sent Hlen).
    assert (Hnext : next_action (messages (set_messages sent st)) = Ok AskModel).
    { cbn [messages set_messages]. subst sent. rewrite Hin.
      assert (Hlast : forall l, next_action (app l [ChatMessage role content]) = Ok AskModel).
      { intros l. unfold next_action. rewrite messages_last_snoc. cbn.
        apply String.eqb_neq in Hrole. rewrite Hrole. reflexivity. }
      destruct (negb (SYSTEM_PROMPT =? "")); [|apply Hlast].
      exact (Hlast (ChatMessage "system" SYSTEM_PROMPT :: front)). }
    change Agent.default_max_iter with (S 9).
    rewrite (loop_ask_model (Agent.handle_tool_call tools) 9 (S 9) _ Hnext).
    cbn [messages set_messages]. rewrite Hfail.
    split; [reflexivity|]. split; reflexivity.
  - intros Hin Hprompt. subst sent. rewrite Hin, Hprompt. split; reflexivity.
Qed.

Lemma predict_stream_exceptions_witness :
  let r := @Agent.predict_stream Sample.endpoint_down Sample.registry Sample.PROMPT
             [ChatMessage "user" "How many gaps?"] (initial_state []) in
  raised r = Some ValidationError
  /\ yielded r = []
  /\ llm_calls (final r)
     = [[ChatMessage "system" Sample.PROMPT; ChatMessage "user" "How many gaps?"]].
Proof.
  intros r. subst r.
  destruct (@predict_stream_exceptions Sample.endpoint_down Sample.registry Sample.PROMPT
              [ChatMessage "user" "How many gaps?"] (initial_state []))
    as (_ & _ & Hfirst & _).
  apply (Hfirst [] "user" "How many gaps?" ValidationError eq_refl).
  - discriminate.
  - vm_compute. lia.
  - reflexivity.
Defined.

(** X7: when none of the iterations of a run starts at an assistant
    message and no exception ends the run, the run makes exactly [max_iter]
    steps, its last yielded item is the apology, and the last entry of the
    error log is "max_iterations" with the ceiling in its text. *)
Theorem agent_run_exhausted `{Externals} (tools : gmap string ToolInfo)
    (ms : list item) (max_iter : nat) (st : AgentState) :
  ms <> [] ->
  forallb (fun a => negb (is_return a))
    (steps (Agent.call_and_run_tools tools ms max_iter st)) = true ->
  raised (Agent.call_and_run_tools tools ms max_iter st) = None ->
  let r := Agent.call_and_run_tools tools ms max_iter st in
  List.length (steps r) = max_iter
  /\ List.last (yielded r) (ChatMessage "" "") = TextOutput APOLOGY uuid4
  /\ List.last (error_log (final r)) ("", "")
     = ("max_iterations", "Reached max iterations (" ++ PyStr.of_nat max_iter ++ ")").
Proof.
  intros Hne Hsteps Hraised r. subst r. unfold Agent.call_and_run_tools in *.
  assert (Hne' : messages (set_messages (Agent.truncate_history ms) st) <> [])
    by (cbn; apply truncate_history_nonempty; exact Hne).
  destruct (loop_exhausted (Agent.handle_tool_call tools) max_iter max_iter _
              (agent_handler_appends tools) Hne' Hsteps Hraised) as (Hy & Hl & Hk).
  split; [exact Hk|]. split; [exact Hy | exact Hl].
Qed.

Lemma agent_run_exhausted_witness :
  let W := Sample.world (Sample.tool_then_answer 9) in
  let r := @Agent.call_and_run_tools W Sample.registry
             [ChatMessage "user" "How many gaps?"] 4 (initial_state []) in
  List.length (steps r) = 4
  /\ List.last (yielded r) (ChatMessage "" "") = TextOutput APOLOGY (@uuid4 W)
  /\ List.last (error_log (final r)) ("", "")
     = ("max_iterations", "Reached max iterations (4)").
Proof.
  intros W r. subst r.
  assert (Hne : [ChatMessage "user" "How many gaps?"] <> []) by discriminate.
  apply (@agent_run_exhausted W Sample.registry [ChatMessage "user" "How many gaps?"] 4
           (initial_state []) Hne).
  - vm_compute. reflexivity.
  - vm_compute. reflexivity.
Defined.

(** ** The registry *)

Lemma foldl_registry_snoc (d : gmap string ToolInfo) (tools : list ToolInfo) (tool : ToolInfo) :
  foldl (fun d tool => <[name tool := tool]> d) d (app tools [tool])
  = <[name tool := tool]> (foldl (fun d tool => <[name tool := tool]> d) d tools).
Proof. rewrite foldl_app. reflexivity. Qed.

(** X8: looking a name up in the registry built from a list of tools gives
    the last tool of the list that has this name, so a later tool replaces
    an earlier one of the same name, a name that no tool has is absent, and
    a tool found under a name has that name. *)
Theorem tools_dict_lookup (tools : list ToolInfo) (tool_name : string) :
  tools_dict tools !! tool_name = last_named tool_name tools
  /\ (forall tool, tools_dict tools !! tool_name = Some tool ->
      name tool = tool_name /\ In tool tools)
  /\ (tools_dict tools !! tool_name = None <->
      Forall (fun tool => name tool <> tool_name) tools).
Proof.
  assert (Hlookup : tools_dict tools !! tool_name = last_named tool_name tools).
  { unfold tools_dict, last_named. induction tools as [|tool tools IH] using rev_ind.
    - cbn. apply lookup_empty.
    - rewrite foldl_registry_snoc, rev_unit. cbn [List.find].
      destruct (name tool =? tool_name) eqn:E.
      + apply String.eqb_eq in E. rewrite <- E. apply lookup_insert_eq.
      + apply String.eqb_neq in E. rewrite lookup_insert_ne by exact E. exact IH. }
  split; [exact Hlookup|]. rewrite Hlookup. unfold last_named. split.
  - intros tool Hfind. apply List.find_some in Hfind as [Hin Hname].
    apply String.eqb_eq in Hname. split; [exact Hname|].
    apply in_rev. exact Hin.
  - split.
    + intros Hnone. apply Forall_forall. intros tool Hin Hname.
      assert (Hf : (name tool =? tool_name) = false).
      { apply (List.find_none _ _ Hnone tool).
        apply in_rev. rewrite rev_involutive. apply list_elem_of_In. exact Hin. }
      apply String.eqb_neq in Hf. contradiction.
    + intros Hall. destruct (List.find _ (rev tools)) as [tool|] eqn:Hfind; [|reflexivity].
      apply List.find_some in Hfind as [Hin Hname]. apply String.eqb_eq in Hname.
      rewrite Forall_forall in Hall. exfalso. apply (Hall tool); [|exact Hname].
      apply list_elem_of_In, in_rev. exact Hin.
Qed.

(** ** Tools made by [create_tool_info] *)

Lemma flatten_cons (c : ascii) (s : string) :
  PyStr.replace_go "." "__" 0 (String c s)
  = if Ascii.eqb c "." then String "_" (String "_" (PyStr.replace_go "." "__" 0 s))
    else String c (PyStr.replace_go "." "__" 0 s).
Proof.
  cbn [PyStr.replace_go String.prefix String.length Nat.sub].
  destruct (ascii_dec "." c) as [<-|Hne].
  - destruct s; reflexivity.
  - destruct (Ascii.eqb c ".") eqn:E; [|reflexivity].
    apply Ascii.eqb_eq in E. congruence.
Qed.

Lemma unflatten_flatten (s : string) :
  PyStr.contains "__" s = false -> PyStr.contains "_." s = false ->
  PyStr.replace_go "__" "." 0 (PyStr.replace_go "." "__" 0 s) = s.
Proof.
  induction s as [|c s IH]; [reflexivity|]. intros H1 H2.
  rewrite contains_cons in H1, H2.
  apply orb_false_iff in H1 as [P1 H1]. apply orb_false_iff in H2 as [P2 H2].
  specialize (IH H1 H2). rewrite flatten_cons.
  destruct (Ascii.eqb c ".") eqn:Edot.
  - apply Ascii.eqb_eq in Edot. subst c.
    cbn [PyStr.replace_go String.prefix String.length Nat.sub].
    destruct (ascii_dec "_" "_") as [_|Hne]; [|congruence].
    assert (Hp : String.prefix "" (PyStr.replace_go "." "__" 0 s) = true)
      by (destruct (PyStr.replace_go "." "__" 0 s); reflexivity).
    rewrite Hp. cbn. f_equal. exact IH.
  - cbn [PyStr.replace_go].
    assert (Hpre : String.prefix "__" (String c (PyStr.replace_go "." "__" 0 s)) = false).
    { cbn [String.prefix]. destruct (ascii_dec "_" c) as [<-|Hne]; [|reflexivity].
      destruct s as [|d s]; [reflexivity|]. rewrite flatten_cons.
      cbn [String.prefix] in P1, P2.
      destruct (ascii_dec "_" "_") as [_|Hne]; [|congruence].
      destruct (Ascii.eqb d ".") eqn:Ed.
      + apply Ascii.eqb_eq in Ed. subst d.
        destruct (ascii_dec "." ".") as [_|Hne]; [|congruence].
        destruct s; discriminate.
      + cbn [String.prefix].
        destruct (ascii_dec "_" d) as [<-|Hne]; [|reflexivity].
        destruct s; discriminate. }
    rewrite Hpre. f_equal. exact IH.
Qed.

(** X9: [udf_name] undoes the flattening of a dotted function name in which
    every "." is written "__", for every name that has no "__" and no "_."
    of its own. *)
Theorem udf_name_round_trip (dotted : string) :
  PyStr.contains "__" dotted = false ->
  PyStr.contains "_." dotted = false ->
  Agent.udf_name (PyStr.replace "." "__" dotted) = dotted.
Proof. intros H1 H2. exact (unflatten_flatten dotted H1 H2). Qed.

Lemma udf_name_round_trip_witness :
  Agent.udf_name (PyStr.replace "." "__" "dev_kiddo.silver.get_patient_360")
  = "dev_kiddo.silver.get_patient_360"
  /\ forallb (fun dotted => negb (PyStr.contains "__" dotted) && negb (PyStr.contains "_." dotted))
       Agent.UC_TOOL_NAMES = true.
Proof.
  split; [|vm_compute; reflexivity].
  apply udf_name_round_trip; vm_compute; reflexivity.
Defined.

Lemma mask_email_empty_local (email : string) :
  PyStr.first_char email = Some "@"%char -> PHIMasker.mask_email email = Raise IndexError.
Proof.
  destruct email as [|c email]; [discriminate|]. intros Hc. cbn in Hc. injection Hc as ->.
  destruct email; reflexivity.
Qed.

Lemma mask_items_raises (masked items : pydict) :
  forallb (fun kv => negb (empty_local_part kv)) items = false ->
  exists e, PHIMasker.mask_items masked items = Raise e.
Proof.
  revert masked. induction items as [|[k v] items IH]; intros masked Hbad; [discriminate|].
  cbn [forallb] in Hbad. cbn [PHIMasker.mask_items].
  destruct (PHIMasker.mask_value k v) as [v'|e] eqn:Ev; [|cbn; eauto]. cbn [bind].
  apply IH. apply andb_false_iff in Hbad as [Hkv | Hrest]; [|exact Hrest].
  exfalso. apply negb_false_iff in Hkv.
  unfold empty_local_part in Hkv. unfold PHIMasker.mask_value in Ev. cbn [fst snd] in Hkv.
  destruct (PHIMasker.should_mask_column k) as [[| | | |]|]; try discriminate.
  apply andb_true_iff in Hkv as [Ht Hc]. rewrite Ht in Ev.
  destruct (PyStr.first_char (Py.str v)) as [c|] eqn:Efc; [|discriminate].
  apply Ascii.eqb_eq in Hc. subst c.
  rewrite (mask_email_empty_local _ Efc) in Ev. discriminate.
Qed.

(** The only exception of the masks is the IndexError of [mask_email]. *)
Lemma mask_email_raises (email : string) (e : exn) :
  PHIMasker.mask_email email = Raise e -> e = IndexError.
Proof.
  unfold PHIMasker.mask_email.
  destruct ((email =? "") || negb (PyStr.contains "@" email)); [discriminate|].
  destruct (PyStr.split_once "@" email) as [[local domain]|]; [|discriminate].
  destruct (String.length local <=? 2)%nat.
  - destruct (PyStr.first_char local); cbn; intros Heq; [discriminate | congruence].
  - destruct (PyStr.first_char local); [destruct (PyStr.last_char local)|]; cbn;
      intros Heq; try discriminate; congruence.
Qed.

Lemma mask_value_raises (key : string) (value : pyval) (e : exn) :
  PHIMasker.mask_value key value = Raise e -> e = IndexError.
Proof.
  unfold PHIMasker.mask_value.
  destruct (PHIMasker.should_mask_column key) as [mt|]; [|discriminate].
  destruct (Py.truthy value); [|discriminate]. destruct mt.
  - destruct (mask_name_returns (Py.str value)) as (m & ->). discriminate.
  - discriminate.
  - discriminate.
  - destruct (PHIMasker.mask_email (Py.str value)) as [m|e'] eqn:E; cbn; [discriminate|].
    intros Heq. injection Heq as <-. exact (mask_email_raises _ _ E).
  - destruct (mask_provider_name_returns (Py.str value)) as (m & ->). discriminate.
Qed.

Lemma mask_items_raises_index (masked items : pydict) (e : exn) :
  PHIMasker.mask_items masked items = Raise e -> e = IndexError.
Proof.
  revert masked. induction items as [|[k v] items IH]; intros masked; [discriminate|].
  cbn [PHIMasker.mask_items].
  destruct (PHIMasker.mask_value k v) as [v'|e'] eqn:Ev; cbn [bind].
  - apply IH.
  - intros Heq. injection Heq as <-. exact (mask_value_raises _ _ _ Ev).
Qed.

(** X10: the executor that the earlier [create_tool_info] binds by default
    calls the service under the unflattened name and never raises.  An
    exception of the call and an error of the service come back as an error
    text and are logged.  Otherwise the result is what [mask_result] makes
    of the service's value, and nothing is logged; an exception of the
    masking comes back as an error text and is logged.  On a record with
    distinct keys the result is the masked record, with the same keys,
    unless an email column holds a text that starts with "@": then the
    whole result is replaced by the error text of an IndexError. *)
Theorem driver_default_executor `{Externals} `{FunctionClient} (depth : nat)
    (tool_spec : ToolSpec) (kwargs : pydict) :
  let tool := Driver.create_tool_info (S depth) tool_spec None in
  let udf := PyStr.replace "__" "." (function_name tool_spec) in
  let failed e := (Ok (PyStr ("Error: " ++ str_exn e)), [("function_exception", str_exn e)]) in
  name tool = function_name tool_spec
  /\ (exists v entries, exec_fn tool kwargs = (Ok v, entries))
  /\ (forall e, execute_function udf kwargs = Raise e -> exec_fn tool kwargs = failed e)
  /\ (forall fr err, execute_function udf kwargs = Ok fr -> UC.error fr = Some err ->
      exec_fn tool kwargs
      = (Ok (PyStr ("Error executing " ++ udf ++ ": " ++ err)),
         [("function_execution_error", err)]))
  /\ (forall fr, execute_function udf kwargs = Ok fr -> UC.error fr = None ->
      exec_fn tool kwargs
      = match PHIMasker.mask_result (S depth) (UC.value fr) with
        | Ok masked_result => (Ok masked_result, [])
        | Raise e => failed e
        end)
  /\ (forall fr d, execute_function udf kwargs = Ok fr -> UC.error fr = None ->
      UC.value fr = PyDict d -> NoDup (Py.keys d) ->
      if forallb (fun kv => negb (empty_local_part kv)) d
      then exists m,
             exec_fn tool kwargs = (Ok (PyDict m), [])
             /\ PHIMasker.mask_result (S depth) (PyDict d) = Ok (PyDict m)
             /\ Py.keys m = Py.keys d
             /\ Forall2 (fun kv kv' =>
                           fst kv' = fst kv
                           /\ PHIMasker.mask_value (fst kv) (snd kv) = Ok (snd kv')) d m
      else exec_fn tool kwargs = failed IndexError).
Proof.
  intros tool udf failed. subst tool failed.
  cbn [name exec_fn Driver.create_tool_info]. fold udf.
  unfold Driver.default_exec_fn.
  split; [reflexivity|]. split; [|split; [|split; [|split]]].
  - destruct (execute_function udf kwargs) as [fr|e]; [|eauto].
    destruct (UC.error fr); [eauto|].
    destruct (PHIMasker.mask_result (S depth) (UC.value fr)); eauto.
  - intros e ->. reflexivity.
  - intros fr err -> ->. reflexivity.
  - intros fr -> ->. reflexivity.
  - intros fr d -> -> -> Hnd.
    rewrite mask_result_dict. unfold PHIMasker.mask_dict.
    destruct (forallb (fun kv => negb (empty_local_part kv)) d) eqn:Eok.
    + rewrite mask_items_entries by exact Hnd.
      destruct (mask_items_returns [] d Eok) as (m & Hm).
      rewrite mask_items_entries in Hm by exact Hnd.
      destruct (traverse mask_entry d) as [m'|e] eqn:Et; [|discriminate].
      cbn in Hm. injection Hm as ->. cbn [bind app].
      exists m. split; [reflexivity|]. split; [reflexivity|].
      apply traverse_Forall2 in Et.
      assert (HF : Forall2 (fun kv kv' =>
                              fst kv' = fst kv
                              /\ PHIMasker.mask_value (fst kv) (snd kv) = Ok (snd kv')) d m).
      { clear -Et. induction Et as [|kv kv' l l' Hkv _ IH]; constructor; [|exact IH].
        unfold mask_entry in Hkv.
        destruct (PHIMasker.mask_value (fst kv) (snd kv)) as [v'|e]; [|discriminate].
        cbn in Hkv. injection Hkv as <-. split; reflexivity. }
      split; [|exact HF].
      clear -HF. unfold Py.keys. induction HF as [|kv kv' l l' [Hk _] _ IH]; [reflexivity|].
      cbn [map]. rewrite Hk, IH. reflexivity.
    + destruct (mask_items_raises [] d Eok) as (e & He).
      rewrite He. rewrite (mask_items_raises_index _ _ _ He). reflexivity.
Qed.

Lemma driver_default_executor_witness :
  let W := Sample.world (fun _ => []) in
  let tool := @Driver.create_tool_info W Sample.service_record 1
                {| function_name := "dev_kiddo__silver__get_patient_360"; required := [] |}
                None in
  exec_fn tool []
  = (Ok (PyDict [("patient_name", PyStr "J*** S***"); ("gap_type", PyStr "Flu")]), []).
Proof.
  intros W tool. subst tool.
  destruct (@driver_default_executor W Sample.service_record 0
              {| function_name := "dev_kiddo__silver__get_patient_360"; required := [] |} [])
    as (_ & _ & _ & _ & Hmasked & _).
  exact (Hmasked _ eq_refl eq_refl).
Defined.

(** ** What the input guard rejects *)

Lemma search_of_matches (r : Re.regex) (s : string) :
  Re.matches r s (fun _ => true) = true -> Re.search r s = true.
Proof.
  intros Hm. destruct s as [|c s].
  - change (Re.matches r "" (fun _ => true) || false = true). rewrite Hm. reflexivity.
  - change (Re.matches r (String c s) (fun _ => true) || Re.search r s = true).
    rewrite Hm. reflexivity.
Qed.

Lemma search_app (r : Re.regex) (pre s : string) :
  Re.search r s = true -> Re.search r (pre ++ s) = true.
Proof.
  intros Hs. induction pre as [|c pre IH]; [exact Hs|].
  change (Re.matches r (String c (pre ++ s)) (fun _ => true) || Re.search r (pre ++ s) = true).
  rewrite IH. apply orb_true_r.
Qed.

Lemma matches_seq_cons (r : Re.regex) (l : list Re.regex) (s : string) (k : string -> bool) :
  Re.matches (Re.seq (r :: l)) s k = Re.matches r s (fun s' => Re.matches (Re.seq l) s' k).
Proof. reflexivity. Qed.

(** A literal word matches any spelling of it, whatever the letter case. *)
Lemma matches_lits (word kw rest : string) (k : string -> bool) :
  PyStr.lower kw = PyStr.lower word ->
  Re.matches (Re.lits word) (kw ++ rest) k = k rest.
Proof.
  revert kw. induction word as [|c word IH]; intros [|a kw] Hl; try discriminate.
  - reflexivity.
  - unfold PyStr.lower in Hl. cbn [PyStr.map_chars] in Hl. injection Hl as Hc Hl.
    change (Ascii.eqb (PyStr.lower_char a) (PyStr.lower_char c)
            && Re.matches (Re.lits word) (kw ++ rest) k = k rest).
    rewrite Hc, Ascii.eqb_refl. cbn [andb]. apply IH. exact Hl.
Qed.

Lemma star_go_unfold (m : string -> (string -> bool) -> bool) (fuel : nat)
    (s : string) (k : string -> bool) :
  Re.star_go m fuel s k
  = k s || match fuel with
           | O => false
           | S fuel' =>
               m s (fun s' => (String.length s' <? String.length s)%nat
                              && Re.star_go m fuel' s' k)
           end.
Proof. destruct fuel; reflexivity. Qed.

(** [a*] over a run of characters of the class of [a]. *)
Lemma star_go_run (p : ascii -> bool) (m : string -> (string -> bool) -> bool)
    (run rest : string) (fuel : nat) (k : string -> bool) :
  (forall c s k', p c = true -> m (String c s) k' = k' s) ->
  string_forallb p run = true ->
  String.length run <= fuel ->
  k rest = true ->
  Re.star_go m fuel (run ++ rest) k = true.
Proof.
  intros Hm. revert fuel. induction run as [|c run IH]; intros fuel Hrun Hfuel Hk.
  - change ("" ++ rest) with rest. rewrite star_go_unfold, Hk. reflexivity.
  - cbn [string_forallb] in Hrun. apply andb_true_iff in Hrun as [Hc Hrun].
    destruct fuel as [|fuel]; [simpl in Hfuel; lia|].
    change (String c run ++ rest) with (String c (run ++ rest)).
    rewrite star_go_unfold, (Hm _ _ _ Hc).
    rewrite IH; [|exact Hrun|simpl in Hfuel; lia|exact Hk].
    assert (Hlt : (String.length (run ++ rest) <? String.length (String c (run ++ rest)))%nat
                  = true) by (apply Nat.ltb_lt; simpl; lia).
    rewrite Hlt. apply orb_true_r.
Qed.

Lemma string_app_nil_r (s : string) : s ++ "" = s.
Proof. induction s as [|c s IH]; [reflexivity|]. change (String c (s ++ "") = String c s). rewrite IH. reflexivity. Qed.

Lemma length_append_le (a b : string) : String.length a <= String.length (a ++ b).
Proof. induction a as [|c a IH]; simpl; lia. Qed.

Lemma matches_star_space (run rest : string) (k : string -> bool) :
  blank run = true -> k rest = true ->
  Re.matches (Re.Star Re.Space) (run ++ rest) k = true.
Proof.
  intros Hrun Hk. cbn [Re.matches].
  apply (star_go_run PyStr.isspace); [|exact Hrun|apply length_append_le|exact Hk].
  intros c s k' Hc. cbn [Re.matches]. rewrite Hc. reflexivity.
Qed.

Lemma matches_star_any (run rest : string) (k : string -> bool) :
  one_line run = true -> k rest = true ->
  Re.matches (Re.Star Re.AnyChar) (run ++ rest) k = true.
Proof.
  intros Hrun Hk. cbn [Re.matches].
  apply (star_go_run (fun c => negb (Ascii.eqb c Re.newline)));
    [|exact Hrun|apply length_append_le|exact Hk].
  intros c s k' Hc. cbn [Re.matches]. rewrite Hc. reflexivity.
Qed.

Lemma matches_plus_space (run rest : string) (k : string -> bool) :
  blank run = true -> run <> "" -> k rest = true ->
  Re.matches (Re.plus Re.Space) (run ++ rest) k = true.
Proof.
  intros Hrun Hne Hk. destruct run as [|c run]; [contradiction|].
  cbn [blank string_forallb] in Hrun. apply andb_true_iff in Hrun as [Hc Hrun].
  change (PyStr.isspace c && Re.matches (Re.Star Re.Space) (run ++ rest) k = true).
  rewrite Hc. cbn [andb]. apply (matches_star_space run rest k Hrun Hk).
Qed.

Lemma pattern_rejects (n : nat) (pattern : Re.regex) (user_input : string) :
  nth_error InputValidator.DANGEROUS_PATTERNS n = Some pattern ->
  Re.search pattern user_input = true ->
  fst (InputValidator.is_safe_input user_input) = false.
Proof.
  intros Hn Hs. apply guard_rejects_dangerous. apply existsb_exists.
  exists pattern. split; [|exact Hs]. exact (nth_error_In _ _ Hn).
Qed.

(** X11: the guard rejects every input that holds, anywhere and in any
    letter case, a semicolon, optional blanks and "drop table" or "delete
    from" with at least one blank between the two words, or "union select"
    with at least one blank between the two words. *)
Theorem guard_rejects_statements (pre ws1 kw1 ws2 kw2 post : string) :
  blank ws1 = true -> blank ws2 = true -> ws2 <> "" ->
  ((PyStr.lower kw1 = "drop" /\ PyStr.lower kw2 = "table"
    \/ PyStr.lower kw1 = "delete" /\ PyStr.lower kw2 = "from") ->
   fst (InputValidator.is_safe_input (pre ++ ";" ++ ws1 ++ kw1 ++ ws2 ++ kw2 ++ post)) = false)
  /\ (PyStr.lower kw1 = "union" /\ PyStr.lower kw2 = "select" ->
      fst (InputValidator.is_safe_input (pre ++ kw1 ++ ws2 ++ kw2 ++ post)) = false).
Proof.
  intros Hws1 Hws2 Hne.
  assert (Htail : forall word1 word2,
             PyStr.lower kw1 = PyStr.lower word1 -> PyStr.lower kw2 = PyStr.lower word2 ->
             Re.matches (Re.seq [Re.lits word1; Re.plus Re.Space; Re.lits word2])
               (kw1 ++ ws2 ++ kw2 ++ post) (fun _ => true) = true).
  { intros word1 word2 H1 H2. rewrite matches_seq_cons, (matches_lits word1 kw1 _ _ H1).
    rewrite matches_seq_cons. apply matches_plus_space; [exact Hws2 | exact Hne|].
    rewrite matches_seq_cons, (matches_lits word2 kw2 _ _ H2). reflexivity. }
  assert (Hsemi : forall word1 word2,
             PyStr.lower kw1 = PyStr.lower word1 -> PyStr.lower kw2 = PyStr.lower word2 ->
             Re.search (Re.seq [Re.lits ";"; Re.Star Re.Space; Re.lits word1;
                                Re.plus Re.Space; Re.lits word2])
               (pre ++ ";" ++ ws1 ++ kw1 ++ ws2 ++ kw2 ++ post) = true).
  { intros word1 word2 H1 H2. apply search_app, search_of_matches.
    rewrite matches_seq_cons, (matches_lits ";" ";" _ _ eq_refl).
    rewrite matches_seq_cons. apply matches_star_space; [exact Hws1|].
    exact (Htail word1 word2 H1 H2). }
  split.
  - intros [[H1 H2] | [H1 H2]].
    + apply (pattern_rejects 0 _ _ eq_refl). apply (Hsemi "drop" "table"); assumption.
    + apply (pattern_rejects 1 _ _ eq_refl). apply (Hsemi "delete" "from"); assumption.
  - intros [H1 H2]. apply (pattern_rejects 3 _ _ eq_refl).
    apply search_app, search_of_matches. apply (Htail "union" "select"); assumption.
Qed.

Lemma guard_rejects_statements_witness :
  fst (InputValidator.is_safe_input "'; DROP TABLE patients; --") = false
  /\ fst (InputValidator.is_safe_input "1 Union  Select mrn") = false.
Proof.
  split.
  - apply (proj1 (guard_rejects_statements "'" " " "DROP" " " "TABLE" " patients; --"
                    eq_refl eq_refl ltac:(discriminate))).
    left. split; reflexivity.
  - apply (proj2 (guard_rejects_statements "1 " "" "Union" "  " "Select" " mrn"
                    eq_refl eq_refl ltac:(discriminate))).
    split; reflexivity.
Defined.

(** X12: the guard rejects every input that ends with "--" and optional
    blanks, and every input that holds "/*" and, later on the same line,
    "*/": a plain sentence that ends with a dash pair is refused like an
    SQL comment. *)
Theorem guard_rejects_comments (pre mid post : string) :
  (blank post = true ->
   fst (InputValidator.is_safe_input (pre ++ "--" ++ post)) = false)
  /\ (one_line mid = true ->
      fst (InputValidator.is_safe_input (pre ++ "/*" ++ mid ++ "*/" ++ post)) = false).
Proof.
  split.
  - intros Hpost. apply (pattern_rejects 4 _ _ eq_refl).
    apply search_app, search_of_matches.
    rewrite matches_seq_cons, (matches_lits "--" "--" _ _ eq_refl).
    rewrite matches_seq_cons. replace post with (post ++ "") by apply string_app_nil_r.
    apply matches_star_space; [exact Hpost | reflexivity].
  - intros Hmid. apply (pattern_rejects 5 _ _ eq_refl).
    apply search_app, search_of_matches.
    rewrite matches_seq_cons, (matches_lits "/*" "/*" _ _ eq_refl).
    rewrite matches_seq_cons. apply matches_star_any; [exact Hmid|].
    rewrite matches_seq_cons, (matches_lits "*/" "*/" _ _ eq_refl). reflexivity.
Qed.

Lemma guard_rejects_comments_witness :
  fst (InputValidator.is_safe_input "Thanks, that is all --") = false
  /\ fst (InputValidator.is_safe_input "gaps /* open */ by type") = false.
Proof.
  split.
  - apply (proj1 (guard_rejects_comments "Thanks, that is all " "" "")). reflexivity.
  - apply (proj2 (guard_rejects_comments "gaps " " open " " by type")). reflexivity.
Defined.

(** X13: the guard rejects every input that holds, in any letter case, a
    semicolon, optional blanks, "update", at least one blank, any text on
    one line, at least one blank and "set". *)
Theorem guard_rejects_update (pre ws1 kw1 ws2 mid ws3 kw2 post : string) :
  blank ws1 = true -> blank ws2 = true -> ws2 <> "" ->
  one_line mid = true -> blank ws3 = true -> ws3 <> "" ->
  PyStr.lower kw1 = "update" -> PyStr.lower kw2 = "set" ->
  fst (InputValidator.is_safe_input
         (pre ++ ";" ++ ws1 ++ kw1 ++ ws2 ++ mid ++ ws3 ++ kw2 ++ post)) = false.
Proof.
  intros Hws1 Hws2 Hne2 Hmid Hws3 Hne3 H1 H2.
  apply (pattern_rejects 2 _ _ eq_refl). apply search_app, search_of_matches.
  rewrite matches_seq_cons, (matches_lits ";" ";" _ _ eq_refl).
  rewrite matches_seq_cons. apply matches_star_space; [exact Hws1|].
  rewrite matches_seq_cons, (matches_lits "update" kw1 _ _ H1).
  rewrite matches_seq_cons. apply matches_plus_space; [exact Hws2 | exact Hne2|].
  rewrite matches_seq_cons. apply matches_star_any; [exact Hmid|].
  rewrite matches_seq_cons. apply matches_plus_space; [exact Hws3 | exact Hne3|].
  rewrite matches_seq_cons, (matches_lits "set" kw2 _ _ H2). reflexivity.
Qed.

Lemma guard_rejects_update_witness :
  fst (InputValidator.is_safe_input "x; Update gaps SET status = 1") = false.
Proof.
  apply (guard_rejects_update "x" " " "Update" " " "gaps" " " "SET" " status = 1");
    try reflexivity; discriminate.
Defined.

(** ** Sanitizing the input *)

Lemma filter_chars_all (p : ascii -> bool) (s : string) :
  string_forallb p (PyStr.filter_chars p s) = true.
Proof.
  induction s as [|c s IH]; [reflexivity|]. cbn [PyStr.filter_chars].
  destruct (p c) eqn:E; [|exact IH]. cbn [string_forallb]. rewrite E, IH. reflexivity.
Qed.

Lemma filter_chars_id (p : ascii -> bool) (s : string) :
  string_forallb p s = true -> PyStr.filter_chars p s = s.
Proof.
  induction s as [|c s IH]; [reflexivity|]. cbn [string_forallb PyStr.filter_chars].
  intros Hs. apply andb_true_iff in Hs as [Hc Hs]. rewrite Hc, (IH Hs). reflexivity.
Qed.

Lemma filter_chars_length (p : ascii -> bool) (s : string) :
  String.length (PyStr.filter_chars p s) <= String.length s.
Proof.
  induction s as [|c s IH]; [reflexivity|]. cbn [PyStr.filter_chars].
  destruct (p c); simpl; lia.
Qed.

Lemma lstrip_all (p : ascii -> bool) (s : string) :
  string_forallb p s = true -> string_forallb p (PyStr.lstrip s) = true.
Proof.
  induction s as [|c s IH]; [reflexivity|]. intros Hs. cbn [PyStr.lstrip].
  destruct (PyStr.isspace c); [|exact Hs].
  cbn [string_forallb] in Hs. apply andb_true_iff in Hs as [_ Hs]. exact (IH Hs).
Qed.

Lemma rstrip_all (p : ascii -> bool) (s : string) :
  string_forallb p s = true -> string_forallb p (PyStr.rstrip s) = true.
Proof.
  induction s as [|c s IH]; [reflexivity|]. intros Hs. cbn [PyStr.rstrip].
  cbn [string_forallb] in Hs. apply andb_true_iff in Hs as [Hc Hs].
  destruct (PyStr.isspace c && (PyStr.rstrip s =? "")); [reflexivity|].
  cbn [string_forallb]. rewrite Hc, (IH Hs). reflexivity.
Qed.

Lemma lstrip_length (s : string) : String.length (PyStr.lstrip s) <= String.length s.
Proof.
  induction s as [|c s IH]; [reflexivity|]. cbn [PyStr.lstrip].
  destruct (PyStr.isspace c); simpl; lia.
Qed.

Lemma rstrip_length (s : string) : String.length (PyStr.rstrip s) <= String.length s.
Proof.
  induction s as [|c s IH]; [reflexivity|]. cbn [PyStr.rstrip].
  destruct (PyStr.isspace c && (PyStr.rstrip s =? "")); simpl; lia.
Qed.

Lemma lstrip_idempotent (s : string) : PyStr.lstrip (PyStr.lstrip s) = PyStr.lstrip s.
Proof.
  induction s as [|c s IH]; [reflexivity|]. cbn [PyStr.lstrip].
  destruct (PyStr.isspace c) eqn:E; [exact IH|]. cbn [PyStr.lstrip]. rewrite E. reflexivity.
Qed.

Lemma rstrip_idempotent (s : string) : PyStr.rstrip (PyStr.rstrip s) = PyStr.rstrip s.
Proof.
  induction s as [|c s IH]; [reflexivity|]. cbn [PyStr.rstrip].
  destruct (PyStr.isspace c && (PyStr.rstrip s =? "")) eqn:E; [reflexivity|].
  cbn [PyStr.rstrip]. rewrite IH, E. reflexivity.
Qed.

Lemma lstrip_rstrip (s : string) :
  PyStr.lstrip s = s -> PyStr.lstrip (PyStr.rstrip s) = PyStr.rstrip s.
Proof.
  destruct s as [|c s]; [reflexivity|]. cbn [PyStr.lstrip PyStr.rstrip].
  destruct (PyStr.isspace c) eqn:E.
  - intros Heq. pose proof (lstrip_length s) as Hlen. rewrite Heq in Hlen. simpl in Hlen. lia.
  - intros _. cbn [andb PyStr.lstrip]. rewrite E. reflexivity.
Qed.

Lemma strip_idempotent (s : string) : PyStr.strip (PyStr.strip s) = PyStr.strip s.
Proof.
  unfold PyStr.strip.
  rewrite (lstrip_rstrip (PyStr.lstrip s) (lstrip_idempotent s)).
  apply rstrip_idempotent.
Qed.

(** X14: the sanitized input holds no control character and no blank at
    either end, is never longer than the input, and sanitizing it again
    changes nothing. *)
Theorem sanitize_input_clean (user_input : string) :
  let sanitized := InputValidator.sanitize_input user_input in
  string_forallb (fun c => negb (InputValidator.is_control c)) sanitized = true
  /\ PyStr.strip sanitized = sanitized
  /\ String.length sanitized <= String.length user_input
  /\ InputValidator.sanitize_input sanitized = sanitized.
Proof.
  intros sanitized. subst sanitized. unfold InputValidator.sanitize_input.
  set (kept := PyStr.filter_chars (fun c => negb (InputValidator.is_control c)) user_input).
  assert (Hall : string_forallb (fun c => negb (InputValidator.is_control c)) (PyStr.strip kept)
                 = true).
  { unfold PyStr.strip. apply rstrip_all, lstrip_all. apply filter_chars_all. }
  split; [exact Hall|]. split; [apply strip_idempotent|]. split.
  - unfold PyStr.strip. pose proof (rstrip_length (PyStr.lstrip kept)).
    pose proof (lstrip_length kept).
    pose proof (filter_chars_length (fun c => negb (InputValidator.is_control c)) user_input).
    fold kept in H1. lia.
  - rewrite (filter_chars_id _ _ Hall). apply strip_idempotent.
Qed.

(** ** The earlier [predict] behind the guard *)

Lemma last_query_nonempty (input : list (string * string)) :
  last_query input <> "" -> input <> [].
Proof. intros Hq ->. apply Hq. reflexivity. Qed.

(** X15: the earlier [predict] validates the content of the last input
    message (the empty text when there is none).  When the guard rejects
    it, the response is the single item that states the reason, the
    rejection is logged as "input_validation_failed", and neither the model
    nor an executor is called.  When the guard accepts it, the response is
    either the single item of the generic error or a list of items that
    ends with the privacy notice: it ends with the notice when no model
    turn ends with an exception, and it is the generic error alone when the
    first model turn does. *)
Theorem driver_predict_guard `{Externals} (tools : gmap string ToolInfo) (prompt : string)
    (input : list (string * string)) (st : AgentState) :
  let r := Driver.predict tools prompt input st in
  let chat := map (fun m => ChatMessage (fst m) (snd m)) input in
  let sent := if negb (prompt =? "") then ChatMessage "system" prompt :: chat else chat in
  match InputValidator.is_safe_input (last_query input) with
  | (false, reason) =>
      fst r = [TextOutput ("I cannot process this request: " ++ reason) uuid4]
      /\ llm_calls (snd r) = llm_calls st
      /\ exec_calls (snd r) = exec_calls st
      /\ error_log (snd r) = app (error_log st) [("input_validation_failed", reason)]
  | (true, _) =>
      (fst r = [TextOutput Driver.PREDICT_ERROR uuid4]
       \/ exists items, fst r = app items [TextOutput Driver.PRIVACY_NOTICE uuid4])
      /\ (turns_complete ->
          exists items, fst r = app items [TextOutput Driver.PRIVACY_NOTICE uuid4])
      /\ (forall front role query e,
          input = app front [(role, query)] -> role <> "assistant" ->
          failure (model_turn sent) = Some e ->
          fst r = [TextOutput Driver.PREDICT_ERROR uuid4]
          /\ llm_calls (snd r) = app (llm_calls st) [sent])
  end.
Proof.
  intros r chat sent. subst r. unfold Driver.predict. fold (last_query input).
  destruct (InputValidator.is_safe_input (last_query input)) as [[|] reason] eqn:Eg;
    cbn [negb]; [|repeat split].
  assert (Hne : input <> []).
  { apply last_query_nonempty. intros Hq. rewrite Hq in Eg. discriminate. }
  unfold Driver.predict_stream, Driver.call_and_run_tools, Driver.to_chat_completions_input.
  fold chat. fold sent.
  assert (Hms : messages (set_messages sent (set_functions_called [] st)) <> []).
  { cbn. subst sent chat. destruct (negb (prompt =? "")); [discriminate|].
    destruct input; [contradiction | discriminate]. }
  split; [|split].
  - remember (loop (Driver.handle_tool_call tools) Driver.default_max_iter
                Driver.default_max_iter
                (set_messages sent (set_functions_called [] st))) as run eqn:Erun.
    destruct (raised run) eqn:Er.
    + left. cbn. rewrite Er. reflexivity.
    + right. cbn. eexists. reflexivity.
  - intros Hturns.
    rewrite (loop_no_exception (Driver.handle_tool_call tools) _ _ _
               (driver_handler_appends tools) Hturns Hms).
    cbn. eexists. reflexivity.
  - intros front role query e Hin Hrole Hfail.
    assert (Hnext : next_action (messages (set_messages sent (set_functions_called [] st)))
                    = Ok AskModel).
    { cbn [messages set_messages]. subst sent chat. rewrite Hin, map_app. cbn [map fst snd].
      assert (Hlast : forall l, next_action (app l [ChatMessage role query]) = Ok AskModel).
      { intros l. unfold next_action. rewrite messages_last_snoc. cbn.
        apply String.eqb_neq in Hrole. rewrite Hrole. reflexivity. }
      destruct (negb (prompt =? "")); [|apply Hlast].
      exact (Hlast (ChatMessage "system" prompt
                      :: map (fun m => ChatMessage (fst m) (snd m)) front)). }
    change Driver.default_max_iter with (S 4).
    rewrite (loop_ask_model (Driver.handle_tool_call tools) 4 (S 4) _ Hnext).
    cbn [messages set_messages]. rewrite Hfail. split; reflexivity.
Qed.

Lemma driver_predict_guard_witness :
  let r := @Driver.predict Sample.endpoint_down Sample.registry Sample.PROMPT
             [("user", "How many gaps?")] (initial_state []) in
  InputValidator.is_safe_input "How many gaps?" = (true, "Valid")
  /\ fst r = [TextOutput Driver.PREDICT_ERROR (@uuid4 Sample.endpoint_down)]
  /\ llm_calls (snd r)
     = [[ChatMessage "system" Sample.PROMPT; ChatMessage "user" "How many gaps?"]].
Proof.
  intros r. subst r.
  assert (Eg : InputValidator.is_safe_input "How many gaps?" = (true, "Valid"))
    by (vm_compute; reflexivity).
  split; [exact Eg|].
  pose proof (@driver_predict_guard Sample.endpoint_down Sample.registry Sample.PROMPT
                [("user", "How many gaps?")] (initial_state [])) as Hguard.
  cbv zeta in Hguard.
  change (last_query [("user", "How many gaps?")]) with "How many gaps?" in Hguard.
  rewrite Eg in Hguard. destruct Hguard as (_ & _ & Hfirst).
  apply (Hfirst [] "user" "How many gaps?" ValidationError eq_refl).
  - discriminate.
  - reflexivity.
Defined.

(** ** What the masks let through *)

Lemma last_n_whole (n : nat) (s : string) :
  String.length s <= n -> PyStr.last_n n s = s.
Proof.
  intros Hle. unfold PyStr.last_n, PyStr.drop.
  replace (String.length s - n) with 0 by lia. rewrite Nat.sub_0_r. apply substring_whole.
Qed.

(** X16: [mask_mrn] shows a suffix of the identifier behind "****": the
    last 4 characters of an identifier of 4 or more, the last 2 of a shorter
    one.  So an identifier of 1, 2 or 4 characters is shown in full. *)
Theorem mask_mrn_shows_suffix (mrn : string) :
  (exists hidden shown,
     mrn = hidden ++ shown
     /\ PHIMasker.mask_mrn mrn = "****" ++ shown
     /\ String.length shown
        = if (4 <=? String.length mrn)%nat then 4 else Nat.min (String.length mrn) 2)
  /\ (String.length mrn <= 2 \/ String.length mrn = 4 ->
      PHIMasker.mask_mrn mrn = "****" ++ mrn).
Proof.
  assert (Hshort : String.length mrn < 4 ->
                   PHIMasker.mask_mrn mrn = "****" ++ PyStr.last_n 2 mrn).
  { intros Hlt. unfold PHIMasker.mask_mrn. destruct (mrn =? "") eqn:E.
    - apply String.eqb_eq in E. subst. reflexivity.
    - apply Nat.ltb_lt in Hlt. rewrite Hlt. reflexivity. }
  split.
  - destruct (4 <=? String.length mrn)%nat eqn:E4.
    + apply Nat.leb_le in E4. destruct (last_n_spec 4 mrn E4) as (front & Hsplit & Hlen).
      exists front, (PyStr.last_n 4 mrn). split; [exact Hsplit|].
      split; [apply mask_mrn_long; exact E4 | exact Hlen].
    + apply Nat.leb_gt in E4. rewrite (Hshort E4).
      destruct (Nat.le_gt_cases 2 (String.length mrn)) as [H2 | H2].
      * destruct (last_n_spec 2 mrn H2) as (front & Hsplit & Hlen).
        exists front, (PyStr.last_n 2 mrn). split; [exact Hsplit|]. split; [reflexivity|].
        rewrite Hlen. lia.
      * exists "", (PyStr.last_n 2 mrn). rewrite last_n_whole by lia.
        split; [reflexivity|]. split; [reflexivity|]. lia.
  - intros [Hle | H4].
    + rewrite Hshort by lia. rewrite last_n_whole by lia. reflexivity.
    + rewrite mask_mrn_long by lia. rewrite last_n_whole by lia. reflexivity.
Qed.

Lemma take_all (p : ascii -> bool) (n : nat) (s : string) :
  string_forallb p s = true -> string_forallb p (PyStr.take n s) = true.
Proof.
  unfold PyStr.take. revert n. induction s as [|c s IH]; intros [|n] Hs; try reflexivity.
  cbn [string_forallb] in Hs. apply andb_true_iff in Hs as [Hc Hs].
  change (string_forallb p (String c (String.substring 0 n s)) = true).
  cbn [string_forallb]. rewrite Hc. exact (IH n Hs).
Qed.

(** X17: of a phone number, [mask_phone] lets through at most the first
    three of its digits: the result is "[REDACTED]" for the empty text,
    "***-****" when there are fewer than 10 digits, and otherwise
    "(ddd) ***-****", where ddd are the first three digits. *)
Theorem mask_phone_shows_area_code (phone : string) :
  let digits := PyStr.filter_chars PyStr.isdigit phone in
  (phone = "" -> PHIMasker.mask_phone phone = "[REDACTED]")
  /\ (phone <> "" -> String.length digits < 10 -> PHIMasker.mask_phone phone = "***-****")
  /\ (10 <= String.length digits ->
      exists area rest,
        digits = area ++ rest
        /\ String.length area = 3
        /\ string_forallb PyStr.isdigit area = true
        /\ PHIMasker.mask_phone phone = "(" ++ area ++ ") ***-****").
Proof.
  intros digits. unfold PHIMasker.mask_phone. fold digits. split; [|split].
  - intros ->. reflexivity.
  - intros Hne Hlt. apply String.eqb_neq in Hne. rewrite Hne.
    apply Nat.leb_gt in Hlt. rewrite Hlt. reflexivity.
  - intros Hge. destruct (phone =? "") eqn:E.
    + apply String.eqb_eq in E. subst phone digits. simpl in Hge. lia.
    + exists (PyStr.take 3 digits), (String.substring 3 (String.length digits - 3) digits).
      split; [apply substring_split; lia|]. split; [apply substring_length; lia|].
      split; [apply take_all, filter_chars_all|].
      apply Nat.leb_le in Hge. rewrite Hge. reflexivity.
Qed.

Lemma split_once_spec (c : ascii) (s l r : string) :
  PyStr.split_once c s = Some (l, r) ->
  s = l ++ String c r /\ string_forallb (fun a => negb (Ascii.eqb a c)) l = true.
Proof.
  revert l. induction s as [|a s IH]; intros l Hs; [discriminate|].
  cbn [PyStr.split_once] in Hs. destruct (Ascii.eqb a c) eqn:E.
  - injection Hs as <- <-. apply Ascii.eqb_eq in E. subst. split; reflexivity.
  - destruct (PyStr.split_once c s) as [[l' r']|]; [|discriminate].
    injection Hs as <- <-. destruct (IH l' eq_refl) as [Heq Hall].
    split; [change (String a s = String a (l' ++ String c r')); rewrite <- Heq; reflexivity|].
    cbn [string_forallb]. rewrite E, Hall. reflexivity.
Qed.

Lemma split_once_of_contains (c : ascii) (s : string) :
  PyStr.contains (PyStr.char c) s = true -> exists l r, PyStr.split_once c s = Some (l, r).
Proof.
  induction s as [|a s IH]; [discriminate|]. rewrite contains_cons. intros Hc.
  cbn [PyStr.split_once]. destruct (Ascii.eqb a c) eqn:E; [eauto|].
  destruct IH as (l & r & ->); [|eauto].
  apply orb_true_iff in Hc as [Hp | Hc]; [|exact Hc].
  unfold PyStr.char in Hp. cbn [String.prefix] in Hp.
  destruct (ascii_dec c a) as [->|Hne]; [|discriminate].
  rewrite Ascii.eqb_refl in E. discriminate.
Qed.

(** X18: [mask_email] answers "[REDACTED]" for a text without "@".
    Otherwise the text is split at its first "@": the part after it is kept
    as it is, and of the part before it the first character is kept, and
    the last one when it has more than two characters. *)
Theorem mask_email_keeps_domain (email : string) :
  (PyStr.contains "@" email = false -> PHIMasker.mask_email email = Ok "[REDACTED]")
  /\ (PyStr.contains "@" email = true ->
      exists local domain,
        email = local ++ "@" ++ domain
        /\ string_forallb (fun a => negb (Ascii.eqb a "@")) local = true
        /\ PHIMasker.mask_email email
           = match PyStr.first_char local, PyStr.last_char local with
             | Some c, Some d =>
                 Ok (PyStr.char c ++ "***"
                     ++ (if (String.length local <=? 2)%nat then "" else PyStr.char d)
                     ++ "@" ++ domain)
             | _, _ => Raise IndexError
             end).
Proof.
  unfold PHIMasker.mask_email. split.
  - intros ->. rewrite orb_true_r. reflexivity.
  - intros Hc. rewrite Hc. cbn [negb].
    destruct (email =? "") eqn:E.
    { apply String.eqb_eq in E. subst. discriminate. }
    cbn [orb].
    destruct (split_once_of_contains "@" email Hc) as (local & domain & Hs).
    rewrite Hs. destruct (split_once_spec _ _ _ _ Hs) as [Heq Hall].
    exists local, domain. split; [exact Heq|]. split; [exact Hall|].
    destruct local as [|c local].
    + reflexivity.
    + destruct (last_char_nonempty (String c local)) as (d & Hd); [discriminate|].
      rewrite Hd. change (PyStr.first_char (String c local)) with (Some c).
      destruct (String.length (String c local) <=? 2)%nat; reflexivity.
Qed.

Lemma word_no_blank (word : string) :
  is_word word = true ->
  word <> "" /\ string_forallb (fun c => negb (PyStr.isspace c)) word = true.
Proof.
  unfold is_word. intros Hw. apply andb_true_iff in Hw as [Hne Hall].
  apply negb_true_iff, String.eqb_neq in Hne. auto.
Qed.

Lemma rstrip_app_word (front word : string) :
  is_word word = true -> PyStr.rstrip (front ++ word) = front ++ word.
Proof.
  intros Hw. destruct (word_no_blank word Hw) as [Hne Hall].
  assert (Hword : forall w, string_forallb (fun c => negb (PyStr.isspace c)) w = true ->
                            PyStr.rstrip w = w).
  { induction w as [|c w IH]; [reflexivity|]. cbn [string_forallb PyStr.rstrip].
    intros Hcw. apply andb_true_iff in Hcw as [Hc Hcw]. apply negb_true_iff in Hc.
    rewrite Hc, (IH Hcw). reflexivity. }
  induction front as [|c front IH]; [exact (Hword word Hall)|].
  change (PyStr.rstrip (String c (front ++ word)) = String c (front ++ word)).
  cbn [PyStr.rstrip]. rewrite IH.
  assert (Hnz : (front ++ word =? "") = false).
  { apply String.eqb_neq. destruct front; [exact Hne | discriminate]. }
  rewrite Hnz, andb_false_r. reflexivity.
Qed.

Lemma string_app_assoc (a b c : string) : (a ++ b) ++ c = a ++ b ++ c.
Proof.
  induction a as [|x a IH]; [reflexivity|].
  change (String x ((a ++ b) ++ c) = String x (a ++ b ++ c)). rewrite IH. reflexivity.
Qed.

Lemma split_go_word (acc word : string) :
  string_forallb (fun c => negb (PyStr.isspace c)) word = true ->
  acc ++ word <> "" ->
  PyStr.split_go acc word = [acc ++ word].
Proof.
  revert acc. induction word as [|c word IH]; intros acc Hall Hne.
  - rewrite string_app_nil_r in *. cbn [PyStr.split_go].
    apply String.eqb_neq in Hne. rewrite Hne. reflexivity.
  - cbn [string_forallb] in Hall. apply andb_true_iff in Hall as [Hc Hall].
    apply negb_true_iff in Hc. cbn [PyStr.split_go]. rewrite Hc.
    rewrite IH; [|exact Hall|].
    + rewrite string_app_assoc. reflexivity.
    + rewrite string_app_assoc. exact Hne.
Qed.

Lemma blank_lstrip (s : string) : blank s = true -> PyStr.lstrip s = "".
Proof.
  unfold blank. induction s as [|c s IH]; [reflexivity|]. cbn [string_forallb PyStr.lstrip].
  intros Hs. apply andb_true_iff in Hs as [Hc Hs]. rewrite Hc. exact (IH Hs).
Qed.

Lemma blank_rstrip (s : string) : blank s = true -> PyStr.rstrip s = "".
Proof.
  unfold blank. induction s as [|c s IH]; [reflexivity|]. cbn [string_forallb PyStr.rstrip].
  intros Hs. apply andb_true_iff in Hs as [Hc Hs]. rewrite Hc, (IH Hs). reflexivity.
Qed.

Lemma lstrip_app_blank (pre s : string) :
  blank pre = true -> PyStr.lstrip (pre ++ s) = PyStr.lstrip s.
Proof.
  unfold blank. induction pre as [|c pre IH]; [reflexivity|]. cbn [string_forallb].
  intros Hs. apply andb_true_iff in Hs as [Hc Hs].
  change (String c pre ++ s) with (String c (pre ++ s)). cbn [PyStr.lstrip].
  rewrite Hc. exact (IH Hs).
Qed.

Lemma rstrip_app_blank (s post : string) :
  blank post = true -> PyStr.rstrip (s ++ post) = PyStr.rstrip s.
Proof.
  intros Hpost. induction s as [|c s IH]; [exact (blank_rstrip post Hpost)|].
  change (String c s ++ post) with (String c (s ++ post)). cbn [PyStr.rstrip].
  rewrite IH. reflexivity.
Qed.

Lemma strip_words (pre front word post : string) (c : ascii) (rest : string) :
  blank pre = true -> blank post = true -> is_word word = true ->
  front ++ word = String c rest -> PyStr.isspace c = false ->
  PyStr.strip (pre ++ (front ++ word) ++ post) = front ++ word.
Proof.
  intros Hpre Hpost Hword Hhead Hc. unfold PyStr.strip.
  rewrite (lstrip_app_blank pre _ Hpre).
  assert (Hl : PyStr.lstrip ((front ++ word) ++ post) = (front ++ word) ++ post).
  { rewrite Hhead. change (String c rest ++ post) with (String c (rest ++ post)).
    cbn [PyStr.lstrip]. rewrite Hc. reflexivity. }
  rewrite Hl, (rstrip_app_blank _ post Hpost). exact (rstrip_app_word front word Hword).
Qed.

Lemma split_go_word_then (acc w : string) (a : ascii) (rest : string) :
  string_forallb (fun c => negb (PyStr.isspace c)) w = true ->
  PyStr.isspace a = true ->
  acc ++ w <> "" ->
  PyStr.split_go acc (w ++ String a rest) = (acc ++ w) :: PyStr.split_go "" rest.
Proof.
  revert acc. induction w as [|c w IH]; intros acc Hall Ha Hne.
  - rewrite string_app_nil_r in *. change ("" ++ String a rest) with (String a rest).
    cbn [PyStr.split_go]. rewrite Ha. apply String.eqb_neq in Hne. rewrite Hne. reflexivity.
  - cbn [string_forallb] in Hall. apply andb_true_iff in Hall as [Hc Hall].
    apply negb_true_iff in Hc.
    change (String c w ++ String a rest) with (String c (w ++ String a rest)).
    cbn [PyStr.split_go]. rewrite Hc.
    rewrite IH; [|exact Hall|exact Ha|].
    + rewrite string_app_assoc. reflexivity.
    + rewrite string_app_assoc. exact Hne.
Qed.

Lemma last_char_cons (a : ascii) (s : string) :
  s <> "" -> PyStr.last_char (String a s) = PyStr.last_char s.
Proof.
  destruct s as [|b s]; [contradiction|]. intros _. unfold PyStr.last_char.
  cbn [String.length]. rewrite !Nat.sub_succ, !Nat.sub_0_r. reflexivity.
Qed.

Lemma list_last_cons {A : Type} (a d : A) (l : list A) :
  l <> [] -> List.last (a :: l) d = List.last l d.
Proof. destruct l; [contradiction | reflexivity]. Qed.

Lemma split_go_last (s word acc : string) (b : ascii) :
  is_word word = true ->
  PyStr.last_char s = Some b -> PyStr.isspace b = true ->
  List.last (PyStr.split_go acc (s ++ word)) "" = word.
Proof.
  intros Hword. destruct (word_no_blank word Hword) as [Hne Hall].
  assert (Hone : PyStr.split_go "" word = [word]) by exact (split_go_word "" word Hall Hne).
  revert acc. induction s as [|a s IH]; intros acc Hlast Hb; [discriminate|].
  change (String a s ++ word) with (String a (s ++ word)). cbn [PyStr.split_go].
  destruct s as [|a' s'].
  - injection Hlast as ->. rewrite Hb. change ("" ++ word) with word. rewrite Hone.
    destruct (acc =? ""); reflexivity.
  - rewrite last_char_cons in Hlast by discriminate.
    assert (Htail : forall acc', PyStr.split_go acc' (String a' s' ++ word) <> []).
    { intros acc' Hnil. specialize (IH acc' Hlast Hb). rewrite Hnil in IH.
      apply Hne. symmetry. exact IH. }
    destruct (PyStr.isspace a); [destruct (acc =? "")|].
    + apply IH; assumption.
    + rewrite list_last_cons by apply Htail. apply IH; assumption.
    + apply IH; assumption.
Qed.

Lemma mask_name_short (name m : string) :
  PHIMasker.mask_name name = Ok m -> String.length m <= 10.
Proof.
  unfold PHIMasker.mask_name.
  destruct ((name =? "") || (PyStr.strip name =? "")).
  - intros Heq. injection Heq as <-. simpl. lia.
  - destruct (PyStr.split (PyStr.strip name)) as [|p [|q ps]].
    + intros Heq. injection Heq as <-. simpl. lia.
    + destruct (PyStr.first_char p); [|discriminate].
      intros Heq. injection Heq as <-. simpl. lia.
    + destruct (PyStr.first_char p); [|discriminate].
      destruct (PyStr.first_char (List.last (p :: q :: ps) "")); [|discriminate].
      intros Heq. injection Heq as <-. simpl. lia.
Qed.

(** The mask of a name is decided by the words of the stripped name. *)
Lemma mask_name_parts (name stripped : string) :
  PyStr.strip name = stripped -> stripped <> "" ->
  PHIMasker.mask_name name
  = match PyStr.split stripped with
    | [] => Ok PHIMasker.REDACTED
    | [p] =>
        match PyStr.first_char p with
        | Some c => Ok (PyStr.char c ++ "***")
        | None => Raise IndexError
        end
    | p :: _ =>
        match PyStr.first_char p, PyStr.first_char (List.last (PyStr.split stripped) "") with
        | Some c, Some d => Ok (PyStr.char c ++ "*** " ++ PyStr.char d ++ "***")
        | _, _ => Raise IndexError
        end
    end.
Proof.
  intros Hs Hne. unfold PHIMasker.mask_name. rewrite Hs.
  assert (Hn : (name =? "") = false).
  { apply String.eqb_neq. intros ->. apply Hne. rewrite <- Hs. reflexivity. }
  apply String.eqb_neq in Hne. rewrite Hn, Hne. reflexivity.
Qed.

Lemma word_head (c : ascii) (w : string) :
  is_word (String c w) = true -> PyStr.isspace c = false.
Proof.
  intros Hw. destruct (word_no_blank _ Hw) as [_ Hall]. cbn [string_forallb] in Hall.
  apply andb_true_iff in Hall as [Hc _]. apply negb_true_iff in Hc. exact Hc.
Qed.

(** X19: [mask_name] on a name of 7-bit text.  A name that is empty or
    blank gives "[REDACTED]".  A name of one word, with or without blanks
    around it, gives the first character of the word followed by "***".  A
    name of several words gives the first character of the first word and
    the first character of the last word, each followed by "***" and with
    one space between them.  Nothing else of the name appears: the mask
    never raises and has at most 10 characters. *)
Theorem mask_name_shows_initials (name : string) :
  seven_bit name = true ->
  (blank name = true -> PHIMasker.mask_name name = Ok "[REDACTED]")
  /\ (forall pre c w post,
      name = pre ++ String c w ++ post ->
      blank pre = true -> is_word (String c w) = true -> blank post = true ->
      PHIMasker.mask_name name = Ok (String c "***"))
  /\ (forall pre c w mid d v post,
      name = pre ++ String c w ++ mid ++ String d v ++ post ->
      blank pre = true -> is_word (String c w) = true -> separates mid = true ->
      is_word (String d v) = true -> blank post = true ->
      PHIMasker.mask_name name = Ok (String c "*** " ++ String d "***"))
  /\ (exists m, PHIMasker.mask_name name = Ok m /\ String.length m <= 10).
Proof.
  intros _. split; [|split; [|split]].
  - intros Hblank. unfold PHIMasker.mask_name, PyStr.strip.
    rewrite (blank_lstrip name Hblank). rewrite orb_true_r. reflexivity.
  - intros pre c w post -> Hpre Hword Hpost.
    assert (Hs : PyStr.strip (pre ++ String c w ++ post) = String c w).
    { exact (strip_words pre "" (String c w) post c w Hpre Hpost Hword eq_refl
               (word_head c w Hword)). }
    rewrite (mask_name_parts _ _ Hs) by discriminate.
    destruct (word_no_blank _ Hword) as [Hne Hall].
    unfold PyStr.split. rewrite (split_go_word "" (String c w) Hall Hne). reflexivity.
  - intros pre c w mid d v post -> Hpre Hfirst Hmid Hlast Hpost.
    unfold separates in Hmid.
    destruct mid as [|a mid]; [discriminate|].
    change (PyStr.first_char (String a mid)) with (Some a) in Hmid.
    destruct (PyStr.last_char (String a mid)) as [b|] eqn:Eb; [|discriminate].
    apply andb_true_iff in Hmid as [Ha Hb].
    assert (Hs : PyStr.strip (pre ++ String c w ++ String a mid ++ String d v ++ post)
                 = (String c w ++ String a mid) ++ String d v).
    { rewrite <- (strip_words pre (String c w ++ String a mid) (String d v) post c
                    (w ++ String a mid ++ String d v) Hpre Hpost Hlast).
      - rewrite !string_app_assoc. reflexivity.
      - rewrite string_app_assoc. reflexivity.
      - exact (word_head c w Hfirst). }
    rewrite (mask_name_parts _ _ Hs) by discriminate.
    destruct (word_no_blank _ Hfirst) as [Hne1 Hall1].
    unfold PyStr.split.
    replace ((String c w ++ String a mid) ++ String d v)
      with (String c w ++ String a (mid ++ String d v))
      by (rewrite string_app_assoc; reflexivity).
    rewrite (split_go_word_then "" (String c w) a (mid ++ String d v) Hall1 Ha Hne1).
    change ("" ++ String c w) with (String c w).
    assert (Htail : List.last (PyStr.split_go "" (mid ++ String d v)) "" = String d v).
    { destruct mid as [|a' mid'].
      - destruct (word_no_blank _ Hlast) as [Hne2 Hall2].
        change ("" ++ String d v) with (String d v).
        rewrite (split_go_word "" (String d v) Hall2 Hne2). reflexivity.
      - rewrite last_char_cons in Eb by discriminate.
        exact (split_go_last _ _ "" b Hlast Eb Hb). }
    destruct (PyStr.split_go "" (mid ++ String d v)) as [|q ps] eqn:Esplit;
      [discriminate|].
    rewrite list_last_cons by discriminate. rewrite Htail. reflexivity.
  - destruct (mask_name_returns name) as (m & Hm). exists m.
    split; [exact Hm | exact (mask_name_short name m Hm)].
Qed.

Lemma mask_name_shows_initials_witness :
  PHIMasker.mask_name "  Madonna " = Ok "M***"
  /\ PHIMasker.mask_name " Mary  Jane Watson " = Ok "M*** W***".
Proof.
  split.
  - exact (proj1 (proj2 (mask_name_shows_initials "  Madonna " eq_refl))
             "  " "M"%char "adonna" " " eq_refl eq_refl eq_refl eq_refl).
  - exact (proj1 (proj2 (proj2 (mask_name_shows_initials " Mary  Jane Watson " eq_refl)))
             " " "M"%char "ary" "  Jane " "W"%char "atson" " " eq_refl eq_refl eq_refl eq_refl
             eq_refl eq_refl).
Defined.

Lemma word_not_titled (word : string) :
  is_word word = true -> PyStr.startswith "Dr. " word = false.
Proof.
  intros Hw. destruct (word_no_blank word Hw) as [_ Hall]. unfold PyStr.startswith.
  destruct word as [|a [|b [|c [|d word]]]]; cbn [String.prefix];
    repeat match goal with
           | |- context [ascii_dec ?x ?y] =>
               destruct (ascii_dec x y) as [<-|]; cbn [String.prefix]
           end; try reflexivity.
  cbn in Hall. discriminate.
Qed.

Lemma mask_provider_parts (name : string) (p : string) :
  PyStr.strip name <> "" ->
  PyStr.startswith "Dr. " name = false ->
  PyStr.split (PyStr.strip name) = [p] ->
  PHIMasker.mask_provider_name name = Ok p.
Proof.
  intros Hs Hdr Hsplit. unfold PHIMasker.mask_provider_name.
  assert (Hn : (name =? "") = false).
  { apply String.eqb_neq. intros ->. apply Hs. reflexivity. }
  apply String.eqb_neq in Hs. rewrite Hn, Hs, Hdr. cbn [orb]. rewrite Hsplit. reflexivity.
Qed.

(** X20: a provider name of a single word comes back in full, with or
    without the title "Dr. " before it: only a first name is masked, and a
    name of one word has none. *)
Theorem mask_provider_single_word (word : string) :
  is_word word = true ->
  PHIMasker.mask_provider_name word = Ok word
  /\ PHIMasker.mask_provider_name ("Dr. " ++ word) = Ok word.
Proof.
  intros Hw. destruct (word_no_blank word Hw) as [Hne Hall].
  assert (Hstrip : PyStr.strip word = word).
  { unfold PyStr.strip. destruct word as [|c word]; [contradiction|].
    cbn [string_forallb] in Hall. apply andb_true_iff in Hall as [Hc _].
    apply negb_true_iff in Hc. cbn [PyStr.lstrip]. rewrite Hc.
    exact (rstrip_app_word "" (String c word) Hw). }
  assert (Hsplit : PyStr.split word = [word]).
  { unfold PyStr.split. exact (split_go_word "" word Hall Hne). }
  split.
  - apply mask_provider_parts; rewrite ?Hstrip; [exact Hne | apply word_not_titled; exact Hw
                                                 | exact Hsplit].
  - unfold PHIMasker.mask_provider_name.
    assert (Hs : PyStr.strip ("Dr. " ++ word) = "Dr. " ++ word).
    { unfold PyStr.strip. change (PyStr.lstrip ("Dr. " ++ word)) with ("Dr. " ++ word).
      exact (rstrip_app_word "Dr. " word Hw). }
    rewrite Hs. change (("Dr. " ++ word =? "") || ("Dr. " ++ word =? "")) with false.
    cbn [orb].
    assert (Hstart : PyStr.startswith "Dr. " ("Dr. " ++ word) = true).
    { unfold PyStr.startswith. destruct word; reflexivity. }
    rewrite Hstart.
    assert (Hdrop : PyStr.drop 4 ("Dr. " ++ word) = word).
    { unfold PyStr.drop. change (String.length ("Dr. " ++ word)) with (4 + String.length word).
      replace (4 + String.length word - 4) with (String.length word) by lia.
      change (String.substring 4 (String.length word) ("Dr. " ++ word))
        with (String.substring 0 (String.length word) word).
      apply substring_whole. }
    rewrite Hdrop, Hstrip, Hsplit. reflexivity.
Qed.

Lemma mask_provider_single_word_witness :
  PHIMasker.mask_provider_name "Smith" = Ok "Smith"
  /\ PHIMasker.mask_provider_name "Dr. Smith" = Ok "Smith".
Proof. exact (mask_provider_single_word "Smith" eq_refl). Defined.

Lemma mask_value_text (key : string) (value v' : pyval) :
  PHIMasker.should_mask_column key <> None -> Py.truthy value = true ->
  PHIMasker.mask_value key value = Ok v' -> exists text, v' = PyStr text.
Proof.
  unfold PHIMasker.mask_value. intros Hk Ht.
  destruct (PHIMasker.should_mask_column key) as [mt|]; [|contradiction].
  rewrite Ht. destruct mt.
  - destruct (PHIMasker.mask_name (Py.str value)); cbn; intros Heq; [|discriminate].
    injection Heq as <-. eauto.
  - intros Heq. injection Heq as <-. eauto.
  - intros Heq. injection Heq as <-. eauto.
  - destruct (PHIMasker.mask_email (Py.str value)); cbn; intros Heq; [|discriminate].
    injection Heq as <-. eauto.
  - destruct (PHIMasker.mask_provider_name (Py.str value)); cbn; intros Heq; [|discriminate].
    injection Heq as <-. eauto.
Qed.

(** X21: on a record with distinct keys in which no email column holds a
    text that starts with "@", [mask_result] returns a record with the same
    keys in the same order; the value of a column that is no PHI, and every
    falsy value, is unchanged, and every other value has become a text. *)
Theorem mask_result_record `{Externals} (depth : nat) (d : pydict) :
  NoDup (Py.keys d) ->
  forallb (fun kv => negb (empty_local_part kv)) d = true ->
  exists m,
    PHIMasker.mask_result (S depth) (PyDict d) = Ok (PyDict m)
    /\ Py.keys m = Py.keys d
    /\ Forall2 masked_entry d m.
Proof.
  intros Hnd Hok. destruct (mask_result_dict_returns depth d Hok) as (m & Hm).
  exists m. split; [exact Hm|].
  rewrite mask_result_dict in Hm. unfold PHIMasker.mask_dict in Hm.
  rewrite mask_items_entries in Hm by exact Hnd.
  destruct (traverse mask_entry d) as [m'|e] eqn:Et; [|discriminate].
  cbn in Hm. injection Hm as ->. apply traverse_Forall2 in Et.
  assert (HF : Forall2 masked_entry d m).
  { clear -Et. induction Et as [|kv kv' l l' Hkv _ IH]; constructor; [|exact IH].
    unfold mask_entry in Hkv.
    destruct (PHIMasker.mask_value (fst kv) (snd kv)) as [v'|e] eqn:Ev; [|discriminate].
    cbn in Hkv. injection Hkv as <-. split; [reflexivity|]. split.
    - intros Hframe. rewrite (mask_value_frame _ _ Hframe) in Ev. cbn. congruence.
    - intros [Hk Ht]. exact (mask_value_text _ _ _ Hk Ht Ev). }
  split; [|exact HF].
  clear -HF. unfold Py.keys. induction HF as [|kv kv' l l' [Hk _] _ IH]; [reflexivity|].
  cbn [map]. rewrite Hk, IH. reflexivity.
Qed.

Lemma mask_result_record_witness :
  exists m,
    @PHIMasker.mask_result (Sample.world (fun _ => [])) 1 (PyDict Sample.record) = Ok (PyDict m)
    /\ Py.keys m = ["patient_name"; "gap_type"].
Proof.
  destruct (@mask_result_record (Sample.world (fun _ => [])) 0 Sample.record)
    as (m & Hm & Hkeys & _).
  - apply (bool_decide_unpack _). vm_compute. exact I.
  - reflexivity.
  - exists m. split; [exact Hm | exact Hkeys].
Defined.

(** ** Repairing a name with a hallucinated suffix *)

Lemma replace_go_past (tok new front rest : string) (t : ascii) (tok' : string) :
  tok = String t tok' ->
  string_forallb (fun c => negb (Ascii.eqb c t)) front = true ->
  PyStr.replace_go tok new 0 (front ++ rest) = front ++ PyStr.replace_go tok new 0 rest.
Proof.
  intros -> Hfront. induction front as [|c front IH]; [reflexivity|].
  cbn [string_forallb] in Hfront. apply andb_true_iff in Hfront as [Hc Hfront].
  apply negb_true_iff in Hc.
  change (String c front ++ rest) with (String c (front ++ rest)).
  cbn [PyStr.replace_go String.prefix].
  destruct (ascii_dec t c) as [->|Hne]; [rewrite Ascii.eqb_refl in Hc; discriminate|].
  rewrite (IH Hfront). reflexivity.
Qed.

Lemma no_bracket_each (s : string) :
  no_bracket s = true ->
  string_forallb (fun c => negb (Ascii.eqb c "<")) s = true
  /\ string_forallb (fun c => negb (Ascii.eqb c "|")) s = true.
Proof.
  unfold no_bracket. induction s as [|c s IH]; [auto|]. cbn [string_forallb].
  intros Hs. apply andb_true_iff in Hs as [Hc Hs].
  apply andb_true_iff in Hc as [Hc _]. apply andb_true_iff in Hc as [H1 H2].
  destruct (IH Hs) as [I1 I2]. rewrite H1, H2, I1, I2. auto.
Qed.

Lemma absent_first_char (tok s : string) (t : ascii) (tok' : string) :
  tok = String t tok' ->
  string_forallb (fun c => negb (Ascii.eqb c t)) s = true ->
  PyStr.contains tok s = false.
Proof.
  intros -> Hs. induction s as [|c s IH]; [reflexivity|].
  cbn [string_forallb] in Hs. apply andb_true_iff in Hs as [Hc Hs].
  apply negb_true_iff in Hc. rewrite contains_cons, (IH Hs). cbn [String.prefix].
  destruct (ascii_dec t c) as [->|Hne]; [rewrite Ascii.eqb_refl in Hc; discriminate|].
  reflexivity.
Qed.

(** The token [commentary] has no border: behind a first character that
    does not start an occurrence, appending the token starts none. *)
Lemma commentary_no_border (c : ascii) (s : string) :
  String.prefix "commentary" (String c s) = false ->
  String.prefix "commentary" (String c (s ++ "commentary")) = false.
Proof.
  intros Hp.
  do 9 (destruct s as [|? s];
        [clear Hp; cbv [String.append String.prefix];
         repeat match goal with
                | |- context [ascii_dec ?x ?y] =>
                    let e := fresh "e" in
                    destruct (ascii_dec x y) as [e|]; [try discriminate e; try subst|]
                end; reflexivity|]).
  cbv [String.append String.prefix] in Hp |- *.
  repeat match goal with
         | |- context [ascii_dec ?x ?y] =>
             let e := fresh "e" in
             destruct (ascii_dec x y) as [e|]; [try discriminate e; try subst|]
         end; try reflexivity.
  destruct s; discriminate.
Qed.

Lemma replace_go_commentary_suffix (n : string) :
  PyStr.contains "commentary" n = false ->
  PyStr.replace_go "commentary" "" 0 (n ++ "commentary") = n.
Proof.
  induction n as [|c n IH]; intros Hc; [reflexivity|].
  rewrite contains_cons in Hc. apply orb_false_iff in Hc as [Hp Hn].
  change (String c n ++ "commentary") with (String c (n ++ "commentary")).
  cbn [PyStr.replace_go]. rewrite (commentary_no_border c n Hp).
  f_equal. exact (IH Hn).
Qed.

(** X22: the repair undoes the hallucination its docstring names.  For
    every name without the bracket characters [<], [|], [>] and without
    the words [channel] and [commentary], repairing the name followed by
    [<|channel|>commentary] gives the name back. *)
Theorem sanitize_strips_channel_suffix (n : string) :
  no_bracket n = true ->
  PyStr.contains "channel" n = false ->
  PyStr.contains "commentary" n = false ->
  Agent._sanitize_function_name (n ++ "<|channel|>commentary") = n.
Proof.
  intros Hb Hch Hco. destruct (no_bracket_each n Hb) as [Hlt Hbar].
  unfold Agent._sanitize_function_name.
  assert (E : (n ++ "<|channel|>commentary" =? "") = false).
  { destruct n; reflexivity. }
  rewrite E. unfold Agent.bad_tokens. cbn [fold_left].
  unfold PyStr.replace at 6.
  change ("<|channel|>" =? "") with false. cbv iota.
  rewrite (replace_go_past "<|channel|>" "" n "<|channel|>commentary" "<" "|channel|>"
             eq_refl Hlt).
  change (PyStr.replace_go "<|channel|>" "" 0 "<|channel|>commentary") with "commentary".
  unfold PyStr.replace at 5.
  change ("<|commentary|>" =? "") with false. cbv iota.
  rewrite (replace_go_past "<|commentary|>" "" n "commentary" "<" "|commentary|>"
             eq_refl Hlt).
  change (PyStr.replace_go "<|commentary|>" "" 0 "commentary") with "commentary".
  unfold PyStr.replace at 4.
  change ("commentary" =? "") with false. cbv iota.
  rewrite (replace_go_commentary_suffix n Hco).
  rewrite (replace_absent _ _ _ Hch).
  rewrite (replace_absent _ _ _ (absent_first_char "<|" n "<" "|" eq_refl Hlt)).
  rewrite (replace_absent _ _ _ (absent_first_char "|>" n "|" ">" eq_refl Hbar)).
  reflexivity.
Qed.

Lemma sanitize_strips_channel_suffix_witness :
  Agent._sanitize_function_name
    ("dev_kiddo__silver__get_statistics" ++ "<|channel|>commentary")
  = "dev_kiddo__silver__get_statistics".
Proof.
  apply (sanitize_strips_channel_suffix "dev_kiddo__silver__get_statistics");
    reflexivity.
Defined.
